(** * BingoBot: the event lifecycle, team assignment and approval workflow

    A shallow embedding of [bingobot.py].  The SQLite tables become lists of
    rows kept in insertion order, the methods of [BingoDB] become functions
    on the database value, and the asynchronous handlers become computations
    in a small state-and-exception monad that journals every SQL write and
    every outbound Discord call.

    Each handler is run to completion from the state it is started in;
    interleavings of two handlers at their [await] points are not modelled.
    The primary keys enforced by SQLite appear as hypotheses ([bingos_pk],
    [signups_pk], [teams_pk], [approvals_pk]) where a statement needs them.

    The connection runs with [PRAGMA foreign_keys = ON]: an insert into
    [signups], [teams] or [submissions] for an event that is not stored, or
    into [approvals] for a submission that is not stored, raises
    [IntegrityError] and stores nothing.  The insert functions below give
    the table after an insert that SQLite accepts; a statement about one of
    them alone carries the hypothesis that the parent row is stored
    ([event_stored]), and the handlers only ever insert for the id of a row
    they have just read.  A query without [ORDER BY], or with ties under its
    [ORDER BY], leaves the order of its rows to SQLite; such lists are kept
    in insertion order and the statements do not depend on it. *)

From Stdlib Require Import ZArith List String Bool Lia Permutation.
From Stdlib Require Import Sorting.Sorted.
Import ListNotations.

Open Scope string_scope.
Open Scope list_scope.
Open Scope Z_scope.

(** ** Constants *)

Definition SIGNUP_EMOJI : string := "âœ…".
Definition UNSIGN_EMOJI : string := "âŒ".
Definition APPROVE_EMOJI : string := "ðŸ‘".

(** ** Rows of the six tables *)

Record GuildSettings := mkGuildSettings {
  gs_guild_id : Z;
  gs_signup_channel_id : Z;
  gs_submissions_channel_id : Z;
  gs_announcements_channel_id : Z;
  gs_board_channel_id : Z
}.

(** Timestamps are stored as ISO strings and parsed back with
    [datetime.fromisoformat]; they are kept here as seconds on the UTC axis. *)
Record BingoRow := mkBingo {
  b_id : Z;
  b_guild_id : Z;
  b_name : string;
  b_game_mode : string;
  b_team_size : Z;
  b_team_mode : string;
  b_notify_role_id : option Z;
  b_start_utc : Z;
  b_end_utc : option Z;
  b_signup_close_utc : Z;
  b_show_board_when : string;
  b_approvals_mode : string;
  b_approvals_required : Z;
  b_status : string;
  b_signup_message_id : option Z;
  b_leaderboard_message_id : option Z;
  b_board_image_path : option string;
  b_created_by_user_id : Z;
  b_created_at_utc : Z
}.

Record SignupRow := mkSignup {
  su_bingo_id : Z;
  su_user_id : Z;
  su_joined_at_utc : Z
}.

Record TeamRow := mkTeam {
  t_bingo_id : Z;
  t_team_number : Z;
  t_user_id : Z
}.

Record SubmissionRow := mkSubmission {
  s_id : Z;
  s_bingo_id : Z;
  s_user_id : Z;
  s_description : string;
  s_kind : string;
  s_created_at_utc : Z;
  s_message_id : Z;
  s_attachment_path : string;
  s_status : string;
  s_approvals_required : Z
}.

Record ApprovalRow := mkApproval {
  a_submission_id : Z;
  a_user_id : Z;
  a_approved_at_utc : Z
}.

Record DB := mkDB {
  guild_settings : list GuildSettings;
  bingos : list BingoRow;
  signups : list SignupRow;
  teams : list TeamRow;
  submissions : list SubmissionRow;
  approvals : list ApprovalRow
}.

(** ** Generic helpers *)

(** [ORDER BY] and [sorted]: a stable insertion sort on a boolean order. *)
Section Sort.
Context {A : Type} (leb : A -> A -> bool).

Fixpoint insert_sorted (x : A) (l : list A) : list A :=
  match l with
  | [] => [x]
  | y :: r => if leb x y then x :: y :: r else y :: insert_sorted x r
  end.

Fixpoint isort (l : list A) : list A :=
  match l with
  | [] => []
  | x :: r => insert_sorted x (isort r)
  end.
End Sort.

(** Python truthiness of an optional integer column: [None] and [0] are false. *)
Definition truthy_id (o : option Z) : bool :=
  match o with
  | Some v => negb (v =? 0)
  | None => false
  end.

(** Python truthiness of an optional string: [None] and [""] are false. *)
Definition truthy_str (o : option string) : bool :=
  match o with
  | Some s => negb (String.eqb s "")
  | None => false
  end.

Definition in_strs (s : string) (l : list string) : bool :=
  existsb (String.eqb s) l.

(** ** The methods of [BingoDB] *)

Module BingoDB.

Definition get_guild_settings (guild_id : Z) (db : DB) : option GuildSettings :=
  find (fun g => gs_guild_id g =? guild_id) (guild_settings db).

(** [ORDER BY id DESC LIMIT 1]: the row of greatest id. *)
Fixpoint latest (l : list BingoRow) : option BingoRow :=
  match l with
  | [] => None
  | b :: r =>
      match latest r with
      | None => Some b
      | Some c => if b_id c <? b_id b then Some b else Some c
      end
  end.

Definition get_active_bingo (guild_id : Z) (db : DB) : option BingoRow :=
  latest (filter (fun b => (b_guild_id b =? guild_id)
                           && in_strs (b_status b)
                                ["setup"; "signup_open"; "signup_closed"; "running"])
                 (bingos db)).

Definition with_status (status : string) (b : BingoRow) : BingoRow :=
  mkBingo (b_id b) (b_guild_id b) (b_name b) (b_game_mode b) (b_team_size b)
          (b_team_mode b) (b_notify_role_id b) (b_start_utc b) (b_end_utc b)
          (b_signup_close_utc b) (b_show_board_when b) (b_approvals_mode b)
          (b_approvals_required b) status (b_signup_message_id b)
          (b_leaderboard_message_id b) (b_board_image_path b)
          (b_created_by_user_id b) (b_created_at_utc b).

Definition with_leaderboard_message_id (m : Z) (b : BingoRow) : BingoRow :=
  mkBingo (b_id b) (b_guild_id b) (b_name b) (b_game_mode b) (b_team_size b)
          (b_team_mode b) (b_notify_role_id b) (b_start_utc b) (b_end_utc b)
          (b_signup_close_utc b) (b_show_board_when b) (b_approvals_mode b)
          (b_approvals_required b) (b_status b) (b_signup_message_id b)
          (Some m) (b_board_image_path b)
          (b_created_by_user_id b) (b_created_at_utc b).

Definition update_bingos (f : list BingoRow -> list BingoRow) (db : DB) : DB :=
  mkDB (guild_settings db) (f (bingos db)) (signups db) (teams db)
       (submissions db) (approvals db).

Definition update_signups (f : list SignupRow -> list SignupRow) (db : DB) : DB :=
  mkDB (guild_settings db) (bingos db) (f (signups db)) (teams db)
       (submissions db) (approvals db).

Definition update_teams (f : list TeamRow -> list TeamRow) (db : DB) : DB :=
  mkDB (guild_settings db) (bingos db) (signups db) (f (teams db))
       (submissions db) (approvals db).

Definition update_submissions (f : list SubmissionRow -> list SubmissionRow)
           (db : DB) : DB :=
  mkDB (guild_settings db) (bingos db) (signups db) (teams db)
       (f (submissions db)) (approvals db).

Definition update_approvals (f : list ApprovalRow -> list ApprovalRow)
           (db : DB) : DB :=
  mkDB (guild_settings db) (bingos db) (signups db) (teams db)
       (submissions db) (f (approvals db)).

Definition set_leaderboard_message_id (bingo_id message_id : Z) : DB -> DB :=
  update_bingos
    (map (fun b => if b_id b =? bingo_id
                   then with_leaderboard_message_id message_id b else b)).

Definition set_status (bingo_id : Z) (status : string) : DB -> DB :=
  update_bingos
    (map (fun b => if b_id b =? bingo_id then with_status status b else b)).

(** *** signups *)

Definition signup_key (bingo_id user_id : Z) (r : SignupRow) : bool :=
  (su_bingo_id r =? bingo_id) && (su_user_id r =? user_id).

(** [INSERT OR IGNORE]: a row with the same primary key blocks the insert.
    The table after an insert that the foreign key to [bingos] admits. *)
Definition add_signup (bingo_id user_id now : Z) : DB -> DB :=
  update_signups
    (fun rows => if existsb (signup_key bingo_id user_id) rows then rows
                 else rows ++ [mkSignup bingo_id user_id now]).

Definition remove_signup (bingo_id user_id : Z) : DB -> DB :=
  update_signups (filter (fun r => negb (signup_key bingo_id user_id r))).

(** No [ORDER BY]: the order of the users is SQLite's choice. *)
Definition list_signups (bingo_id : Z) (db : DB) : list Z :=
  map su_user_id (filter (fun r => su_bingo_id r =? bingo_id) (signups db)).

(** *** teams *)

Definition clear_teams (bingo_id : Z) : DB -> DB :=
  update_teams (filter (fun r => negb (t_bingo_id r =? bingo_id))).

Definition team_key (bingo_id user_id : Z) (r : TeamRow) : bool :=
  (t_bingo_id r =? bingo_id) && (t_user_id r =? user_id).

(** [INSERT ... ON CONFLICT(bingo_id, user_id) DO UPDATE SET team_number]:
    the table after an upsert that the foreign key to [bingos] admits. *)
Fixpoint upsert_team (bingo_id user_id team_number : Z) (rows : list TeamRow)
  : list TeamRow :=
  match rows with
  | [] => [mkTeam bingo_id team_number user_id]
  | r :: rest =>
      if team_key bingo_id user_id r
      then mkTeam bingo_id team_number user_id :: rest
      else r :: upsert_team bingo_id user_id team_number rest
  end.

Definition set_team (bingo_id user_id team_number : Z) : DB -> DB :=
  update_teams (upsert_team bingo_id user_id team_number).

Definition get_team (bingo_id user_id : Z) (db : DB) : option Z :=
  option_map t_team_number (find (team_key bingo_id user_id) (teams db)).

(** [ORDER BY team_number ASC]: the order within a team is SQLite's
    choice. *)
Definition list_teams (bingo_id : Z) (db : DB) : list (Z * Z) :=
  map (fun r => (t_team_number r, t_user_id r))
      (isort (fun x y => t_team_number x <=? t_team_number y)
             (filter (fun r => t_bingo_id r =? bingo_id) (teams db))).

(** *** timing *)

Definition get_due_actions (db : DB) : list BingoRow :=
  isort (fun x y => b_id y <=? b_id x)
        (filter (fun b => in_strs (b_status b)
                            ["signup_open"; "signup_closed"; "running"])
                (bingos db)).

(** *** submissions and approvals *)

(** [AUTOINCREMENT]: one more than the greatest id handed out so far.  The
    program never deletes a submission, so that is the greatest id in the
    table.  [create_submission] gives the table after an insert that the
    foreign key to [bingos] admits, [add_approval] the one after an insert
    that the foreign key to [submissions] admits. *)
Definition next_submission_id (db : DB) : Z :=
  1 + fold_right Z.max 0 (map s_id (submissions db)).

Definition create_submission
           (bingo_id user_id : Z) (description kind : string)
           (now message_id : Z) (attachment_path status : string)
           (approvals_required : Z) (db : DB) : DB :=
  update_submissions
    (fun rows => rows ++ [mkSubmission (next_submission_id db) bingo_id user_id
                                       description kind now message_id
                                       attachment_path status approvals_required])
    db.

Definition get_submission_by_message (message_id : Z) (db : DB)
  : option SubmissionRow :=
  find (fun s => s_message_id s =? message_id) (submissions db).

Definition approval_key (submission_id user_id : Z) (r : ApprovalRow) : bool :=
  (a_submission_id r =? submission_id) && (a_user_id r =? user_id).

Definition add_approval (submission_id user_id now : Z) : DB -> DB :=
  update_approvals
    (fun rows => if existsb (approval_key submission_id user_id) rows then rows
                 else rows ++ [mkApproval submission_id user_id now]).

Definition count_approvals (submission_id : Z) (db : DB) : Z :=
  Z.of_nat (List.length (filter (fun r => a_submission_id r =? submission_id)
                           (approvals db))).

Definition with_s_status (status : string) (s : SubmissionRow) : SubmissionRow :=
  mkSubmission (s_id s) (s_bingo_id s) (s_user_id s) (s_description s) (s_kind s)
               (s_created_at_utc s) (s_message_id s) (s_attachment_path s)
               status (s_approvals_required s).

Definition set_submission_status (submission_id : Z) (status : string) : DB -> DB :=
  update_submissions
    (map (fun s => if s_id s =? submission_id then with_s_status status s else s)).

(** The [WHERE] clause of the leaderboard query. *)
Definition counts_for (bingo_id : Z) (s : SubmissionRow) : bool :=
  (s_bingo_id s =? bingo_id)
  && String.eqb (s_status s) "approved"
  && String.eqb (s_kind s) "full_tile".

(** [submissions s JOIN teams t ON ...] filtered by the [WHERE] clause: one
    (team_number, s.id) pair per matching pair of rows. *)
Definition joined (bingo_id : Z) (db : DB) : list (Z * Z) :=
  flat_map
    (fun s =>
       if counts_for bingo_id s
       then map (fun t => (t_team_number t, s_id s))
                (filter (fun t => (t_bingo_id t =? s_bingo_id s)
                                  && (t_user_id t =? s_user_id s))
                        (teams db))
       else [])
    (submissions db).

(** [GROUP BY t.team_number] with [COUNT(s.id)]. *)
Definition group_count (rows : list (Z * Z)) : list (Z * Z) :=
  map (fun tn => (tn, Z.of_nat (List.length (filter (fun r => fst r =? tn) rows))))
      (nodup Z.eq_dec (map fst rows)).

(** [ORDER BY cnt DESC, t.team_number ASC] on (team_number, cnt) pairs. *)
Definition lb_before (x y : Z * Z) : bool :=
  (snd y <? snd x) || ((snd x =? snd y) && (fst x <=? fst y)).

Definition leaderboard_counts (bingo_id : Z) (db : DB) : list (Z * Z) :=
  isort lb_before (group_count (joined bingo_id db)).

End BingoDB.
Import BingoDB.

(** ** The journal: SQL writes, Discord calls and log lines *)

(** One constructor per mutating statement issued by [BingoDB]. *)
Inductive Stmt :=
| SetStatus (bingo_id : Z) (status : string)
| SetLeaderboardMessageId (bingo_id message_id : Z)
| AddSignup (bingo_id user_id joined_at : Z)
| RemoveSignup (bingo_id user_id : Z)
| ClearTeams (bingo_id : Z)
| SetTeam (bingo_id user_id team_number : Z)
| CreateSubmission (bingo_id user_id : Z) (description kind : string)
                   (created_at message_id : Z) (attachment_path status : string)
                   (approvals_required : Z)
| AddApproval (submission_id user_id approved_at : Z)
| SetSubmissionStatus (submission_id : Z) (status : string).

Definition run_stmt (st : Stmt) : DB -> DB :=
  match st with
  | SetStatus b s => set_status b s
  | SetLeaderboardMessageId b m => set_leaderboard_message_id b m
  | AddSignup b u t => add_signup b u t
  | RemoveSignup b u => remove_signup b u
  | ClearTeams b => clear_teams b
  | SetTeam b u n => set_team b u n
  | CreateSubmission b u d k t m p s r => create_submission b u d k t m p s r
  | AddApproval s u t => add_approval s u t
  | SetSubmissionStatus s st' => set_submission_status s st'
  end.

(** The lines of the two multi-line messages. *)
Inductive Line :=
| LineNoApproved                          (* "No approved full-tile submissions yet." *)
| LineCount (team_num cnt : Z)            (* "Team {team_num}: **{cnt}**" *)
| LineTeam (tn : Z) (members : list Z).   (* "**Team {tn}:** <@u> <@u> ..." *)

(** The texts the bot sends, kept structured instead of formatted. *)
Inductive Content :=
| TxtNoActiveBingo
| TxtNotConfigured
| TxtSubmitIn (channel_id : Z)
| TxtAttachImage
| TxtAskKind
| TxtMisconfigured
| TxtSubmission (description : string) (author : Z) (kind path : string)
| TxtAwaiting (author : Z)
| TxtApproved (message_id : Z)
| TxtSignupsClosed (name : string) (lines : list Line)
| TxtStarted (name : string)
| TxtBoard (name path : string)
| TxtLeaderboard (name : string) (lines : list Line).

(** Calls into discord.py that reach the platform. *)
Inductive Effect :=
| Send (channel_id : Z) (content : Content)
| FetchMessage (channel_id message_id : Z)
| EditMessage (channel_id message_id : Z) (content : Content)
| AddReaction (message_id : Z) (emoji : string)
| SaveAttachment (path : string).

Inductive LogEntry :=
| LogBoardFailed
| LogLeaderboardFailed
| LogTickError
| LogSubmissionCreated (message_id submission_id : Z).

Inductive Action :=
| Sql (st : Stmt)
| Out (e : Effect)
| Failed (e : Effect)
| Logged (l : LogEntry).

Definition Journal := list Action.

(** ** The environment of the bot *)

Record Permissions := mkPermissions {
  manage_guild : bool;
  administrator : bool
}.

(** Everything the handlers read from outside the database.  The clock, the
    shuffle and the outcome of a platform call may depend on what happened so
    far, so they take the journal; [deliver] returns [None] when the call
    raises and the id of the message otherwise. *)
Record Env := mkEnv {
  bot_user_id : Z;
  clock : Journal -> Z;
  random_shuffle : Journal -> list Z -> list Z;
  guild_known : Z -> bool;
  text_channel : Z -> Z -> bool;
  cached_member : Z -> Z -> option Permissions;
  fetched_member : Z -> Z -> option Permissions;
  deliver : Journal -> Effect -> option Z;
  strip_lower : string -> string;
  submission_path : Z -> Z -> Z -> string -> string
}.

(** ** The monad of the handlers *)

Record World := mkWorld {
  w_db : DB;
  w_journal : Journal
}.

Inductive Res (A : Type) :=
| Done (a : A) (w : World)
| Raised (w : World).
Arguments Done {A} a w.
Arguments Raised {A} w.

Definition M (A : Type) := World -> Res A.

Definition ret {A} (a : A) : M A := fun w => Done a w.

Definition bind {A B} (m : M A) (f : A -> M B) : M B :=
  fun w => match m w with
           | Done a w' => f a w'
           | Raised w' => Raised w'
           end.

Notation "x <- c1 ;; c2" := (bind c1 (fun x => c2))
  (at level 61, c1 at next level, right associativity).
Notation "c1 ;; c2" := (bind c1 (fun _ => c2))
  (at level 61, right associativity).

(** The world a computation stops in, whether it returned or raised. *)
Definition final {A} (r : Res A) : World :=
  match r with
  | Done _ w => w
  | Raised w => w
  end.

Definition record (a : Action) (w : World) : World :=
  mkWorld (w_db w) (w_journal w ++ [a]).

Definition exec (st : Stmt) : M unit :=
  fun w => Done tt (mkWorld (run_stmt st (w_db w)) (w_journal w ++ [Sql st])).

Definition query {A} (q : DB -> A) : M A :=
  fun w => Done (q (w_db w)) w.

Definition log (l : LogEntry) : M unit :=
  fun w => Done tt (record (Logged l) w).

(** [try: body except Exception: handler]. *)
Definition try_except {A} (body handler : M A) : M A :=
  fun w => match body w with
           | Done a w' => Done a w'
           | Raised w' => handler w'
           end.

Fixpoint for_each {A} (f : A -> M unit) (l : list A) : M unit :=
  match l with
  | [] => ret tt
  | x :: r => f x ;; for_each f r
  end.

Fixpoint enumerate {A} (start : Z) (l : list A) : list (Z * A) :=
  match l with
  | [] => []
  | x :: r => (start, x) :: enumerate (start + 1) r
  end.

(** [bucket.setdefault(tn, []).append(uid)] on an insertion-ordered dict. *)
Fixpoint bucket_append (tn uid : Z) (bucket : list (Z * list Z))
  : list (Z * list Z) :=
  match bucket with
  | [] => [(tn, [uid])]
  | (k, us) :: r =>
      if k =? tn then (k, us ++ [uid]) :: r
      else (k, us) :: bucket_append tn uid r
  end.

Definition bucket_get (tn : Z) (bucket : list (Z * list Z)) : list Z :=
  match find (fun kv => fst kv =? tn) bucket with
  | Some kv => snd kv
  | None => []
  end.

Definition team_lines (teams : list (Z * Z)) : list Line :=
  let bucket := fold_left (fun b r => bucket_append (fst r) (snd r) b) teams [] in
  map (fun tn => LineTeam tn (bucket_get tn bucket))
      (isort Z.leb (map fst bucket)).

Definition leaderboard_lines (counts : list (Z * Z)) : list Line :=
  match counts with
  | [] => [LineNoApproved]
  | _ => map (fun r => LineCount (fst r) (snd r)) counts
  end.

Definition has_capability (member : option Permissions) : bool :=
  match member with
  | Some m => manage_guild m || administrator m
  | None => false
  end.

Record Payload := mkPayload {
  p_user_id : Z;
  p_guild_id : option Z;
  p_message_id : Z;
  p_emoji : string
}.

Record Channel := mkChannel {
  ch_id : Z;
  ch_is_text : bool
}.

(** ** The handlers *)

Section Handlers.
Variable env : Env.

Definition utc_now : M Z :=
  fun w => Done (clock env (w_journal w)) w.

Definition shuffled (l : list Z) : M (list Z) :=
  fun w => Done (random_shuffle env (w_journal w) l) w.

(** An awaited platform call: it either lands or raises. *)
Definition perform (e : Effect) : M Z :=
  fun w => match deliver env (w_journal w) e with
           | Some v => Done v (record (Out e) w)
           | None => Raised (record (Failed e) w)
           end.

Definition db_add_signup (bingo_id user_id : Z) : M unit :=
  now <- utc_now ;; exec (AddSignup bingo_id user_id now).

Definition db_add_approval (submission_id user_id : Z) : M unit :=
  now <- utc_now ;; exec (AddApproval submission_id user_id now).

Definition db_create_submission (bingo_id user_id : Z) (description kind : string)
           (message_id : Z) (attachment_path status : string)
           (approvals_required : Z) : M Z :=
  now <- utc_now ;;
  sid <- query next_submission_id ;;
  exec (CreateSubmission bingo_id user_id description kind now message_id
                         attachment_path status approvals_required) ;;
  ret sid.

Definition try_send_board (guild : Z) (gs : GuildSettings) (bingo : BingoRow)
  : M unit :=
  match b_board_image_path bingo with
  | None => ret tt
  | Some path =>
      if String.eqb path "" then ret tt else
      let ch := gs_board_channel_id gs in
      if negb (text_channel env guild ch) then ret tt else
      try_except
        (perform (Send ch (TxtBoard (b_name bingo) path)) ;; ret tt)
        (log LogBoardFailed)
  end.

Definition update_leaderboard (guild : Z) (gs : GuildSettings) (bingo : BingoRow)
  : M unit :=
  let ann := gs_announcements_channel_id gs in
  if negb (text_channel env guild ann) then ret tt else
  counts <- query (leaderboard_counts (b_id bingo)) ;;
  let content := TxtLeaderboard (b_name bingo) (leaderboard_lines counts) in
  let lb_id := b_leaderboard_message_id bingo in
  try_except
    (if truthy_id lb_id then
       let lb := match lb_id with Some v => v | None => 0 end in
       perform (FetchMessage ann lb) ;;
       perform (EditMessage ann lb content) ;;
       ret tt
     else
       msg <- perform (Send ann content) ;;
       exec (SetLeaderboardMessageId (b_id bingo) msg))
    (log LogLeaderboardFailed).

(** The three-way team assignment of [handle_bingo_state]. *)
Fixpoint assign_chunks (bingo_id team_size team_num : Z) (l : list (Z * Z))
  : M unit :=
  match l with
  | [] => ret tt
  | (i, uid) :: r =>
      exec (SetTeam bingo_id uid team_num) ;;
      assign_chunks bingo_id team_size
                    (if (i + 1) mod team_size =? 0 then team_num + 1 else team_num)
                    r
  end.

Definition create_teams (bingo : BingoRow) : M unit :=
  signups <- query (list_signups (b_id bingo)) ;;
  signups <- shuffled signups ;;
  let team_size := b_team_size bingo in
  exec (ClearTeams (b_id bingo)) ;;
  if team_size <=? 0 then
    for_each (fun uid => exec (SetTeam (b_id bingo) uid 1)) signups
  else if team_size =? 1 then
    for_each (fun r => exec (SetTeam (b_id bingo) (snd r) (fst r)))
             (enumerate 1 signups)
  else
    assign_chunks (b_id bingo) team_size 1 (enumerate 0 signups).

Definition announce_teams (guild : Z) (gs : GuildSettings) (bingo : BingoRow)
  : M unit :=
  let ann := gs_announcements_channel_id gs in
  if text_channel env guild ann then
    teams <- query (list_teams (b_id bingo)) ;;
    perform (Send ann (TxtSignupsClosed (b_name bingo) (team_lines teams))) ;;
    ret tt
  else ret tt.

(** The body of the branch "Close signups and make teams". *)
Definition close_signups (guild : Z) (gs : GuildSettings) (bingo : BingoRow)
  : M unit :=
  exec (SetStatus (b_id bingo) "signup_closed") ;;
  create_teams bingo ;;
  announce_teams guild gs bingo ;;
  (if String.eqb (b_show_board_when bingo) "signups_close"
   then try_send_board guild gs bingo else ret tt) ;;
  update_leaderboard guild gs bingo.

(** The body of the branch "Start bingo". *)
Definition start_bingo (guild : Z) (gs : GuildSettings) (bingo : BingoRow)
  : M unit :=
  exec (SetStatus (b_id bingo) "running") ;;
  (if text_channel env guild (gs_announcements_channel_id gs)
   then perform (Send (gs_announcements_channel_id gs)
                      (TxtStarted (b_name bingo))) ;; ret tt
   else ret tt) ;;
  if String.eqb (b_show_board_when bingo) "bingo_start"
  then try_send_board guild gs bingo else ret tt.

Definition handle_bingo_state (bingo : BingoRow) : M unit :=
  let guild := b_guild_id bingo in
  if negb (guild_known env guild) then ret tt else
  gs <- query (get_guild_settings guild) ;;
  match gs with
  | None => ret tt
  | Some gs =>
      now <- utc_now ;;
      let start_utc := b_start_utc bingo in
      let signup_close_utc := b_signup_close_utc bingo in
      let status := b_status bingo in
      (if String.eqb status "signup_open" && (signup_close_utc <=? now)
       then close_signups guild gs bingo else ret tt) ;;
      if in_strs status ["signup_open"; "signup_closed"] && (start_utc <=? now)
      then start_bingo guild gs bingo else ret tt
  end.

Definition bingo_tick : M unit :=
  rows <- query get_due_actions ;;
  for_each (fun row => try_except (handle_bingo_state row) (log LogTickError)) rows.

Definition is_signup_post (bingo : BingoRow) (message_id : Z) : bool :=
  match b_signup_message_id bingo with
  | Some m => negb (m =? 0) && (message_id =? m)
  | None => false
  end.

Definition lookup_member (guild user_id : Z) : option Permissions :=
  match cached_member env guild user_id with
  | Some m => Some m
  | None => fetched_member env guild user_id
  end.

Definition approver_allowed (approvals_mode : string)
           (member : option Permissions) : bool :=
  if String.eqb approvals_mode "admin" then has_capability member
  else if String.eqb approvals_mode "nonteammate" then has_capability member
  else false.

Definition on_raw_reaction_add (payload : Payload) : M unit :=
  if p_user_id payload =? bot_user_id env then ret tt else
  match p_guild_id payload with
  | None => ret tt
  | Some gid =>
  if gid =? 0 then ret tt else
  if negb (guild_known env gid) then ret tt else
  gs <- query (get_guild_settings gid) ;;
  match gs with
  | None => ret tt
  | Some gs =>
  let emoji := p_emoji payload in
  bingo <- query (get_active_bingo gid) ;;
  match bingo with
  | None => ret tt
  | Some bingo =>
  if is_signup_post bingo (p_message_id payload) then
    if String.eqb emoji SIGNUP_EMOJI then
      db_add_signup (b_id bingo) (p_user_id payload)
    else if String.eqb emoji UNSIGN_EMOJI then
      exec (RemoveSignup (b_id bingo) (p_user_id payload))
    else ret tt
  else
  if negb (String.eqb emoji APPROVE_EMOJI) then ret tt else
  sub <- query (get_submission_by_message (p_message_id payload)) ;;
  match sub with
  | None => ret tt
  | Some sub =>
  if negb (String.eqb (s_status sub) "pending") then ret tt else
  let approvals_mode := b_approvals_mode bingo in
  let member := lookup_member gid (p_user_id payload) in
  let allowed := approver_allowed approvals_mode member in
  if negb allowed then ret tt else
  db_add_approval (s_id sub) (p_user_id payload) ;;
  current <- query (count_approvals (s_id sub)) ;;
  let needed := s_approvals_required sub in
  if needed <=? current then
    exec (SetSubmissionStatus (s_id sub) "approved") ;;
    (if text_channel env gid (gs_announcements_channel_id gs)
     then perform (Send (gs_announcements_channel_id gs)
                        (TxtApproved (s_message_id sub))) ;; ret tt
     else ret tt) ;;
    bingo <- query (get_active_bingo gid) ;;
    match bingo with
    | Some bingo => update_leaderboard gid gs bingo
    | None => ret tt
    end
  else ret tt
  end end end end.

Definition on_raw_reaction_remove (payload : Payload) : M unit :=
  if p_user_id payload =? bot_user_id env then ret tt else
  match p_guild_id payload with
  | None => ret tt
  | Some gid =>
  if gid =? 0 then ret tt else
  if negb (guild_known env gid) then ret tt else
  bingo <- query (get_active_bingo gid) ;;
  match bingo with
  | None => ret tt
  | Some bingo =>
  if negb (truthy_id (b_signup_message_id bingo)) then ret tt else
  if is_signup_post bingo (p_message_id payload)
     && String.eqb (p_emoji payload) SIGNUP_EMOJI
  then exec (RemoveSignup (b_id bingo) (p_user_id payload))
  else ret tt
  end end.

(** [reply] is the content of the answer to the progress/full-tile question,
    [None] when the wait times out. *)
Definition handle_submission (guild author : Z) (channel : Channel)
           (description : string) (attachments : list string)
           (reply : option string) : M unit :=
  bingo <- query (get_active_bingo guild) ;;
  match bingo with
  | None => perform (Send (ch_id channel) TxtNoActiveBingo) ;; ret tt
  | Some bingo =>
  gs <- query (get_guild_settings guild) ;;
  match gs with
  | None => perform (Send (ch_id channel) TxtNotConfigured) ;; ret tt
  | Some gs =>
  if ch_is_text channel && negb (ch_id channel =? gs_submissions_channel_id gs) then
    perform (Send (ch_id channel) (TxtSubmitIn (gs_submissions_channel_id gs))) ;;
    ret tt
  else
  match attachments with
  | [] => perform (Send (ch_id channel) TxtAttachImage) ;; ret tt
  | att :: _ =>
  perform (Send (ch_id channel) TxtAskKind) ;;
  let kind :=
    match reply with
    | Some content =>
        if in_strs (strip_lower env content) ["full"; "full_tile"; "tile"; "fulltile"]
        then "full_tile" else "progress"
    | None => "progress"
    end in
  now <- utc_now ;;
  let local_path := submission_path env guild author now att in
  perform (SaveAttachment local_path) ;;
  if negb (text_channel env guild (gs_submissions_channel_id gs)) then
    perform (Send (ch_id channel) TxtMisconfigured) ;; ret tt
  else
  let status :=
    if String.eqb (b_approvals_mode bingo) "none" then "approved" else "pending" in
  let approvals_required := b_approvals_required bingo in
  msg <- perform (Send (gs_submissions_channel_id gs)
                       (TxtSubmission description author kind local_path)) ;;
  perform (AddReaction msg SIGNUP_EMOJI) ;;
  (if String.eqb status "pending" then
     perform (AddReaction msg APPROVE_EMOJI) ;;
     perform (Send (gs_submissions_channel_id gs) (TxtAwaiting author)) ;;
     ret tt
   else ret tt) ;;
  submission_id <- db_create_submission (b_id bingo) author description kind msg
                                        local_path status approvals_required ;;
  (if String.eqb status "approved" then update_leaderboard guild gs bingo
   else ret tt) ;;
  log (LogSubmissionCreated msg submission_id)
  end end end.

End Handlers.

(** ** Runs of the bot *)

(** What can happen to the bot: a scheduler tick, a reaction delivered by
    the gateway, or a [!bingosubmit] command. *)
Inductive Event :=
| Tick
| ReactionAdd (payload : Payload)
| ReactionRemove (payload : Payload)
| Submit (guild author : Z) (channel : Channel) (description : string)
         (attachments : list string) (reply : option string).

(** An exception escaping a handler is logged by the library and the bot
    goes on from the state the handler left. *)
Definition step (env : Env) (ev : Event) (w : World) : World :=
  match ev with
  | Tick => final (bingo_tick env w)
  | ReactionAdd p => final (on_raw_reaction_add env p w)
  | ReactionRemove p => final (on_raw_reaction_remove env p w)
  | Submit g a c d atts r => final (handle_submission env g a c d atts r w)
  end.

Definition run (env : Env) (evs : list Event) (w : World) : World :=
  fold_left (fun w ev => step env ev w) evs w.

(** The database obtained by applying the SQL writes of a journal. *)
Fixpoint replay (j : Journal) (db : DB) : DB :=
  match j with
  | [] => db
  | Sql st :: r => replay r (run_stmt st db)
  | _ :: r => replay r db
  end.

(** [emits P m]: whatever [m] does, returning or raising, it appends to the
    journal only actions satisfying [P], and the database it leaves is the
    replay of those actions. *)
Definition emits {A} (P : Action -> Prop) (m : M A) : Prop :=
  forall w, exists delta,
    w_journal (final (m w)) = w_journal w ++ delta
    /\ w_db (final (m w)) = replay delta (w_db w)
    /\ Forall P delta.

(** ** Primary keys *)

Definition bingos_pk (db : DB) : Prop := NoDup (map b_id (bingos db)).

Definition signups_pk (db : DB) : Prop :=
  NoDup (map (fun r => (su_bingo_id r, su_user_id r)) (signups db)).

Definition teams_pk (db : DB) : Prop :=
  NoDup (map (fun r => (t_bingo_id r, t_user_id r)) (teams db)).

Definition approvals_pk (db : DB) : Prop :=
  NoDup (map (fun r => (a_submission_id r, a_user_id r)) (approvals db)).

(** The distinct users recorded as approvers of a submission. *)
Definition approvers (submission_id : Z) (db : DB) : list Z :=
  nodup Z.eq_dec
        (map a_user_id
             (filter (fun r => a_submission_id r =? submission_id) (approvals db))).

(** ** Vocabulary of the statements *)

(** What any handler may write: the only event statuses ever stored are
    [signup_closed] and [running], the only submission status [approved]. *)
Definition handler_action (a : Action) : Prop :=
  match a with
  | Sql (SetStatus _ s) => s = "signup_closed" \/ s = "running"
  | Sql (SetSubmissionStatus _ s) => s = "approved"
  | _ => True
  end.

(** What the handlers other than the scan may write: no event status. *)
Definition signal_action (a : Action) : Prop :=
  match a with
  | Sql (SetStatus _ _) => False
  | Sql (ClearTeams _) => False
  | Sql (SetTeam _ _ _) => False
  | Sql (SetSubmissionStatus _ s) => s = "approved"
  | _ => True
  end.

(** What a leaderboard refresh and an approval announcement may do. *)
Definition refresh_action (a : Action) : Prop :=
  match a with
  | Sql (SetLeaderboardMessageId _ _) => True
  | Sql _ => False
  | _ => True
  end.

(** The side effects of closing the signups of [b], after the status write. *)
Definition tail_action (b : BingoRow) (a : Action) : Prop :=
  match a with
  | Sql (ClearTeams i) => i = b_id b
  | Sql (SetTeam i _ _) => i = b_id b
  | Sql (SetLeaderboardMessageId i _) => i = b_id b
  | Sql _ => False
  | Out (Send _ (TxtSignupsClosed _ _)) | Failed (Send _ (TxtSignupsClosed _ _)) => True
  | Out (Send _ (TxtLeaderboard _ _)) | Failed (Send _ (TxtLeaderboard _ _)) => True
  | Out (FetchMessage _ _) | Failed (FetchMessage _ _) => True
  | Out (EditMessage _ _ _) | Failed (EditMessage _ _ _) => True
  | Out (Send _ (TxtBoard _ _)) | Failed (Send _ (TxtBoard _ _)) =>
      b_show_board_when b = "signups_close"
  | Out _ | Failed _ => False
  | Logged l => l = LogBoardFailed \/ l = LogLeaderboardFailed
  end.

(** The actions of starting [b]. *)
Definition start_action (b : BingoRow) (a : Action) : Prop :=
  match a with
  | Sql (SetStatus i s) =>
      i = b_id b /\ s = "running"
      /\ (b_status b = "signup_open" \/ b_status b = "signup_closed")
  | Sql _ => False
  | Out (Send _ (TxtStarted _)) | Failed (Send _ (TxtStarted _)) => True
  | Out (Send _ (TxtBoard _ _)) | Failed (Send _ (TxtBoard _ _)) =>
      b_show_board_when b = "bingo_start"
  | Out _ | Failed _ => False
  | Logged l => l = LogBoardFailed
  end.

(** The journal of one call of [handle_bingo_state] on [b]: either only
    start actions, or the close transition, led by its status write. *)
Definition scan_shape (b : BingoRow) (delta : Journal) : Prop :=
  Forall (start_action b) delta
  \/ (b_status b = "signup_open"
      /\ exists tail rest,
           delta = Sql (SetStatus (b_id b) "signup_closed") :: tail ++ rest
           /\ Forall (tail_action b) tail
           /\ Forall (start_action b) rest).

Definition is_close (i : Z) (a : Action) : bool :=
  match a with
  | Sql (SetStatus j s) => (j =? i) && String.eqb s "signup_closed"
  | _ => false
  end.

(** How many times the journal closes the signups of event [i]. *)
Definition closes (i : Z) (j : Journal) : nat :=
  List.length (filter (is_close i) j).

Definition no_open (i : Z) (db : DB) : Prop :=
  forall b, In b (bingos db) -> b_id b = i -> b_status b <> "signup_open".

Definition with_end_utc (e : option Z) (b : BingoRow) : BingoRow :=
  mkBingo (b_id b) (b_guild_id b) (b_name b) (b_game_mode b) (b_team_size b)
          (b_team_mode b) (b_notify_role_id b) (b_start_utc b) e
          (b_signup_close_utc b) (b_show_board_when b) (b_approvals_mode b)
          (b_approvals_required b) (b_status b) (b_signup_message_id b)
          (b_leaderboard_message_id b) (b_board_image_path b)
          (b_created_by_user_id b) (b_created_at_utc b).

(** A reaction that reaches the approval branch of [on_raw_reaction_add]
    for the submission [sub]. *)
Definition approval_signal (env : Env) (db : DB) (p : Payload) (gid : Z)
           (gs : GuildSettings) (bingo : BingoRow) (sub : SubmissionRow) : Prop :=
  p_user_id p <> bot_user_id env
  /\ p_guild_id p = Some gid
  /\ gid <> 0
  /\ guild_known env gid = true
  /\ get_guild_settings gid db = Some gs
  /\ get_active_bingo gid db = Some bingo
  /\ is_signup_post bingo (p_message_id p) = false
  /\ p_emoji p = APPROVE_EMOJI
  /\ get_submission_by_message (p_message_id p) db = Some sub.

(** A reaction on the signup post of the active event of its guild. *)
Definition signup_post_reaction (env : Env) (db : DB) (p : Payload) (gid : Z)
           (bingo : BingoRow) : Prop :=
  p_user_id p <> bot_user_id env
  /\ p_guild_id p = Some gid
  /\ gid <> 0
  /\ guild_known env gid = true
  /\ get_active_bingo gid db = Some bingo
  /\ is_signup_post bingo (p_message_id p) = true.

(** The scan finds [b] due for closing: its guild is reachable and
    configured, its status is [signup_open] and its deadline has passed. *)
Definition close_due (env : Env) (w : World) (b : BingoRow) : Prop :=
  guild_known env (b_guild_id b) = true
  /\ get_guild_settings (b_guild_id b) (w_db w) <> None
  /\ b_status b = "signup_open"
  /\ b_signup_close_utc b <= clock env (w_journal w).

Definition fair_shuffle (env : Env) : Prop :=
  forall j l, Permutation l (random_shuffle env j l).

(** ** Vocabulary of the team assignment *)

(** The team number given to the participant at 0-based position [k]. *)
Definition team_of_index (team_size k : Z) : Z :=
  if team_size <=? 0 then 1
  else if team_size =? 1 then k + 1
  else k / team_size + 1.

Definition ceil_div (n d : Z) : Z := (n + d - 1) / d.

Definition team_rows (bingo_id : Z) (db : DB) : list TeamRow :=
  filter (fun r => t_bingo_id r =? bingo_id) (teams db).

Definition team_members (bingo_id team_number : Z) (db : DB) : list Z :=
  map t_user_id
      (filter (fun r => t_team_number r =? team_number) (team_rows bingo_id db)).

(** ** Vocabulary of the leaderboard *)




(** Any action of one call of [handle_bingo_state] on [b]. *)
Definition scan_action (b : BingoRow) (a : Action) : Prop :=
  start_action b a
  \/ (b_status b = "signup_open"
      /\ (a = Sql (SetStatus (b_id b) "signup_closed") \/ tail_action b a)).

(** Any action of one tick over the rows [l]. *)
Definition tick_action (l : list BingoRow) (a : Action) : Prop :=
  a = Logged LogTickError \/ exists b, In b l /\ scan_action b a.

(** The event [b] is still stored, with its status. *)
Definition still (b : BingoRow) (db : DB) : Prop :=
  exists b', In b' (bingos db) /\ b_id b' = b_id b /\ b_status b' = b_status b.

(** ** A small guild, used to run the handlers on concrete inputs

    Guild 1 with one event of team size 2 that requires two approvals, five
    signed-up users, one pending and one approved submission.  Users 7 and 8
    hold the management capability, user 5 holds none. *)

Definition demo_env : Env :=
  mkEnv 999
        (fun _ => 1000)
        (fun _ l => rev l)
        (fun g => g =? 1)
        (fun _ _ => true)
        (fun _ u => if u =? 7 then Some (mkPermissions true true)
                    else if u =? 8 then Some (mkPermissions true false)
                    else if u =? 5 then Some (mkPermissions false false)
                    else None)
        (fun _ _ => None)
        (fun j _ => Some (100 + Z.of_nat (List.length j)))
        (fun s => s)
        (fun _ _ _ f => f).

Definition demo_gs : GuildSettings := mkGuildSettings 1 10 11 12 13.

Definition demo_bingo : BingoRow :=
  mkBingo 1 1 "demo" "Custom" 2 "random" None 2000 None 500 "signups_close"
          "admin" 2 "signup_open" (Some 50) None (Some "board.png") 7 0.

Definition demo_db : DB :=
  mkDB [demo_gs]
       [demo_bingo]
       [mkSignup 1 21 1; mkSignup 1 22 2; mkSignup 1 23 3; mkSignup 1 24 4;
        mkSignup 1 25 5]
       []
       [mkSubmission 1 1 21 "dragon" "full_tile" 10 60 "a.png" "pending" 2;
        mkSubmission 2 1 22 "whip" "full_tile" 11 61 "b.png" "approved" 2]
       [mkApproval 2 7 12; mkApproval 2 8 13].

Definition demo_world : World := mkWorld demo_db [].

Definition approve_by (user message : Z) : Payload :=
  mkPayload user (Some 1) message APPROVE_EMOJI.

(** ** Vocabulary of the submission handler *)

Definition no_sql (a : Action) : Prop :=
  match a with
  | Sql _ => False
  | _ => True
  end.

(** [handle_submission] went from [w] to [w'] through its insert: after a
    prefix of platform calls it stored one row, whose status is decided by
    the approval mode of [bingo] and whose required count is the one of
    [bingo]; then, for mode [none] only, it ran [update_leaderboard]; then
    it logged the creation. *)
Definition created (env : Env) (guild author : Z) (description : string)
           (bingo : BingoRow) (gs : GuildSettings) (w w' : World) : Prop :=
  exists pre kind now msg path,
    Forall no_sql pre
    /\ let auto := String.eqb (b_approvals_mode bingo) "none" in
       let status := if auto then "approved" else "pending" in
       let st := CreateSubmission (b_id bingo) author description kind now msg path
                                  status (b_approvals_required bingo) in
       let sid := next_submission_id (w_db w) in
       let w_c := mkWorld (run_stmt st (w_db w)) (w_journal w ++ pre ++ [Sql st]) in
       w' = record (Logged (LogSubmissionCreated msg sid))
                   (if auto then final (update_leaderboard env guild gs bingo w_c)
                    else w_c)
       /\ In (mkSubmission sid (b_id bingo) author description kind now msg path
                           status (b_approvals_required bingo))
             (submissions (w_db w')).

(** Either nothing was written to the database, or a submission was
    created from [bingo]. *)
Definition creates_or_not (env : Env) (guild author : Z) (description : string)
           (bingo : BingoRow) (gs : GuildSettings) (m : M unit) : Prop :=
  forall w,
    (exists delta,
        final (m w) = mkWorld (w_db w) (w_journal w ++ delta) /\ Forall no_sql delta)
    \/ created env guild author description bingo gs w (final (m w)).

(** A second guild whose event now asks for five approvals while a
    submission made earlier carries the single approval it was created with. *)
Definition drifted_db : DB :=
  mkDB [demo_gs]
       [mkBingo 1 1 "demo" "Custom" 2 "random" None 2000 None 500 "signups_close"
                "admin" 5 "running" (Some 50) None None 7 0]
       [] []
       [mkSubmission 1 1 21 "dragon" "full_tile" 10 60 "a.png" "pending" 1]
       [].

Definition open_db : DB :=
  mkDB [demo_gs]
       [mkBingo 1 1 "demo" "Custom" 0 "random" None 2000 None 500 "signups_close"
                "none" 0 "running" (Some 50) None None 7 0]
       [] [mkTeam 1 1 21] [] [].

(** What the scan does once the teams are written: platform calls and
    writes to the event row only. *)
Definition bingo_only_action (a : Action) : Prop :=
  match a with
  | Sql (SetStatus _ _) => True
  | Sql (SetLeaderboardMessageId _ _) => True
  | Sql _ => False
  | _ => True
  end.

(** The world in which [create_teams] runs when the scan of [w] closes the
    signups of [b]. *)
Definition closing_world (b : BingoRow) (w : World) : World :=
  mkWorld (set_status (b_id b) "signup_closed" (w_db w))
          (w_journal w ++ [Sql (SetStatus (b_id b) "signup_closed")]).

(** The participants in the order the shuffle left them in. *)
Definition shuffled_signups (env : Env) (b : BingoRow) (w : World) : list Z :=
  random_shuffle env (w_journal (closing_world b w))
                 (list_signups (b_id b) (w_db w)).

(** The demo guild later on: three teams, four approved full tiles, one
    approved progress picture and one full tile still pending. *)
Definition scored_db : DB :=
  mkDB [demo_gs]
       [mkBingo 1 1 "demo" "Custom" 2 "random" None 2000 None 500 "signups_close"
                "admin" 2 "running" (Some 50) (Some 109) (Some "board.png") 7 0]
       [mkSignup 1 21 1; mkSignup 1 22 2; mkSignup 1 23 3; mkSignup 1 24 4;
        mkSignup 1 25 5]
       [mkTeam 1 1 21; mkTeam 1 1 22; mkTeam 1 2 23; mkTeam 1 2 24; mkTeam 1 3 25]
       [mkSubmission 1 1 25 "whip" "full_tile" 10 60 "a.png" "approved" 2;
        mkSubmission 2 1 21 "dragon" "full_tile" 11 61 "b.png" "approved" 2;
        mkSubmission 3 1 23 "pet" "full_tile" 12 62 "c.png" "approved" 2;
        mkSubmission 4 1 22 "half" "progress" 13 63 "d.png" "approved" 2;
        mkSubmission 5 1 24 "staff" "full_tile" 14 64 "e.png" "approved" 2;
        mkSubmission 6 1 21 "bow" "full_tile" 15 65 "f.png" "pending" 2]
       [].

(** ** The remaining methods of [BingoDB], used by the setup command *)

(** [INSERT ... ON CONFLICT(guild_id) DO UPDATE SET] all four channels. *)
Fixpoint upsert_settings (gs : GuildSettings) (rows : list GuildSettings)
  : list GuildSettings :=
  match rows with
  | [] => [gs]
  | r :: rest =>
      if gs_guild_id r =? gs_guild_id gs then gs :: rest
      else r :: upsert_settings gs rest
  end.

Definition upsert_guild_settings (gs : GuildSettings) (db : DB) : DB :=
  mkDB (upsert_settings gs (guild_settings db)) (bingos db) (signups db) (teams db)
       (submissions db) (approvals db).

(** [AUTOINCREMENT] on [bingos]; the program never deletes an event. *)
Definition next_bingo_id (db : DB) : Z :=
  1 + fold_right Z.max 0 (map b_id (bingos db)).

Definition create_bingo
           (guild_id : Z) (name game_mode : string) (team_size : Z)
           (team_mode : string) (notify_role_id : option Z) (start_utc : Z)
           (end_utc : option Z) (signup_close_utc : Z)
           (show_board_when approvals_mode : string) (approvals_required : Z)
           (created_by_user_id : Z) (board_image_path : option string)
           (now : Z) (db : DB) : DB :=
  update_bingos
    (fun rows =>
       rows ++ [mkBingo (next_bingo_id db) guild_id name game_mode team_size
                        team_mode notify_role_id start_utc end_utc
                        signup_close_utc show_board_when approvals_mode
                        approvals_required "signup_open" None None
                        board_image_path created_by_user_id now])
    db.

Definition with_signup_message_id (m : Z) (b : BingoRow) : BingoRow :=
  mkBingo (b_id b) (b_guild_id b) (b_name b) (b_game_mode b) (b_team_size b)
          (b_team_mode b) (b_notify_role_id b) (b_start_utc b) (b_end_utc b)
          (b_signup_close_utc b) (b_show_board_when b) (b_approvals_mode b)
          (b_approvals_required b) (b_status b) (Some m)
          (b_leaderboard_message_id b) (b_board_image_path b)
          (b_created_by_user_id b) (b_created_at_utc b).

Definition set_signup_message_id (bingo_id message_id : Z) : DB -> DB :=
  update_bingos
    (map (fun b => if b_id b =? bingo_id
                   then with_signup_message_id message_id b else b)).

(** ** Vocabulary of the stored state *)

Definition settings_pk (db : DB) : Prop :=
  NoDup (map gs_guild_id (guild_settings db)).

Definition submissions_pk (db : DB) : Prop :=
  NoDup (map s_id (submissions db)).

(** The statuses [get_active_bingo] selects. *)
Definition non_terminal (status : string) : Prop :=
  status = "setup" \/ status = "signup_open" \/ status = "signup_closed"
  \/ status = "running".

(** The statuses [get_due_actions] selects. *)
Definition scanned (status : string) : Prop :=
  status = "signup_open" \/ status = "signup_closed" \/ status = "running".

(** The members of one team as [list_teams] reports them. *)
Definition listed_members (tn : Z) (teams : list (Z * Z)) : list Z :=
  map snd (filter (fun r => fst r =? tn) teams).

Definition line_team (l : Line) : Z :=
  match l with
  | LineTeam tn _ => tn
  | _ => 0
  end.

Definition empty_db : DB := mkDB [] [] [] [] [] [].

(** An environment in which every platform call raises, and a database with
    two events due for closing in two guilds. *)
Definition failing_env : Env :=
  mkEnv 999 (fun _ => 1000) (fun _ l => l) (fun _ => true) (fun _ _ => true)
        (fun _ _ => None) (fun _ _ => None) (fun _ _ => None) (fun s => s)
        (fun _ _ _ f => f).

Definition second_bingo : BingoRow :=
  mkBingo 2 2 "other" "Custom" 0 "random" None 900 None 400 "bingo_start"
          "none" 0 "signup_open" (Some 51) None None 8 0.

Definition two_events_db : DB :=
  mkDB [demo_gs; mkGuildSettings 2 30 31 32 33]
       [demo_bingo; second_bingo]
       [mkSignup 1 21 1; mkSignup 2 41 2; mkSignup 2 42 3]
       [] [] [].

(** The scan finds [b] due for starting. *)
Definition start_due (env : Env) (w : World) (b : BingoRow) : Prop :=
  guild_known env (b_guild_id b) = true
  /\ get_guild_settings (b_guild_id b) (w_db w) <> None
  /\ (b_status b = "signup_open" \/ b_status b = "signup_closed")
  /\ b_start_utc b <= clock env (w_journal w).

(** Every stored row of event [i] has status [s]. *)
Definition stored_status (i : Z) (s : string) (db : DB) : Prop :=
  forall r, In r (bingos db) -> b_id r = i -> b_status r = s.

(** [w'] is [w] after one attempt at the platform call [e], landed or not,
    and nothing else. *)
Definition one_attempt (e : Effect) (w w' : World) : Prop :=
  w_db w' = w_db w
  /\ (w_journal w' = w_journal w ++ [Out e]
      \/ w_journal w' = w_journal w ++ [Failed e]).

(** The kind [handle_submission] derives from the answer to its question. *)
Definition reply_kind (env : Env) (reply : option string) : string :=
  match reply with
  | Some content =>
      if in_strs (strip_lower env content) ["full"; "full_tile"; "tile"; "fulltile"]
      then "full_tile" else "progress"
  | None => "progress"
  end.

(** What [handle_submission] may do, given what it was called with. *)
Definition submission_action (env : Env) (author : Z) (description : string)
           (reply : option string) (a : Action) : Prop :=
  match a with
  | Sql (CreateSubmission _ u d k _ _ _ s _) =>
      u = author /\ d = description /\ k = reply_kind env reply
      /\ (s = "approved" \/ s = "pending")
  | Sql (SetLeaderboardMessageId _ _) => True
  | Sql _ => False
  | _ => True
  end.

(** ** Vocabulary of the stored state over a run *)

(** The primary keys of the six tables. *)
Definition keys_ok (db : DB) : Prop :=
  settings_pk db /\ bingos_pk db /\ signups_pk db /\ teams_pk db
  /\ submissions_pk db /\ approvals_pk db.

(** The foreign keys declared in the schema. *)
Definition references_ok (db : DB) : Prop :=
  (forall r, In r (signups db) -> In (su_bingo_id r) (map b_id (bingos db)))
  /\ (forall r, In r (teams db) -> In (t_bingo_id r) (map b_id (bingos db)))
  /\ (forall r, In r (submissions db) -> In (s_bingo_id r) (map b_id (bingos db)))
  /\ (forall r, In r (approvals db) ->
                In (a_submission_id r) (map s_id (submissions db))).

(** Every row an action inserts refers to one of the events [bids], or, for
    an approval, to one of the submissions [sids]. *)
Definition inserts_into (bids sids : list Z) (a : Action) : Prop :=
  match a with
  | Sql (AddSignup b _ _) => In b bids
  | Sql (SetTeam b _ _) => In b bids
  | Sql (CreateSubmission b _ _ _ _ _ _ _ _) => In b bids
  | Sql (AddApproval s _ _) => In s sids
  | _ => True
  end.

(** An event without the two columns the handlers update. *)
Definition event_config (b : BingoRow) : BingoRow :=
  mkBingo (b_id b) (b_guild_id b) (b_name b) (b_game_mode b) (b_team_size b)
          (b_team_mode b) (b_notify_role_id b) (b_start_utc b) (b_end_utc b)
          (b_signup_close_utc b) (b_show_board_when b) (b_approvals_mode b)
          (b_approvals_required b) "" (b_signup_message_id b) None
          (b_board_image_path b) (b_created_by_user_id b) (b_created_at_utc b).

(** A submission without its status. *)
Definition submission_content (s : SubmissionRow) : SubmissionRow :=
  with_s_status "" s.

(** What may change on a stored event: its status, to [signup_closed] or
    [running], and its leaderboard post. *)
Definition event_kept (b b' : BingoRow) : Prop :=
  event_config b' = event_config b
  /\ (b_status b' = b_status b \/ b_status b' = "signup_closed"
      \/ b_status b' = "running").

(** What may change on a stored submission: its status, to [approved]. *)
Definition submission_kept (s s' : SubmissionRow) : Prop :=
  submission_content s' = submission_content s
  /\ (s_status s' = s_status s \/ s_status s' = "approved").

(** [db'] is [db] after some handlers ran: the same settings, the same
    events in the same order up to [event_kept], the old submissions up to
    [submission_kept] followed by new ones, the old approvals followed by
    new ones. *)
Definition grown_from (db db' : DB) : Prop :=
  guild_settings db' = guild_settings db
  /\ Forall2 event_kept (bingos db) (bingos db')
  /\ (exists old more,
         submissions db' = old ++ more
         /\ Forall2 submission_kept (submissions db) old)
  /\ (exists more, approvals db' = approvals db ++ more).

(** What the setup command guarantees of an event: no approvals are asked
    for exactly when the mode is [none]. *)
Definition event_valid (b : BingoRow) : Prop :=
  if String.eqb (b_approvals_mode b) "none"
  then b_approvals_required b <= 0
  else 1 <= b_approvals_required b.

(** Approved means the quorum is met, pending means it is not. *)
Definition quorum_respected (db : DB) : Prop :=
  forall s, In s (submissions db) ->
            (s_status s = "approved" ->
             s_approvals_required s <= count_approvals (s_id s) db)
            /\ (s_status s = "pending" ->
                count_approvals (s_id s) db < s_approvals_required s).

(** What a handler does when it neither creates, approves nor settles a
    submission. *)
Definition leaves_submissions (a : Action) : Prop :=
  match a with
  | Sql (CreateSubmission _ _ _ _ _ _ _ _ _) => False
  | Sql (AddApproval _ _ _) => False
  | Sql (SetSubmissionStatus _ _) => False
  | _ => True
  end.

Definition events_valid (db : DB) : Prop :=
  forall b, In b (bingos db) -> event_valid b.

(** The parent row a foreign key to [bingos] asks for. *)
Definition event_stored (bingo_id : Z) (db : DB) : Prop :=
  In bingo_id (map b_id (bingos db)).


(** * Properties *)

(** ** The monad *)

Lemma replay_app (j1 j2 : Journal) (db : DB) :
  replay (j1 ++ j2) db = replay j2 (replay j1 db).
Proof.
  revert db; induction j1 as [|a j1 IH]; intros db; simpl; [reflexivity|].
  destruct a; apply IH.
Qed.

Lemma emits_ret {A} (P : Action -> Prop) (a : A) : emits P (ret a).
Proof.
  intros w; exists []; simpl; rewrite app_nil_r; auto.
Qed.

Lemma emits_query {A} (P : Action -> Prop) (q : DB -> A) : emits P (query q).
Proof.
  intros w; exists []; simpl; rewrite app_nil_r; auto.
Qed.

Lemma emits_utc_now (env : Env) (P : Action -> Prop) : emits P (utc_now env).
Proof.
  intros w; exists []; simpl; rewrite app_nil_r; auto.
Qed.

Lemma emits_shuffled (env : Env) (P : Action -> Prop) (l : list Z) :
  emits P (shuffled env l).
Proof.
  intros w; exists []; simpl; rewrite app_nil_r; auto.
Qed.

Lemma emits_exec (P : Action -> Prop) (st : Stmt) :
  P (Sql st) -> emits P (exec st).
Proof.
  intros H w; exists [Sql st]; simpl; auto.
Qed.

Lemma emits_log (P : Action -> Prop) (l : LogEntry) :
  P (Logged l) -> emits P (log l).
Proof.
  intros H w; exists [Logged l]; simpl; auto.
Qed.

Lemma emits_perform (env : Env) (P : Action -> Prop) (e : Effect) :
  P (Out e) -> P (Failed e) -> emits P (perform env e).
Proof.
  intros H1 H2 w; unfold perform.
  destruct (deliver env (w_journal w) e).
  - exists [Out e]; simpl; auto.
  - exists [Failed e]; simpl; auto.
Qed.

Lemma emits_bind {A B} (P : Action -> Prop) (m : M A) (f : A -> M B) :
  emits P m -> (forall a, emits P (f a)) -> emits P (bind m f).
Proof.
  intros Hm Hf w; unfold bind.
  destruct (Hm w) as (d1 & J1 & D1 & F1).
  destruct (m w) as [a w1|w1]; simpl in *.
  - destruct (Hf a w1) as (d2 & J2 & D2 & F2).
    exists (d1 ++ d2); rewrite J2, D2, J1, D1, replay_app, app_assoc.
    split; [reflexivity|]; split; [reflexivity|]; apply Forall_app; auto.
  - exists d1; auto.
Qed.

Lemma emits_try_except {A} (P : Action -> Prop) (m h : M A) :
  emits P m -> emits P h -> emits P (try_except m h).
Proof.
  intros Hm Hh w; unfold try_except.
  destruct (Hm w) as (d1 & J1 & D1 & F1).
  destruct (m w) as [a w1|w1]; simpl in *.
  - exists d1; auto.
  - destruct (Hh w1) as (d2 & J2 & D2 & F2).
    exists (d1 ++ d2); rewrite J2, D2, J1, D1, replay_app, app_assoc.
    split; [reflexivity|]; split; [reflexivity|]; apply Forall_app; auto.
Qed.

Lemma emits_for_each {A} (P : Action -> Prop) (f : A -> M unit) (l : list A) :
  (forall x, In x l -> emits P (f x)) -> emits P (for_each f l).
Proof.
  induction l as [|x l IH]; intros H; simpl.
  - apply emits_ret.
  - apply emits_bind; [apply H; left; reflexivity|].
    intros _; apply IH; intros y Hy; apply H; right; exact Hy.
Qed.

Lemma emits_mono {A} (P Q : Action -> Prop) (m : M A) :
  (forall a, P a -> Q a) -> emits P m -> emits Q m.
Proof.
  intros HPQ Hm w; destruct (Hm w) as (d & J & D & F).
  exists d; repeat split; auto.
  eapply Forall_impl; eauto.
Qed.

(** One step of a syntax-directed proof of [emits]. *)
Ltac emits_step :=
  match goal with
  | |- emits _ (bind _ _) => apply emits_bind; [|intros]
  | |- emits _ (ret _) => apply emits_ret
  | |- emits _ (query _) => apply emits_query
  | |- emits _ (utc_now _) => apply emits_utc_now
  | |- emits _ (shuffled _ _) => apply emits_shuffled
  | |- emits _ (exec _) => apply emits_exec
  | |- emits _ (log _) => apply emits_log
  | |- emits _ (perform _ _) => apply emits_perform
  | |- emits _ (try_except _ _) => apply emits_try_except
  | |- emits _ (for_each _ _) => apply emits_for_each; intros
  | |- emits _ (if ?c then _ else _) => destruct c eqn:?
  | |- emits _ (match ?x with _ => _ end) => destruct x eqn:?
  end.

Ltac emits_auto := repeat emits_step.

Lemma approve_not_signup : String.eqb APPROVE_EMOJI SIGNUP_EMOJI = false.
Proof. reflexivity. Qed.

Lemma approve_not_unsign : String.eqb APPROVE_EMOJI UNSIGN_EMOJI = false.
Proof. reflexivity. Qed.

Lemma approver_allowed_capability (mode : string) (member : option Permissions) :
  has_capability member = false -> approver_allowed mode member = false.
Proof.
  intros H; unfold approver_allowed; rewrite H.
  destruct (String.eqb mode "admin"), (String.eqb mode "nonteammate"); reflexivity.
Qed.

(** ** What the procedures write *)

Ltac emits_solve := emits_auto; simpl; auto.

Lemma update_leaderboard_refresh (env : Env) (g : Z) (gs : GuildSettings)
      (b : BingoRow) :
  emits refresh_action (update_leaderboard env g gs b).
Proof. unfold update_leaderboard; emits_solve. Qed.

Lemma update_leaderboard_tail (env : Env) (g : Z) (gs : GuildSettings)
      (b : BingoRow) :
  emits (tail_action b) (update_leaderboard env g gs b).
Proof. unfold update_leaderboard; emits_solve. Qed.

Lemma try_send_board_tail (env : Env) (g : Z) (gs : GuildSettings) (b : BingoRow) :
  b_show_board_when b = "signups_close" ->
  emits (tail_action b) (try_send_board env g gs b).
Proof. intros H; unfold try_send_board; emits_solve. Qed.

Lemma try_send_board_start (env : Env) (g : Z) (gs : GuildSettings) (b : BingoRow) :
  b_show_board_when b = "bingo_start" ->
  emits (start_action b) (try_send_board env g gs b).
Proof. intros H; unfold try_send_board; emits_solve. Qed.

Lemma assign_chunks_tail (env : Env) (b : BingoRow) (ts : Z) (l : list (Z * Z)) :
  forall tn, emits (tail_action b) (assign_chunks (b_id b) ts tn l).
Proof.
  induction l as [|[i uid] l IH]; intros tn; simpl; emits_solve.
Qed.

Lemma create_teams_tail (env : Env) (b : BingoRow) :
  emits (tail_action b) (create_teams env b).
Proof.
  unfold create_teams; emits_auto; simpl; auto.
  apply assign_chunks_tail; exact env.
Qed.

Lemma announce_teams_tail (env : Env) (g : Z) (gs : GuildSettings) (b : BingoRow) :
  emits (tail_action b) (announce_teams env g gs b).
Proof. unfold announce_teams; emits_solve. Qed.

Lemma close_tail_emits (env : Env) (g : Z) (gs : GuildSettings) (b : BingoRow) :
  emits (tail_action b)
        (create_teams env b ;;
         announce_teams env g gs b ;;
         (if String.eqb (b_show_board_when b) "signups_close"
          then try_send_board env g gs b else ret tt) ;;
         update_leaderboard env g gs b).
Proof.
  apply emits_bind; [apply create_teams_tail|intros _].
  apply emits_bind; [apply announce_teams_tail|intros _].
  apply emits_bind; [|intros _; apply update_leaderboard_tail].
  destruct (String.eqb (b_show_board_when b) "signups_close") eqn:E.
  - apply try_send_board_tail, String.eqb_eq, E.
  - apply emits_ret.
Qed.

Lemma in_strs_two (s a b : string) :
  in_strs s [a; b] = true -> s = a \/ s = b.
Proof.
  unfold in_strs; simpl; intros H.
  apply orb_true_iff in H; destruct H as [H|H].
  - left; apply String.eqb_eq, H.
  - rewrite orb_false_r in H; right; apply String.eqb_eq, H.
Qed.

Lemma start_part_emits (env : Env) (g : Z) (gs : GuildSettings) (b : BingoRow)
      (now : Z) :
  emits (start_action b)
        (if in_strs (b_status b) ["signup_open"; "signup_closed"]
            && (b_start_utc b <=? now)
         then start_bingo env g gs b else ret tt).
Proof.
  destruct (in_strs (b_status b) ["signup_open"; "signup_closed"]
            && (b_start_utc b <=? now)) eqn:E; [|apply emits_ret].
  apply andb_true_iff in E; destruct E as [E _]; apply in_strs_two in E.
  unfold start_bingo.
  apply emits_bind; [apply emits_exec; simpl; auto|intros _].
  apply emits_bind; [emits_solve|intros _].
  destruct (String.eqb (b_show_board_when b) "bingo_start") eqn:E'.
  - apply try_send_board_start, String.eqb_eq, E'.
  - apply emits_ret.
Qed.

Lemma world_eq (w : World) (db : DB) (j : Journal) :
  w_journal w = j -> w_db w = db -> w = mkWorld db j.
Proof. destruct w; simpl; intros; subst; reflexivity. Qed.

(** The single-equation reading of [emits]. *)
Lemma emits_final {A} (P : Action -> Prop) (m : M A) (w : World) :
  emits P m ->
  exists delta,
    final (m w) = mkWorld (replay delta (w_db w)) (w_journal w ++ delta)
    /\ Forall P delta.
Proof.
  intros H; destruct (H w) as (d & J & D & F).
  exists d; split; [apply world_eq; assumption|exact F].
Qed.

(** A status write followed by a tail and a continuation: the journal is the
    write, then what the tail did, then what the continuation did. *)
Lemma led_by_write {A} (P Q : Action -> Prop) (st : Stmt) (T : M unit) (K : M A)
      (w : World) :
  emits P T -> emits Q K ->
  exists tail rest,
    final (((exec st ;; T) ;; K) w)
    = mkWorld (replay (Sql st :: tail ++ rest) (w_db w))
              (w_journal w ++ Sql st :: tail ++ rest)
    /\ Forall P tail /\ Forall Q rest.
Proof.
  intros HT HK; unfold bind, exec.
  set (w1 := mkWorld (run_stmt st (w_db w)) (w_journal w ++ [Sql st])).
  destruct (HT w1) as (d1 & J1 & D1 & F1).
  destruct (T w1) as [[] w2|w2]; simpl in J1, D1.
  - destruct (HK w2) as (d2 & J2 & D2 & F2).
    exists d1, d2; split; [|auto].
    apply world_eq; [rewrite J2, J1|rewrite D2, D1]; simpl.
    + rewrite <- !app_assoc; reflexivity.
    + rewrite replay_app; reflexivity.
  - exists d1, []; split; [|auto].
    apply world_eq; simpl; [rewrite J1|rewrite D1]; simpl.
    + rewrite app_nil_r, <- app_assoc; reflexivity.
    + rewrite app_nil_r; reflexivity.
Qed.


Lemma handle_bingo_state_shape (env : Env) (b : BingoRow) (w : World) :
  exists delta,
    final (handle_bingo_state env b w)
    = mkWorld (replay delta (w_db w)) (w_journal w ++ delta)
    /\ scan_shape b delta
    /\ (close_due env w b ->
        exists rest, delta = Sql (SetStatus (b_id b) "signup_closed") :: rest).
Proof.
  assert (Hnil : w = mkWorld (replay [] (w_db w)) (w_journal w ++ []))
    by (rewrite app_nil_r; destruct w; reflexivity).
  unfold handle_bingo_state, close_due.
  destruct (guild_known env (b_guild_id b)); unfold negb;
    [|exists []; split; [exact Hnil|]; split; [left; constructor|];
      intros (H & _); discriminate].
  unfold bind at 1, query at 1.
  destruct (get_guild_settings (b_guild_id b) (w_db w)) as [gs|];
    [|exists []; split; [exact Hnil|]; split; [left; constructor|];
      intros (_ & H & _); congruence].
  unfold bind at 1, utc_now at 1.
  set (now := clock env (w_journal w)).
  destruct (String.eqb (b_status b) "signup_open"
            && (b_signup_close_utc b <=? now)) eqn:E.
  - apply andb_true_iff in E; destruct E as [E _]; apply String.eqb_eq in E.
    destruct (led_by_write _ _ (SetStatus (b_id b) "signup_closed") _ _ w
                           (close_tail_emits env (b_guild_id b) gs b)
                           (start_part_emits env (b_guild_id b) gs b now))
      as (tail & rest & J & FT & FR).
    exists (Sql (SetStatus (b_id b) "signup_closed") :: tail ++ rest).
    split; [exact J|]; split.
    + right; split; [exact E|]; exists tail, rest; auto.
    + intros _; eexists; reflexivity.
  - destruct (emits_final _ _ w (start_part_emits env (b_guild_id b) gs b now))
      as (d & J & F).
    exists d; split; [exact J|]; split; [left; exact F|].
    intros (_ & _ & Hs & Hc).
    rewrite Hs in E; simpl in E; apply Z.leb_gt in E; unfold now in E; lia.
Qed.


(** ** Frame properties of the statements *)

Lemma run_stmt_ids (st : Stmt) (db : DB) :
  map b_id (bingos (run_stmt st db)) = map b_id (bingos db).
Proof.
  destruct st; simpl; try reflexivity;
    rewrite map_map; apply map_ext; intros b;
    match goal with |- context [if ?c then _ else _] => destruct c end; reflexivity.
Qed.

Lemma replay_ids (d : Journal) (db : DB) :
  map b_id (bingos (replay d db)) = map b_id (bingos db).
Proof.
  revert db; induction d as [|a d IH]; intros db; simpl; [reflexivity|].
  destruct a; rewrite IH; try reflexivity; apply run_stmt_ids.
Qed.

Lemma replay_bingos_pk (d : Journal) (db : DB) :
  bingos_pk db -> bingos_pk (replay d db).
Proof. unfold bingos_pk; rewrite replay_ids; auto. Qed.

(** Replaying a journal acts row by row on the events. *)
Lemma replay_preserves (Q : Action -> Prop) (I : DB -> Prop) :
  (forall st db, Q (Sql st) -> I db -> I (run_stmt st db)) ->
  forall d db, Forall Q d -> I db -> I (replay d db).
Proof.
  intros H d; induction d as [|a d IH]; intros db F Hi; simpl; [exact Hi|].
  inversion F; subst.
  destruct a; try (apply IH; assumption).
  apply IH; [assumption|apply H; assumption].
Qed.

Lemma in_map_rows {A} (f : A -> A) (l : list A) (y : A) :
  In y (map f l) -> exists x, In x l /\ y = f x.
Proof.
  intros H; apply in_map_iff in H; destruct H as (x & E & Hx); eauto.
Qed.

Lemma no_open_replay (i : Z) (d : Journal) (db : DB) :
  Forall handler_action d -> no_open i db -> no_open i (replay d db).
Proof.
  revert d db; apply (replay_preserves handler_action (no_open i)).
  intros st db Hq Hi.
  destruct st; simpl in *; try exact Hi; intros b Hb Hid.
  - apply in_map_rows in Hb; destruct Hb as (x & Hx & ->).
    destruct (b_id x =? bingo_id).
    + simpl; destruct Hq as [-> | ->]; discriminate.
    + apply Hi; assumption.
  - apply in_map_rows in Hb; destruct Hb as (x & Hx & ->).
    destruct (b_id x =? bingo_id); simpl; apply Hi; assumption.
Qed.

Lemma set_status_no_open (i : Z) (db : DB) :
  no_open i (set_status i "signup_closed" db).
Proof.
  intros b Hb Hid; simpl in Hb.
  apply in_map_rows in Hb; destruct Hb as (x & Hx & ->).
  destruct (b_id x =? i) eqn:E; simpl; [discriminate|].
  apply Z.eqb_neq in E; contradiction.
Qed.

Lemma with_s_status_same (s : SubmissionRow) (st : string) :
  s_status s = st -> with_s_status st s = s.
Proof. destruct s; simpl; intros ->; reflexivity. Qed.

Lemma approved_replay (s : SubmissionRow) (d : Journal) (db : DB) :
  s_status s = "approved" ->
  Forall handler_action d -> In s (submissions db) -> In s (submissions (replay d db)).
Proof.
  intros Hs F H; revert d db F H.
  apply (replay_preserves handler_action (fun db => In s (submissions db))).
  intros st db' Hq Hi.
  destruct st; simpl in *; try exact Hi.
  - apply in_or_app; left; exact Hi.
  - subst status; apply in_map_iff; exists s; split; [|exact Hi].
    destruct (s_id s =? submission_id); [apply with_s_status_same; exact Hs|reflexivity].
Qed.

Lemma refresh_replay_frame (d : Journal) (db : DB) :
  Forall refresh_action d ->
  guild_settings (replay d db) = guild_settings db
  /\ signups (replay d db) = signups db
  /\ teams (replay d db) = teams db
  /\ submissions (replay d db) = submissions db
  /\ approvals (replay d db) = approvals db.
Proof.
  revert db; induction d as [|a d IH]; intros db F; simpl; [auto 6|].
  inversion F; subst.
  destruct a; try (apply IH; assumption).
  destruct st; simpl in *; try contradiction.
  apply (IH (set_leaderboard_message_id bingo_id message_id db) H2).
Qed.

Lemma scan_shape_handler (b : BingoRow) (d : Journal) :
  scan_shape b d -> Forall handler_action d.
Proof.
  assert (S : forall a, start_action b a -> handler_action a).
  { intros [[]| | |]; simpl; try tauto. }
  assert (T : forall a, tail_action b a -> handler_action a).
  { intros [[]| | |]; simpl; try tauto. }
  intros [F|(_ & tail & rest & -> & FT & FR)].
  - exact (Forall_impl _ S F).
  - constructor; [simpl; auto|].
    apply Forall_app; split;
      [exact (Forall_impl _ T FT)|exact (Forall_impl _ S FR)].
Qed.

Lemma signal_is_handler (a : Action) : signal_action a -> handler_action a.
Proof. destruct a as [[]| | |]; simpl; tauto. Qed.

Lemma refresh_is_signal (a : Action) : refresh_action a -> signal_action a.
Proof. destruct a as [[]| | |]; simpl; tauto. Qed.

(** ** What the handlers write *)

Lemma update_leaderboard_signal (env : Env) (g : Z) (gs : GuildSettings)
      (b : BingoRow) :
  emits signal_action (update_leaderboard env g gs b).
Proof.
  eapply emits_mono; [apply refresh_is_signal|apply update_leaderboard_refresh].
Qed.

Lemma on_raw_reaction_add_signal (env : Env) (p : Payload) :
  emits signal_action (on_raw_reaction_add env p).
Proof.
  unfold on_raw_reaction_add, db_add_signup, db_add_approval.
  repeat first [apply update_leaderboard_signal | emits_step]; simpl; auto.
Qed.

Lemma on_raw_reaction_remove_signal (env : Env) (p : Payload) :
  emits signal_action (on_raw_reaction_remove env p).
Proof. unfold on_raw_reaction_remove; emits_solve. Qed.

Lemma handle_submission_signal (env : Env) (g a : Z) (c : Channel) (d : string)
      (atts : list string) (r : option string) :
  emits signal_action (handle_submission env g a c d atts r).
Proof.
  unfold handle_submission, db_create_submission.
  repeat first [apply update_leaderboard_signal | emits_step]; simpl; auto.
Qed.

(** ** The scheduler tick *)

Lemma closes_app (i : Z) (j1 j2 : Journal) :
  closes i (j1 ++ j2) = (closes i j1 + closes i j2)%nat.
Proof. unfold closes; rewrite filter_app, length_app; reflexivity. Qed.

Lemma closes_none (i : Z) (P : Action -> Prop) (d : Journal) :
  (forall a, P a -> is_close i a = false) -> Forall P d -> closes i d = 0%nat.
Proof.
  intros H F; unfold closes; induction F as [|a d Ha F IH]; simpl; [reflexivity|].
  rewrite (H a Ha); exact IH.
Qed.

Lemma start_not_close (b : BingoRow) (i : Z) (a : Action) :
  start_action b a -> is_close i a = false.
Proof.
  destruct a as [[]| | |]; simpl; try reflexivity.
  intros (_ & -> & _); apply andb_false_r.
Qed.

Lemma tail_not_close (b : BingoRow) (i : Z) (a : Action) :
  tail_action b a -> is_close i a = false.
Proof. destruct a as [[]| | |]; simpl; try reflexivity; contradiction. Qed.

Lemma signal_not_close (i : Z) (a : Action) :
  signal_action a -> is_close i a = false.
Proof. destruct a as [[]| | |]; simpl; try reflexivity; contradiction. Qed.

(** One call of the scan on [b] closes the signups of [i] at most once, and
    only if [b] is the event [i] and is read as [signup_open]. *)
Lemma scan_shape_closes (b : BingoRow) (i : Z) (d : Journal) :
  scan_shape b d ->
  (closes i d <= 1)%nat
  /\ (closes i d = 1%nat -> b_id b = i /\ b_status b = "signup_open").
Proof.
  intros [F|(Hs & tail & rest & -> & FT & FR)].
  - rewrite (closes_none i _ d (start_not_close b i) F); split; [lia|discriminate].
  - change (Sql (SetStatus (b_id b) "signup_closed") :: tail ++ rest)
      with ([Sql (SetStatus (b_id b) "signup_closed")] ++ tail ++ rest).
    rewrite !closes_app, (closes_none i _ tail (tail_not_close b i) FT),
      (closes_none i _ rest (start_not_close b i) FR).
    unfold closes; simpl.
    destruct (b_id b =? i) eqn:E; simpl; split; try lia.
    intros _; apply Z.eqb_eq in E; auto.
Qed.

(** Closing the signups of [i] leaves no row of [i] open, whatever the
    handlers do afterwards. *)
Lemma scan_shape_commits (b : BingoRow) (d : Journal) (db : DB) :
  scan_shape b d -> closes (b_id b) d = 1%nat -> no_open (b_id b) (replay d db).
Proof.
  intros H Hc; pose proof (scan_shape_handler b d H) as Hh.
  destruct H as [F|(Hs & tail & rest & -> & FT & FR)].
  - rewrite (closes_none _ _ d (start_not_close b (b_id b)) F) in Hc; discriminate.
  - simpl; inversion Hh; subst.
    apply no_open_replay; [assumption|apply set_status_no_open].
Qed.


Lemma scan_shape_actions (b : BingoRow) (d : Journal) :
  scan_shape b d -> Forall (scan_action b) d.
Proof.
  intros [F|(Hs & tail & rest & -> & FT & FR)].
  - eapply Forall_impl; [|exact F]; intros a Ha; left; exact Ha.
  - constructor; [right; auto|].
    apply Forall_app; split.
    + eapply Forall_impl; [|exact FT]; intros a Ha; right; auto.
    + eapply Forall_impl; [|exact FR]; intros a Ha; left; exact Ha.
Qed.

Lemma scan_action_handler (b : BingoRow) (a : Action) :
  scan_action b a -> handler_action a.
Proof.
  intros [H|(_ & [-> | H])].
  - destruct a as [[]| | |]; simpl in *; tauto.
  - simpl; auto.
  - destruct a as [[]| | |]; simpl in *; tauto.
Qed.

Lemma tick_action_handler (l : list BingoRow) (a : Action) :
  tick_action l a -> handler_action a.
Proof.
  intros [-> | (b & _ & H)]; [exact I|eapply scan_action_handler; eauto].
Qed.

(** One iteration of the loop of [bingo_tick]: it never raises. *)
Lemma tick_body_shape (env : Env) (b : BingoRow) (w : World) :
  exists delta extra,
    try_except (handle_bingo_state env b) (log LogTickError) w
    = Done tt (mkWorld (replay (delta ++ extra) (w_db w))
                       (w_journal w ++ delta ++ extra))
    /\ scan_shape b delta
    /\ (extra = [] \/ extra = [Logged LogTickError]).
Proof.
  destruct (handle_bingo_state_shape env b w) as (d & E & S & _).
  unfold try_except.
  destruct (handle_bingo_state env b w) as [[] w1|w1]; simpl in E; subst w1.
  - exists d, []; rewrite app_nil_r; auto.
  - exists d, [Logged LogTickError]; unfold log, record; simpl.
    rewrite replay_app, app_assoc; simpl; auto.
Qed.

Lemma tick_rows (env : Env) (i : Z) (l : list BingoRow) :
  NoDup (map b_id l) ->
  forall w, exists delta,
    for_each (fun row => try_except (handle_bingo_state env row) (log LogTickError))
             l w
    = Done tt (mkWorld (replay delta (w_db w)) (w_journal w ++ delta))
    /\ Forall (tick_action l) delta
    /\ (closes i delta <= 1)%nat
    /\ (closes i delta = 1%nat ->
        (exists b, In b l /\ b_id b = i /\ b_status b = "signup_open")
        /\ no_open i (replay delta (w_db w))).
Proof.
  induction l as [|b l IH]; intros ND w; simpl.
  - exists []; rewrite app_nil_r; destruct w; simpl.
    repeat split; auto; discriminate.
  - inversion ND as [|? ? Hnotin ND']; subst.
    destruct (tick_body_shape env b w) as (d & extra & E & S & X).
    unfold bind at 1; rewrite E.
    destruct (IH ND' (mkWorld (replay (d ++ extra) (w_db w))
                             (w_journal w ++ d ++ extra)))
      as (d2 & E2 & F2 & C2 & K2).
    simpl in E2, K2.
    assert (Cx : closes i extra = 0%nat) by (destruct X as [-> | ->]; reflexivity).
    assert (Hx : Forall handler_action extra)
      by (destruct X as [-> | ->]; repeat constructor).
    assert (Tx : Forall (tick_action (b :: l)) extra)
      by (destruct X as [-> | ->]; repeat constructor).
    destruct (scan_shape_closes b i d S) as (C1 & K1).
    exists (d ++ extra ++ d2); split; [|split; [|split]].
    + rewrite E2; f_equal; f_equal;
        [rewrite !replay_app|rewrite <- !app_assoc]; reflexivity.
    + apply Forall_app; split; [|apply Forall_app; split; [exact Tx|]].
      * eapply Forall_impl; [|apply (scan_shape_actions b d S)].
        intros a Ha; right; exists b; split; [left; reflexivity|exact Ha].
      * eapply Forall_impl; [|exact F2].
        intros a [-> | (b' & Hb' & Ha)]; [left; reflexivity|].
        right; exists b'; split; [right; exact Hb'|exact Ha].
    + rewrite !closes_app, Cx.
      destruct (Nat.eq_dec (closes i d) 1) as [Hd|Hd]; [|lia].
      destruct (Nat.eq_dec (closes i d2) 1) as [Hd2|Hd2]; [|lia].
      exfalso; destruct (K1 Hd) as (Hid & _).
      destruct (K2 Hd2) as ((b' & Hb' & Hid' & _) & _).
      apply Hnotin; rewrite Hid, <- Hid'; apply in_map; exact Hb'.
    + rewrite !closes_app, Cx; intros Hc.
      destruct (Nat.eq_dec (closes i d) 1) as [Hd|Hd].
      * destruct (K1 Hd) as (Hid & Hs); split.
        -- exists b; split; [left; reflexivity|auto].
        -- rewrite !replay_app.
           apply no_open_replay;
             [eapply Forall_impl; [apply tick_action_handler|exact F2]|].
           apply no_open_replay; [exact Hx|].
           subst i; apply scan_shape_commits; assumption.
      * assert (Hd2 : closes i d2 = 1%nat) by lia.
        destruct (K2 Hd2) as ((b' & Hb' & Hid' & Hs') & Hno); split.
        -- exists b'; split; [right; exact Hb'|auto].
        -- rewrite !replay_app; rewrite replay_app in Hno; exact Hno.
Qed.

(** ** Sorting *)

Lemma insert_sorted_perm {A} (leb : A -> A -> bool) (x : A) (l : list A) :
  Permutation (insert_sorted leb x l) (x :: l).
Proof.
  induction l as [|y l IH]; simpl; [reflexivity|].
  destruct (leb x y); [reflexivity|].
  rewrite IH; apply perm_swap.
Qed.

Lemma isort_perm {A} (leb : A -> A -> bool) (l : list A) :
  Permutation (isort leb l) l.
Proof.
  induction l as [|x l IH]; simpl; [reflexivity|].
  rewrite insert_sorted_perm, IH; reflexivity.
Qed.

Lemma filter_keeps_keys {K R} (key : R -> K) (keep : R -> bool) (rows : list R) :
  NoDup (map key rows) -> NoDup (map key (filter keep rows)).
Proof.
  intros Hkeys; induction rows as [|r rows IH]; simpl in *; [exact Hkeys|].
  inversion Hkeys as [|? ? Hfresh Hrest]; subst.
  destruct (keep r); simpl; [constructor|]; auto.
  intros Hin; apply Hfresh.
  apply in_map_iff in Hin; destruct Hin as (r' & E & Hr').
  apply filter_In in Hr'; destruct Hr' as (Hr' & _).
  rewrite <- E; apply in_map; exact Hr'.
Qed.

Lemma NoDup_map_inj {A B} (f : A -> B) (l : list A) (x y : A) :
  NoDup (map f l) -> In x l -> In y l -> f x = f y -> x = y.
Proof.
  induction l as [|z l IH]; simpl; intros H Hx Hy E; [contradiction|].
  inversion H as [|? ? Hn Hd]; subst.
  destruct Hx as [-> | Hx], Hy as [-> | Hy]; auto.
  - exfalso; apply Hn; rewrite E; apply in_map; exact Hy.
  - exfalso; apply Hn; rewrite <- E; apply in_map; exact Hx.
Qed.

Lemma due_in_bingos (db : DB) (b : BingoRow) :
  In b (get_due_actions db) -> In b (bingos db).
Proof.
  unfold get_due_actions; intros H.
  apply (Permutation_in _ (isort_perm _ _)) in H.
  apply filter_In in H; tauto.
Qed.

Lemma due_pk (db : DB) : bingos_pk db -> NoDup (map b_id (get_due_actions db)).
Proof.
  unfold bingos_pk, get_due_actions; intros H.
  eapply Permutation_NoDup;
    [apply Permutation_map, Permutation_sym, isort_perm|].
  apply filter_keeps_keys; exact H.
Qed.

Lemma bingo_tick_shape (env : Env) (i : Z) (w : World) :
  bingos_pk (w_db w) ->
  exists delta,
    bingo_tick env w
    = Done tt (mkWorld (replay delta (w_db w)) (w_journal w ++ delta))
    /\ Forall (tick_action (get_due_actions (w_db w))) delta
    /\ (closes i delta <= 1)%nat
    /\ (closes i delta = 1%nat ->
        ~ no_open i (w_db w) /\ no_open i (replay delta (w_db w))).
Proof.
  intros Hpk.
  destruct (tick_rows env i _ (due_pk _ Hpk) w) as (d & E & F & C & K).
  exists d; split; [exact E|]; split; [exact F|]; split; [exact C|].
  intros Hc; destruct (K Hc) as ((b & Hb & Hid & Hs) & Hno); split; [|exact Hno].
  intros Hn; apply (Hn b (due_in_bingos _ _ Hb) Hid Hs).
Qed.

(** ** One step of a run *)

Lemma step_signal (env : Env) (ev : Event) (w : World) :
  ev <> Tick ->
  exists delta,
    step env ev w = mkWorld (replay delta (w_db w)) (w_journal w ++ delta)
    /\ Forall signal_action delta.
Proof.
  destruct ev; intros H; [contradiction| | |]; simpl; apply emits_final.
  - apply on_raw_reaction_add_signal.
  - apply on_raw_reaction_remove_signal.
  - apply handle_submission_signal.
Qed.

Lemma step_shape (env : Env) (i : Z) (ev : Event) (w : World) :
  bingos_pk (w_db w) ->
  exists delta,
    step env ev w = mkWorld (replay delta (w_db w)) (w_journal w ++ delta)
    /\ Forall handler_action delta
    /\ (closes i delta <= 1)%nat
    /\ (closes i delta = 1%nat ->
        ~ no_open i (w_db w) /\ no_open i (replay delta (w_db w))).
Proof.
  intros Hpk; destruct ev.
  - destruct (bingo_tick_shape env i w Hpk) as (d & E & F & C & K).
    exists d; simpl; rewrite E; simpl; split; [reflexivity|].
    split; [eapply Forall_impl; [apply tick_action_handler|exact F]|auto].
  - destruct (step_signal env (ReactionAdd payload) w) as (d & E & F);
      [discriminate|].
    exists d; split; [exact E|].
    split; [eapply Forall_impl; [apply signal_is_handler|exact F]|].
    rewrite (closes_none i _ d (signal_not_close i) F); split; [lia|discriminate].
  - destruct (step_signal env (ReactionRemove payload) w) as (d & E & F);
      [discriminate|].
    exists d; split; [exact E|].
    split; [eapply Forall_impl; [apply signal_is_handler|exact F]|].
    rewrite (closes_none i _ d (signal_not_close i) F); split; [lia|discriminate].
  - destruct (step_signal env (Submit guild author channel description
                                      attachments reply) w) as (d & E & F);
      [discriminate|].
    exists d; split; [exact E|].
    split; [eapply Forall_impl; [apply signal_is_handler|exact F]|].
    rewrite (closes_none i _ d (signal_not_close i) F); split; [lia|discriminate].
Qed.

(** The invariant behind "at most once": either the signups of [i] were
    never closed, or they were closed once and no row of [i] is open. *)
Lemma run_closes_invariant (env : Env) (i : Z) (evs : list Event) :
  forall w,
    bingos_pk (w_db w) ->
    closes i (w_journal w) = 0%nat
    \/ (closes i (w_journal w) = 1%nat /\ no_open i (w_db w)) ->
    bingos_pk (w_db (run env evs w))
    /\ (closes i (w_journal (run env evs w)) = 0%nat
        \/ (closes i (w_journal (run env evs w)) = 1%nat
            /\ no_open i (w_db (run env evs w)))).
Proof.
  induction evs as [|ev evs IH]; intros w Hpk Hinv; simpl; [auto|].
  destruct (step_shape env i ev w Hpk) as (d & E & F & C & K).
  apply IH; rewrite E; simpl.
  - apply replay_bingos_pk; exact Hpk.
  - rewrite closes_app.
    destruct (Nat.eq_dec (closes i d) 1) as [Hd|Hd].
    + destruct (K Hd) as (Hopen & Hno).
      destruct Hinv as [H0|(_ & Hn)]; [|contradiction].
      right; split; [lia|exact Hno].
    + assert (closes i d = 0%nat) as -> by lia.
      rewrite Nat.add_0_r.
      destruct Hinv as [H0|(H1 & Hn)]; [left; exact H0|].
      right; split; [exact H1|apply no_open_replay; assumption].
Qed.

(** ** The close transition runs once *)

(** C2: the [signup_open] to [signup_closed] transition runs at most once
    per event.  Over any run of the bot that starts from a database with unique event ids,
    the journal closes the signups of an event at most once; and every call
    of the scan on a row either performs start actions only, or, the row
    being read as [signup_open], begins with the status write, followed by
    team creation, announcement, board reveal and leaderboard refresh, in
    that position after the write.  A row read with any other status
    triggers none of these. *)
Theorem signup_close_at_most_once (env : Env) (i : Z) (evs : list Event) (w : World) :
  bingos_pk (w_db w) ->
  closes i (w_journal w) = 0%nat ->
  (closes i (w_journal (run env evs w)) <= 1)%nat
  /\ (forall b w0, exists delta,
         final (handle_bingo_state env b w0)
         = mkWorld (replay delta (w_db w0)) (w_journal w0 ++ delta)
         /\ scan_shape b delta
         /\ (close_due env w0 b ->
             exists rest, delta = Sql (SetStatus (b_id b) "signup_closed") :: rest)
         /\ (b_status b <> "signup_open" -> Forall (start_action b) delta)).
Proof.
  intros Hpk H0; split.
  - destruct (run_closes_invariant env i evs w Hpk (or_introl H0))
      as (_ & [-> | (-> & _)]); lia.
  - intros b w0.
    destruct (handle_bingo_state_shape env b w0) as (d & E & S & D).
    exists d; split; [exact E|]; split; [exact S|]; split; [exact D|].
    intros Hn; destruct S as [F|(Hs & _)]; [exact F|contradiction].
Qed.

Lemma signup_close_at_most_once_witness :
  bingos_pk demo_db
  /\ closes 1 (w_journal demo_world) = 0%nat
  /\ (closes 1 (w_journal (run demo_env [Tick; Tick; Tick] demo_world)) <= 1)%nat.
Proof.
  assert (Hpk : bingos_pk demo_db)
    by (constructor; [simpl; tauto|constructor]).
  split; [exact Hpk|]; split; [reflexivity|].
  exact (proj1 (signup_close_at_most_once demo_env 1 [Tick; Tick; Tick]
                                          demo_world Hpk eq_refl)).
Defined.

Example two_ticks_close_once :
  closes 1 (w_journal (run demo_env [Tick; Tick] demo_world)) = 1%nat.
Proof. vm_compute; reflexivity. Qed.

Lemma Event_eq_Tick (ev : Event) : ev = Tick \/ ev <> Tick.
Proof. destruct ev; [left; reflexivity|right; discriminate..]. Qed.
(** ** Every handler, every run *)

Lemma handle_bingo_state_emits (env : Env) (b : BingoRow) :
  emits (scan_action b) (handle_bingo_state env b).
Proof.
  intros w; destruct (handle_bingo_state_shape env b w) as (d & E & S & _).
  exists d; rewrite E; simpl.
  split; [reflexivity|]; split; [reflexivity|apply scan_shape_actions; exact S].
Qed.

Lemma bingo_tick_emits (env : Env) : emits handler_action (bingo_tick env).
Proof.
  unfold bingo_tick; emits_auto; simpl; auto.
  eapply emits_mono; [apply scan_action_handler|apply handle_bingo_state_emits].
Qed.

Lemma step_emits (env : Env) (ev : Event) (w : World) :
  exists delta,
    step env ev w = mkWorld (replay delta (w_db w)) (w_journal w ++ delta)
    /\ Forall handler_action delta.
Proof.
  destruct ev; simpl; apply emits_final.
  - apply bingo_tick_emits.
  - eapply emits_mono; [apply signal_is_handler|apply on_raw_reaction_add_signal].
  - eapply emits_mono; [apply signal_is_handler|apply on_raw_reaction_remove_signal].
  - eapply emits_mono; [apply signal_is_handler|apply handle_submission_signal].
Qed.

Lemma run_emits (env : Env) (evs : list Event) :
  forall w, exists delta,
    run env evs w = mkWorld (replay delta (w_db w)) (w_journal w ++ delta)
    /\ Forall handler_action delta.
Proof.
  induction evs as [|ev evs IH]; intros w; simpl.
  - exists []; rewrite app_nil_r; destruct w; auto.
  - destruct (step_emits env ev w) as (d1 & E1 & F1).
    destruct (IH (step env ev w)) as (d2 & E2 & F2).
    exists (d1 ++ d2); rewrite E2, E1; simpl.
    rewrite replay_app, app_assoc; split; [reflexivity|apply Forall_app; auto].
Qed.

(** ** A running event stays running *)

Lemma scan_stmt_reads (r : BingoRow) (st : Stmt) :
  scan_action r (Sql st) ->
  match st with
  | SetStatus i _ | SetLeaderboardMessageId i _ =>
      i = b_id r /\ (b_status r = "signup_open" \/ b_status r = "signup_closed")
  | _ => True
  end.
Proof.
  intros [H|(Hs & [E|H])]; destruct st; simpl in *; try tauto;
    inversion E; subst; auto.
Qed.

Lemma tick_keeps_running (l : list BingoRow) (b : BingoRow) (db0 : DB)
      (d : Journal) :
  bingos_pk db0 -> (forall r, In r l -> In r (bingos db0)) -> In b (bingos db0) ->
  b_status b = "running" ->
  Forall (tick_action l) d ->
  forall db, In b (bingos db) -> In b (bingos (replay d db)).
Proof.
  intros Hpk Hl Hb Hs F db; revert d db F.
  apply (replay_preserves (tick_action l) (fun db => In b (bingos db))).
  intros st db [E|(r & Hr & Ha)] Hi; [discriminate|].
  assert (Hne : (b_status r = "signup_open" \/ b_status r = "signup_closed")
                -> b_id b <> b_id r).
  { intros Hst Hid.
    assert (b = r) by (eapply NoDup_map_inj; eauto).
    subst r; rewrite Hs in Hst; destruct Hst; discriminate. }
  apply scan_stmt_reads in Ha.
  destruct st; simpl in *; try exact Hi; destruct Ha as (-> & Hst);
    apply in_map_iff; exists b; (split; [|exact Hi]);
    destruct (b_id b =? b_id r) eqn:E; try reflexivity;
    apply Z.eqb_eq in E; exfalso; exact (Hne Hst E).
Qed.

Lemma signal_keeps_status (b : BingoRow) (d : Journal) (db : DB) :
  Forall signal_action d -> still b db -> still b (replay d db).
Proof.
  revert d db; apply (replay_preserves signal_action (still b)).
  intros st db Hq (b' & Hin & Hid & Hs).
  destruct st; simpl in *; try contradiction;
    try (exists b'; split; [exact Hin|auto]; fail).
  exists (if b_id b' =? bingo_id then with_leaderboard_message_id message_id b'
          else b').
  split; [apply in_map_iff; exists b'; auto|].
  destruct (b_id b' =? bingo_id); auto.
Qed.

Lemma run_keeps_running (env : Env) (b : BingoRow) (evs : list Event) :
  b_status b = "running" ->
  forall w, bingos_pk (w_db w) -> still b (w_db w) ->
            still b (w_db (run env evs w)).
Proof.
  intros Hs; induction evs as [|ev evs IH]; intros w Hpk Hst; simpl; [exact Hst|].
  assert (Hstep : bingos_pk (w_db (step env ev w)) /\ still b (w_db (step env ev w))).
  { destruct (Event_eq_Tick ev) as [-> | Hne].
    - destruct (bingo_tick_shape env 0 w Hpk) as (d & E & F & _).
      simpl; rewrite E; simpl; split; [apply replay_bingos_pk; exact Hpk|].
      destruct Hst as (b' & Hin & Hid & Hs').
      exists b'; split; [|auto].
      apply (tick_keeps_running (get_due_actions (w_db w)) b' (w_db w) d); auto.
      + apply due_in_bingos.
      + congruence.
    - destruct (step_signal env ev w Hne) as (d & E & F).
      rewrite E; simpl; split; [apply replay_bingos_pk; exact Hpk|].
      apply signal_keeps_status; assumption. }
  apply IH; tauto.
Qed.

(** C9: the lifecycle engine never stores the status [ended].  In every run
    of the bot the only event statuses written are [signup_closed] and
    [running]; the scan of a row does not depend on its end time; and an
    event that is [running] is still stored as [running] after any run. *)
Theorem engine_never_ends (env : Env) (evs : list Event) (w : World) (b : BingoRow) :
  bingos_pk (w_db w) ->
  In b (bingos (w_db w)) ->
  b_status b = "running" ->
  (exists b', In b' (bingos (w_db (run env evs w)))
              /\ b_id b' = b_id b /\ b_status b' = "running")
  /\ (forall evs0 w0, exists delta,
         run env evs0 w0 = mkWorld (replay delta (w_db w0)) (w_journal w0 ++ delta)
         /\ forall i s, In (Sql (SetStatus i s)) delta ->
                        s = "signup_closed" \/ s = "running")
  /\ (forall e b0, handle_bingo_state env (with_end_utc e b0)
                   = handle_bingo_state env b0).
Proof.
  intros Hpk Hin Hs; split; [|split].
  - destruct (run_keeps_running env b evs Hs w Hpk) as (b' & H1 & H2 & H3).
    + exists b; auto.
    + exists b'; rewrite <- Hs; auto.
  - intros evs0 w0; destruct (run_emits env evs0 w0) as (d & E & F).
    exists d; split; [exact E|].
    intros i s Hi; rewrite Forall_forall in F; exact (F _ Hi).
  - intros e b0; reflexivity.
Qed.

Lemma engine_never_ends_witness :
  let w := run demo_env [Tick] (mkWorld (set_status 1 "running" demo_db) []) in
  let b := with_status "running" demo_bingo in
  bingos_pk (w_db w)
  /\ In b (bingos (w_db w))
  /\ b_status b = "running"
  /\ exists b', In b' (bingos (w_db (run demo_env [Tick; Tick] w)))
                /\ b_id b' = b_id b /\ b_status b' = "running".
Proof.
  intros w b.
  assert (Hpk : bingos_pk (w_db w)) by (constructor; [simpl; tauto|constructor]).
  assert (Hin : In b (bingos (w_db w))) by (left; reflexivity).
  split; [exact Hpk|]; split; [exact Hin|]; split; [reflexivity|].
  exact (proj1 (engine_never_ends demo_env [Tick; Tick] w b Hpk Hin eq_refl)).
Defined.

(** ** Reactions that change nothing *)

(** C3: an approved submission is a latch.  An approval reaction on the
    message of a submission whose status is [approved] leaves the database
    and the journal as they were: no approval row, no status write, no
    announcement, no leaderboard refresh; and the row stays stored as
    [approved] through every run of the bot. *)
Theorem approved_is_final (env : Env) (w : World) (p : Payload)
        (sub : SubmissionRow) (evs : list Event) :
  p_emoji p = APPROVE_EMOJI ->
  get_submission_by_message (p_message_id p) (w_db w) = Some sub ->
  s_status sub = "approved" ->
  on_raw_reaction_add env p w = Done tt w
  /\ In sub (submissions (w_db (run env evs w))).
Proof.
  intros He Hsub Hst; split.
  - unfold on_raw_reaction_add.
    destruct (p_user_id p =? bot_user_id env); [reflexivity|].
    destruct (p_guild_id p) as [gid|]; [|reflexivity].
    destruct (gid =? 0); [reflexivity|].
    destruct (guild_known env gid); [|reflexivity]; unfold negb.
    unfold bind at 1, query at 1.
    destruct (get_guild_settings gid (w_db w)) as [gs|]; [|reflexivity].
    unfold bind at 1, query at 1.
    destruct (get_active_bingo gid (w_db w)) as [bingo|]; [|reflexivity].
    rewrite He, approve_not_signup, approve_not_unsign.
    destruct (is_signup_post bingo (p_message_id p)); [reflexivity|].
    rewrite String.eqb_refl; unfold negb.
    unfold bind at 1, query at 1; rewrite Hsub, Hst; reflexivity.
  - destruct (run_emits env evs w) as (d & E & F); rewrite E; simpl.
    apply approved_replay; [exact Hst|exact F|].
    unfold get_submission_by_message in Hsub.
    apply find_some in Hsub; tauto.
Qed.

Lemma approved_is_final_witness :
  let sub := mkSubmission 2 1 22 "whip" "full_tile" 11 61 "b.png" "approved" 2 in
  let evs := [ReactionAdd (approve_by 7 61); Tick; ReactionAdd (approve_by 8 61)] in
  p_emoji (approve_by 7 61) = APPROVE_EMOJI
  /\ get_submission_by_message 61 demo_db = Some sub
  /\ s_status sub = "approved"
  /\ on_raw_reaction_add demo_env (approve_by 7 61) demo_world = Done tt demo_world
  /\ In sub (submissions (w_db (run demo_env evs demo_world))).
Proof.
  intros sub evs.
  split; [reflexivity|]; split; [reflexivity|]; split; [reflexivity|].
  exact (approved_is_final demo_env demo_world (approve_by 7 61) sub evs
                           eq_refl eq_refl eq_refl).
Defined.

(** C8: an approval reaction from a user who holds neither the
    manage-guild nor the administrator permission is dropped without a
    trace, under every approval policy: the handler returns with the
    database and the journal unchanged, so no approval row is stored, no
    status changes and nothing is sent. *)
Theorem unauthorized_signal_ignored (env : Env) (w : World) (p : Payload) :
  p_emoji p = APPROVE_EMOJI ->
  (forall gid, p_guild_id p = Some gid ->
               has_capability (lookup_member env gid (p_user_id p)) = false) ->
  on_raw_reaction_add env p w = Done tt w.
Proof.
  intros He Hcap; unfold on_raw_reaction_add.
  destruct (p_user_id p =? bot_user_id env); [reflexivity|].
  destruct (p_guild_id p) as [gid|] eqn:Hg; [|reflexivity].
  specialize (Hcap gid eq_refl).
  destruct (gid =? 0); [reflexivity|].
  destruct (guild_known env gid); [|reflexivity]; unfold negb.
  unfold bind at 1, query at 1.
  destruct (get_guild_settings gid (w_db w)) as [gs|]; [|reflexivity].
  unfold bind at 1, query at 1.
  destruct (get_active_bingo gid (w_db w)) as [bingo|]; [|reflexivity].
  rewrite He, approve_not_signup, approve_not_unsign.
  destruct (is_signup_post bingo (p_message_id p)); [reflexivity|].
  rewrite String.eqb_refl; unfold negb.
  unfold bind at 1, query at 1.
  destruct (get_submission_by_message (p_message_id p) (w_db w)) as [sub|];
    [|reflexivity].
  destruct (String.eqb (s_status sub) "pending"); [|reflexivity].
  rewrite (approver_allowed_capability _ _ Hcap); reflexivity.
Qed.

Lemma unauthorized_signal_ignored_witness :
  p_emoji (approve_by 5 60) = APPROVE_EMOJI
  /\ has_capability (lookup_member demo_env 1 5) = false
  /\ on_raw_reaction_add demo_env (approve_by 5 60) demo_world = Done tt demo_world.
Proof.
  split; [reflexivity|]; split; [reflexivity|].
  apply (unauthorized_signal_ignored demo_env demo_world (approve_by 5 60) eq_refl).
  intros gid H; inversion H; reflexivity.
Defined.

(** ** Approvals *)

Lemma approval_key_spec (sid uid : Z) (r : ApprovalRow) :
  approval_key sid uid r = true <-> (a_submission_id r, a_user_id r) = (sid, uid).
Proof.
  unfold approval_key; rewrite andb_true_iff, !Z.eqb_eq.
  split; [intros (-> & ->); reflexivity|intros E; inversion E; auto].
Qed.

Lemma recorded_iff (sid uid : Z) (db : DB) :
  In uid (approvers sid db)
  <-> existsb (approval_key sid uid) (approvals db) = true.
Proof.
  unfold approvers; rewrite nodup_In, in_map_iff, existsb_exists; split.
  - intros (r & E & Hr); apply filter_In in Hr; destruct Hr as (Hr & Hs).
    exists r; split; [exact Hr|].
    apply approval_key_spec; apply Z.eqb_eq in Hs; congruence.
  - intros (r & Hr & Hk); apply approval_key_spec in Hk; inversion Hk; subst.
    exists r; split; [reflexivity|].
    apply filter_In; split; [exact Hr|apply Z.eqb_refl].
Qed.

Lemma add_approval_pk (sid uid now : Z) (db : DB) :
  approvals_pk db -> approvals_pk (add_approval sid uid now db).
Proof.
  unfold approvals_pk, add_approval; simpl; intros H.
  destruct (existsb (approval_key sid uid) (approvals db)) eqn:E; [exact H|].
  rewrite map_app; simpl.
  apply NoDup_app; [exact H|repeat constructor; simpl; tauto|].
  intros k Hk [<- | []].
  apply in_map_iff in Hk; destruct Hk as (r & Hr & Hin).
  assert (existsb (approval_key sid uid) (approvals db) = true); [|congruence].
  apply existsb_exists; exists r; split; [exact Hin|].
  apply approval_key_spec; exact Hr.
Qed.

Lemma approvers_distinct (sid : Z) (db : DB) :
  approvals_pk db ->
  NoDup (map a_user_id
             (filter (fun r => a_submission_id r =? sid) (approvals db))).
Proof.
  unfold approvals_pk; induction (approvals db) as [|r l IH]; simpl; intros H;
    [constructor|].
  inversion H as [|? ? Hn Hd]; subst.
  destruct (a_submission_id r =? sid) eqn:E; simpl; [constructor|]; auto.
  intros Hin; apply Hn.
  apply in_map_iff in Hin; destruct Hin as (r' & Hu & Hr').
  apply filter_In in Hr'; destruct Hr' as (Hr' & Hs).
  apply in_map_iff; exists r'; split; [|exact Hr'].
  apply Z.eqb_eq in E, Hs; congruence.
Qed.

Lemma count_approvals_distinct (sid : Z) (db : DB) :
  approvals_pk db ->
  count_approvals sid db = Z.of_nat (List.length (approvers sid db)).
Proof.
  intros H; unfold count_approvals, approvers.
  rewrite (nodup_fixed_point Z.eq_dec (approvers_distinct sid db H)).
  rewrite length_map; reflexivity.
Qed.

Lemma add_approval_count (sid uid now : Z) (db : DB) :
  count_approvals sid (add_approval sid uid now db)
  = if existsb (approval_key sid uid) (approvals db)
    then count_approvals sid db else count_approvals sid db + 1.
Proof.
  unfold count_approvals, add_approval; simpl.
  destruct (existsb (approval_key sid uid) (approvals db)); [reflexivity|].
  rewrite filter_app, length_app; simpl; rewrite Z.eqb_refl; simpl; lia.
Qed.

Lemma add_approval_recorded (sid uid now : Z) (db : DB) :
  In uid (approvers sid (add_approval sid uid now db)).
Proof.
  apply recorded_iff; unfold add_approval; simpl.
  destruct (existsb (approval_key sid uid) (approvals db)) eqn:E; [exact E|].
  rewrite existsb_app; simpl; unfold approval_key; simpl.
  rewrite !Z.eqb_refl; simpl; apply orb_true_r.
Qed.

Lemma find_message_status (mid sid : Z) (st : string) (db : DB) :
  get_submission_by_message mid (set_submission_status sid st db)
  = option_map (fun s => if s_id s =? sid then with_s_status st s else s)
               (get_submission_by_message mid db).
Proof.
  unfold get_submission_by_message, set_submission_status; simpl.
  induction (submissions db) as [|s l IH]; simpl; [reflexivity|].
  replace (s_message_id (if s_id s =? sid then with_s_status st s else s))
    with (s_message_id s) by (destruct (s_id s =? sid); reflexivity).
  destruct (s_message_id s =? mid); [reflexivity|exact IH].
Qed.

(** ** The approval branch of [on_raw_reaction_add] *)

Lemma bind_exec {A} (st : Stmt) (f : unit -> M A) (w : World) :
  bind (exec st) f w
  = f tt (mkWorld (run_stmt st (w_db w)) (w_journal w ++ [Sql st])).
Proof. reflexivity. Qed.

Lemma bind_bind {A B C} (m : M A) (f : A -> M B) (g : B -> M C) (w : World) :
  bind (bind m f) g w = bind m (fun a => bind (f a) g) w.
Proof. unfold bind; destruct (m w); reflexivity. Qed.

Lemma bind_utc_now {A} (env : Env) (f : Z -> M A) (w : World) :
  bind (utc_now env) f w = f (clock env (w_journal w)) w.
Proof. reflexivity. Qed.

Lemma bind_query {A B} (q : DB -> A) (f : A -> M B) (w : World) :
  bind (query q) f w = f (q (w_db w)) w.
Proof. reflexivity. Qed.

Lemma approval_tail_refresh (env : Env) (gid : Z) (gs : GuildSettings)
      (sub : SubmissionRow) :
  emits refresh_action
        ((if text_channel env gid (gs_announcements_channel_id gs)
          then perform env (Send (gs_announcements_channel_id gs)
                                 (TxtApproved (s_message_id sub))) ;; ret tt
          else ret tt) ;;
         bingo <- query (get_active_bingo gid) ;;
         match bingo with
         | Some bingo => update_leaderboard env gid gs bingo
         | None => ret tt
         end).
Proof.
  repeat first [apply update_leaderboard_refresh | emits_step]; simpl; auto.
Qed.

(** An admitted approval: the row is inserted (or ignored), the approvals
    are counted, and the status is written iff the count reaches the number
    stored on the submission row. *)
Lemma approval_step (env : Env) (w : World) (p : Payload) (gid : Z)
      (gs : GuildSettings) (bingo : BingoRow) (sub : SubmissionRow) :
  approval_signal env (w_db w) p gid gs bingo sub ->
  s_status sub = "pending" ->
  approver_allowed (b_approvals_mode bingo)
                   (lookup_member env gid (p_user_id p)) = true ->
  let sid := s_id sub in
  let db1 := add_approval sid (p_user_id p) (clock env (w_journal w)) (w_db w) in
  let reached := s_approvals_required sub <=? count_approvals sid db1 in
  exists delta,
    final (on_raw_reaction_add env p w)
    = mkWorld
        (replay delta (if reached then set_submission_status sid "approved" db1
                       else db1))
        (w_journal w
         ++ Sql (AddApproval sid (p_user_id p) (clock env (w_journal w)))
         :: (if reached then [Sql (SetSubmissionStatus sid "approved")] else [])
         ++ delta)
    /\ Forall refresh_action delta
    /\ (reached = false -> delta = []).
Proof.
  intros (Hbot & Hg & Hz & Hk & Hgs & Hb & Hsp & He & Hsub) Hst Hal sid db1 reached.
  unfold on_raw_reaction_add.
  apply Z.eqb_neq in Hbot, Hz; rewrite Hbot, Hg, Hz, Hk; unfold negb.
  unfold bind at 1, query at 1; rewrite Hgs.
  unfold bind at 1, query at 1; rewrite Hb, Hsp, He, String.eqb_refl; unfold negb.
  unfold bind at 1, query at 1; rewrite Hsub, Hst, String.eqb_refl.
  cbv zeta; rewrite Hal; cbv iota.
  unfold db_add_approval.
  rewrite bind_bind, bind_utc_now, bind_exec, bind_query.
  subst reached db1 sid; cbn [run_stmt w_db w_journal].
  destruct (s_approvals_required sub
            <=? count_approvals (s_id sub)
                  (add_approval (s_id sub) (p_user_id p) (clock env (w_journal w))
                                (w_db w))).
  - rewrite bind_exec.
    match goal with
    | |- context [final (?m ?w1)] =>
        destruct (emits_final refresh_action m w1
                              (approval_tail_refresh env gid gs sub))
          as (d & E & F)
    end.
    exists d; split; [|split; [exact F|discriminate]].
    rewrite E; cbn [w_db w_journal run_stmt]; rewrite <- !app_assoc; reflexivity.
  - exists []; cbn [final replay]; rewrite !app_nil_r; auto.
Qed.

(** ** The quorum *)

(** C1: quorum of distinct approvers.  When an admitted approver reacts to
    a pending submission that requires [R] approvals, the approvals of the
    submission afterwards are as many as its distinct recorded approvers,
    the approver is among them, and the submission is stored as [approved]
    exactly when that number is at least [R], otherwise it is still
    [pending].  A reaction of a user already recorded leaves the approvals
    table and the count as they were; a new approver raises the count by
    one. *)
Theorem quorum_of_distinct_approvers (env : Env) (w : World) (p : Payload) (gid : Z)
        (gs : GuildSettings) (bingo : BingoRow) (sub : SubmissionRow) :
  approval_signal env (w_db w) p gid gs bingo sub ->
  s_status sub = "pending" ->
  approver_allowed (b_approvals_mode bingo)
                   (lookup_member env gid (p_user_id p)) = true ->
  approvals_pk (w_db w) ->
  let db' := w_db (final (on_raw_reaction_add env p w)) in
  let sid := s_id sub in
  let R := s_approvals_required sub in
  approvals_pk db'
  /\ count_approvals sid db' = Z.of_nat (List.length (approvers sid db'))
  /\ In (p_user_id p) (approvers sid db')
  /\ (exists sub',
         get_submission_by_message (p_message_id p) db' = Some sub'
         /\ s_id sub' = sid
         /\ (s_status sub' = "approved" <-> R <= count_approvals sid db')
         /\ (s_status sub' = "approved" \/ s_status sub' = "pending"))
  /\ (In (p_user_id p) (approvers sid (w_db w)) ->
      approvals db' = approvals (w_db w)
      /\ count_approvals sid db' = count_approvals sid (w_db w))
  /\ (~ In (p_user_id p) (approvers sid (w_db w)) ->
      count_approvals sid db' = count_approvals sid (w_db w) + 1).
Proof.
  intros Hsig Hst Hal Hpk db' sid R; subst sid R.
  destruct (approval_step env w p gid gs bingo sub Hsig Hst Hal)
    as (d & E & F & _).
  destruct Hsig as (_ & _ & _ & _ & _ & _ & _ & _ & Hsub).
  set (now := clock env (w_journal w)) in *.
  set (db1 := add_approval (s_id sub) (p_user_id p) now (w_db w)) in *.
  set (reached := s_approvals_required sub <=? count_approvals (s_id sub) db1) in *.
  set (db2 := if reached then set_submission_status (s_id sub) "approved" db1
              else db1) in *.
  assert (Hdb : db' = replay d db2) by (unfold db'; rewrite E; reflexivity).
  destruct (refresh_replay_frame d db2 F) as (_ & _ & _ & Hsubs & Happ).
  assert (Happ1 : approvals db' = approvals db1).
  { rewrite Hdb, Happ; unfold db2; destruct reached; reflexivity. }
  assert (Hcount : count_approvals (s_id sub) db'
                   = count_approvals (s_id sub) db1).
  { unfold count_approvals; rewrite Happ1; reflexivity. }
  assert (Hpk1 : approvals_pk db1) by (apply add_approval_pk; exact Hpk).
  assert (Hpk' : approvals_pk db') by (unfold approvals_pk; rewrite Happ1; exact Hpk1).
  assert (Hfind : get_submission_by_message (p_message_id p) db'
                  = get_submission_by_message (p_message_id p) db2).
  { unfold get_submission_by_message; rewrite Hdb, Hsubs; reflexivity. }
  split; [exact Hpk'|]; split; [apply count_approvals_distinct; exact Hpk'|].
  split; [|split; [|split]].
  - apply recorded_iff; rewrite Happ1; apply recorded_iff.
    apply add_approval_recorded.
  - rewrite Hfind, Hcount; unfold db2; fold reached.
    destruct reached eqn:Hr.
    + rewrite find_message_status.
      assert (Hs1 : get_submission_by_message (p_message_id p) db1 = Some sub)
        by exact Hsub.
      rewrite Hs1; simpl; rewrite Z.eqb_refl.
      exists (with_s_status "approved" sub); split; [reflexivity|].
      split; [reflexivity|]; split; [|left; reflexivity].
      split; [intros _; apply Z.leb_le; exact Hr|reflexivity].
    + exists sub; split; [exact Hsub|]; split; [reflexivity|].
      split; [|right; exact Hst].
      split; [rewrite Hst; discriminate|].
      intros Hle; apply Z.leb_gt in Hr; lia.
  - intros Hin; apply recorded_iff in Hin.
    rewrite Hcount, Happ1; unfold db1.
    rewrite add_approval_count; unfold add_approval; simpl; rewrite Hin; auto.
  - intros Hnin; rewrite Hcount; unfold db1; rewrite add_approval_count.
    destruct (existsb (approval_key (s_id sub) (p_user_id p)) (approvals (w_db w)))
             eqn:Hx; [|reflexivity].
    exfalso; apply Hnin, recorded_iff; exact Hx.
Qed.

Lemma quorum_of_distinct_approvers_witness :
  let sub := mkSubmission 1 1 21 "dragon" "full_tile" 10 60 "a.png" "pending" 2 in
  let p := approve_by 7 60 in
  approval_signal demo_env demo_db p 1 demo_gs demo_bingo sub
  /\ s_status sub = "pending"
  /\ approver_allowed (b_approvals_mode demo_bingo)
                      (lookup_member demo_env 1 (p_user_id p)) = true
  /\ approvals_pk demo_db
  /\ count_approvals 1 (w_db (final (on_raw_reaction_add demo_env p demo_world)))
     = count_approvals 1 demo_db + 1.
Proof.
  intros sub p.
  assert (Hsig : approval_signal demo_env demo_db p 1 demo_gs demo_bingo sub)
    by (repeat split; try reflexivity; discriminate).
  assert (Hpk : approvals_pk demo_db).
  { repeat constructor; simpl; intros H; repeat destruct H as [H|H];
      try discriminate; exact H. }
  split; [exact Hsig|]; split; [reflexivity|]; split; [reflexivity|].
  split; [exact Hpk|].
  apply (quorum_of_distinct_approvers demo_env demo_world p 1 demo_gs demo_bingo sub
                                      Hsig eq_refl eq_refl Hpk).
  vm_compute; intros H; repeat destruct H as [H|H]; try discriminate; exact H.
Defined.

(** The scenario of the specification: M1 approves, M1 approves again, M2
    approves; two approvals are required. *)
Example quorum_scenario :
  let react u := ReactionAdd (approve_by u 60) in
  let after evs := w_db (run demo_env evs demo_world) in
  (count_approvals 1 (after [react 7]),
   option_map s_status (get_submission_by_message 60 (after [react 7])))
  = (1, Some "pending")
  /\ (count_approvals 1 (after [react 7; react 7]),
      option_map s_status (get_submission_by_message 60 (after [react 7; react 7])))
     = (1, Some "pending")
  /\ (count_approvals 1 (after [react 7; react 7; react 8]),
      option_map s_status
                 (get_submission_by_message 60 (after [react 7; react 7; react 8])))
     = (2, Some "approved").
Proof. repeat split; vm_compute; reflexivity. Qed.

(** ** Creating a submission *)

Lemma no_sql_replay (d : Journal) (db : DB) : Forall no_sql d -> replay d db = db.
Proof.
  induction d as [|a d IH]; simpl; intros F; [reflexivity|].
  inversion F; subst; destruct a; simpl in *; [contradiction|auto..].
Qed.

Lemma creates_pure (env : Env) (g author : Z) (desc : string) (bingo : BingoRow)
      (gs : GuildSettings) (m : M unit) :
  emits no_sql m -> creates_or_not env g author desc bingo gs m.
Proof.
  intros H w; left.
  destruct (emits_final _ m w H) as (d & E & F).
  exists d; rewrite E, (no_sql_replay d _ F); auto.
Qed.

Lemma creates_bind {A} (env : Env) (g author : Z) (desc : string) (bingo : BingoRow)
      (gs : GuildSettings) (m : M A) (f : A -> M unit) :
  emits no_sql m ->
  (forall a, creates_or_not env g author desc bingo gs (f a)) ->
  creates_or_not env g author desc bingo gs (bind m f).
Proof.
  intros Hm Hf w.
  destruct (emits_final _ m w Hm) as (d1 & E1 & F1).
  rewrite (no_sql_replay d1 _ F1) in E1.
  unfold bind; destruct (m w) as [a w1|w1]; simpl in E1; subst w1.
  - destruct (Hf a (mkWorld (w_db w) (w_journal w ++ d1)))
      as [(d2 & E2 & F2)|(pre & kind & now & msg & path & Fp & Hw & Hin)].
    + left; exists (d1 ++ d2); rewrite E2; simpl; rewrite app_assoc.
      split; [reflexivity|apply Forall_app; auto].
    + right; exists (d1 ++ pre), kind, now, msg, path.
      split; [apply Forall_app; auto|].
      simpl in Hw, Hin |- *; rewrite <- !app_assoc in Hw |- *.
      split; [exact Hw|exact Hin].
  - left; exists d1; auto.
Qed.

Lemma update_leaderboard_done (env : Env) (g : Z) (gs : GuildSettings)
      (b : BingoRow) (w : World) :
  exists w', update_leaderboard env g gs b w = Done tt w'.
Proof.
  unfold update_leaderboard.
  destruct (text_channel env g (gs_announcements_channel_id gs)); simpl;
    [|eexists; reflexivity].
  unfold bind at 1, query at 1, try_except.
  match goal with |- context [match ?m w with _ => _ end] => destruct (m w) as [[] ?|?] end;
    eexists; reflexivity.
Qed.

Lemma create_leaf (env : Env) (g author : Z) (desc : string) (bingo : BingoRow)
      (gs : GuildSettings) (kind : string) (msg : Z) (path : string) :
  creates_or_not env g author desc bingo gs
    (submission_id <-
       db_create_submission env (b_id bingo) author desc kind msg path
         (if String.eqb (b_approvals_mode bingo) "none" then "approved" else "pending")
         (b_approvals_required bingo) ;;
     (if String.eqb
           (if String.eqb (b_approvals_mode bingo) "none" then "approved"
            else "pending") "approved"
      then update_leaderboard env g gs bingo else ret tt) ;;
     log (LogSubmissionCreated msg submission_id)).
Proof.
  intros w; right.
  exists [], kind, (clock env (w_journal w)), msg, path.
  split; [constructor|].
  unfold db_create_submission.
  rewrite !bind_bind, bind_utc_now, bind_bind, bind_query, bind_bind, bind_exec.
  cbn [w_db w_journal app].
  destruct (String.eqb (b_approvals_mode bingo) "none"); cbn [String.eqb Ascii.eqb Bool.eqb].
  - set (w_c := mkWorld _ _).
    destruct (update_leaderboard_done env g gs bingo w_c) as (w2 & E2).
    destruct (emits_final _ _ w_c (update_leaderboard_refresh env g gs bingo))
      as (d & E & F).
    match goal with
    | |- final ?t = ?r /\ _ =>
        assert (Efin : final t = r)
          by (unfold bind, ret; rewrite E2; reflexivity)
    end.
    rewrite Efin; split; [reflexivity|].
    unfold record; cbn [w_db]; rewrite E; cbn [w_db].
    destruct (refresh_replay_frame d (w_db w_c) F) as (_ & _ & _ & -> & _).
    unfold w_c; simpl; apply in_or_app; right; left; reflexivity.
  - split; [reflexivity|].
    simpl; apply in_or_app; right; left; reflexivity.
Qed.
Lemma handle_submission_creates (env : Env) (g author : Z) (ch : Channel)
      (desc : string) (atts : list string) (reply : option string) (w : World) :
  (exists delta,
      final (handle_submission env g author ch desc atts reply w)
      = mkWorld (w_db w) (w_journal w ++ delta)
      /\ Forall no_sql delta)
  \/ (exists bingo gs,
         get_active_bingo g (w_db w) = Some bingo
         /\ get_guild_settings g (w_db w) = Some gs
         /\ created env g author desc bingo gs w
                    (final (handle_submission env g author ch desc atts reply w))).
Proof.
  assert (lift : forall bingo gs m,
             get_active_bingo g (w_db w) = Some bingo ->
             get_guild_settings g (w_db w) = Some gs ->
             creates_or_not env g author desc bingo gs m ->
             (exists delta,
                 final (m w) = mkWorld (w_db w) (w_journal w ++ delta)
                 /\ Forall no_sql delta)
             \/ (exists bingo gs,
                    get_active_bingo g (w_db w) = Some bingo
                    /\ get_guild_settings g (w_db w) = Some gs
                    /\ created env g author desc bingo gs w (final (m w)))).
  { intros bingo gs m Hb Hg Hm; destruct (Hm w) as [H|H]; [left; exact H|].
    right; exists bingo, gs; auto. }
  assert (pure : forall m : M unit,
             emits no_sql m ->
             exists delta,
               final (m w) = mkWorld (w_db w) (w_journal w ++ delta)
               /\ Forall no_sql delta).
  { intros m Hm; destruct (emits_final _ m w Hm) as (d & E & F).
    exists d; rewrite E, (no_sql_replay d _ F); auto. }
  unfold handle_submission; rewrite bind_query.
  destruct (get_active_bingo g (w_db w)) as [bingo|] eqn:Hb;
    [|left; apply pure; emits_solve].
  rewrite bind_query.
  destruct (get_guild_settings g (w_db w)) as [gs|] eqn:Hg;
    [|left; apply pure; emits_solve].
  apply (lift bingo gs); [reflexivity|reflexivity|]; cbv zeta.
  repeat match goal with
         | |- creates_or_not _ _ _ _ _ _ (bind (db_create_submission _ _ _ _ _ _ _ _ _) _) =>
             apply create_leaf
         | |- creates_or_not _ _ _ _ _ _ (if ?c then _ else _) => destruct c eqn:?
         | |- creates_or_not _ _ _ _ _ _ (match ?x with _ => _ end) => destruct x eqn:?
         | |- creates_or_not _ _ _ _ _ _ (bind _ _) =>
             apply creates_bind; [emits_solve|intros]
         | |- creates_or_not _ _ _ _ _ _ (ret _) => apply creates_pure, emits_ret
         end.
Qed.
(** ** A submission that passes the checks is stored *)







(** The event asks for five approvals, the submission was created when it
    asked for one: one approval settles it. *)
Example snapshot_beats_event :
  option_map s_status
             (get_submission_by_message
                60 (w_db (run demo_env [ReactionAdd (approve_by 7 60)]
                              (mkWorld drifted_db []))))
  = Some "approved".
Proof. vm_compute; reflexivity. Qed.

(** Mode [none]: the row is stored approved and the leaderboard is
    published right after the insert. *)
Example auto_approved_submission :
  w_journal (run demo_env
                 [Submit 1 21 (mkChannel 11 true) "dragon" ["a.png"] (Some "full")]
                 (mkWorld open_db []))
  = [Out (Send 11 TxtAskKind);
     Out (SaveAttachment "a.png");
     Out (Send 11 (TxtSubmission "dragon" 21 "full_tile" "a.png"));
     Out (AddReaction 102 SIGNUP_EMOJI);
     Sql (CreateSubmission 1 21 "dragon" "full_tile" 1000 102 "a.png" "approved" 0);
     Out (Send 12 (TxtLeaderboard "demo" [LineCount 1 1]));
     Sql (SetLeaderboardMessageId 1 105);
     Logged (LogSubmissionCreated 102 1)].
Proof. vm_compute; reflexivity. Qed.

(** ** The roster after signups close *)

Lemma signup_key_spec (bid uid : Z) (r : SignupRow) :
  signup_key bid uid r = true <-> su_bingo_id r = bid /\ su_user_id r = uid.
Proof. unfold signup_key; rewrite andb_true_iff, !Z.eqb_eq; tauto. Qed.

Lemma listed_iff (bid uid : Z) (db : DB) :
  In uid (list_signups bid db) <-> existsb (signup_key bid uid) (signups db) = true.
Proof.
  unfold list_signups; rewrite in_map_iff, existsb_exists; split.
  - intros (r & E & Hr); apply filter_In in Hr; destruct Hr as (Hr & Hb).
    exists r; split; [exact Hr|].
    apply signup_key_spec; apply Z.eqb_eq in Hb; auto.
  - intros (r & Hr & Hk); apply signup_key_spec in Hk; destruct Hk as (Hb & Hu).
    exists r; split; [exact Hu|].
    apply filter_In; split; [exact Hr|apply Z.eqb_eq; exact Hb].
Qed.

Lemma add_signup_listed (bid uid now : Z) (db : DB) :
  In uid (list_signups bid (add_signup bid uid now db)).
Proof.
  apply listed_iff; unfold add_signup; simpl.
  destruct (existsb (signup_key bid uid) (signups db)) eqn:E; [exact E|].
  rewrite existsb_app; simpl; unfold signup_key; simpl.
  rewrite !Z.eqb_refl; apply orb_true_r.
Qed.

Lemma remove_signup_unlisted (bid uid : Z) (db : DB) :
  ~ In uid (list_signups bid (remove_signup bid uid db)).
Proof.
  rewrite listed_iff; unfold remove_signup; simpl; intros H.
  apply existsb_exists in H; destruct H as (r & Hr & Hk).
  apply filter_In in Hr; destruct Hr as (_ & Hn).
  rewrite Hk in Hn; discriminate.
Qed.





(** ** Writing the teams *)

Lemma upsert_team_fresh (id u tn : Z) (rows : list TeamRow) :
  existsb (team_key id u) rows = false ->
  upsert_team id u tn rows = rows ++ [mkTeam id tn u].
Proof.
  induction rows as [|r rows IH]; simpl; [reflexivity|].
  intros H; apply orb_false_iff in H; destruct H as (-> & H).
  rewrite (IH H); reflexivity.
Qed.

Lemma set_team_loop (id : Z) (f : Z -> Z) (l : list (Z * Z)) :
  forall w,
    for_each (fun r => exec (SetTeam id (snd r) (f (fst r)))) l w
    = Done tt
        (mkWorld
           (fold_left (fun db r => set_team id (snd r) (f (fst r)) db) l (w_db w))
           (w_journal w ++ map (fun r => Sql (SetTeam id (snd r) (f (fst r)))) l)).
Proof.
  induction l as [|r l IH]; intros w; simpl.
  - rewrite app_nil_r; destruct w; reflexivity.
  - rewrite bind_exec, IH; simpl; rewrite <- app_assoc; reflexivity.
Qed.

Lemma set_team_fold (id : Z) (f : Z -> Z) (l : list (Z * Z)) :
  forall db,
    NoDup (map snd l) ->
    (forall r, In r l -> existsb (team_key id (snd r)) (teams db) = false) ->
    fold_left (fun db r => set_team id (snd r) (f (fst r)) db) l db
    = update_teams
        (fun rows => rows ++ map (fun r => mkTeam id (f (fst r)) (snd r)) l) db.
Proof.
  induction l as [|r l IH]; intros db ND Hfresh; simpl.
  - unfold update_teams; rewrite app_nil_r; destruct db; reflexivity.
  - inversion ND as [|? ? Hn ND']; subst.
    rewrite IH; [| exact ND' |].
    + unfold set_team, update_teams; simpl.
      rewrite (upsert_team_fresh _ _ _ _ (Hfresh r (or_introl eq_refl))).
      rewrite <- app_assoc; reflexivity.
    + intros r' Hr'; unfold set_team; simpl.
      rewrite (upsert_team_fresh _ _ _ _ (Hfresh r (or_introl eq_refl))).
      rewrite existsb_app, (Hfresh r' (or_intror Hr')); simpl.
      unfold team_key; simpl; rewrite Z.eqb_refl; simpl.
      rewrite orb_false_r; apply Z.eqb_neq; intros E.
      apply Hn; rewrite E; apply in_map; exact Hr'.
Qed.

Lemma enumerate_snd {A} (l : list A) : forall s, map snd (enumerate s l) = l.
Proof. induction l as [|x l IH]; intros s; simpl; [|rewrite IH]; reflexivity. Qed.

Lemma enumerate_length {A} (l : list A) :
  forall s, List.length (enumerate s l) = List.length l.
Proof. induction l as [|x l IH]; intros s; simpl; [|rewrite IH]; reflexivity. Qed.

Lemma enumerate_shift {A} (l : list A) :
  forall s, enumerate (s + 1) l = map (fun r => (fst r + 1, snd r)) (enumerate s l).
Proof. induction l as [|x l IH]; intros s; simpl; [|rewrite IH]; reflexivity. Qed.

Lemma enumerate_fst {A} (l : list A) :
  forall s k, In k (map fst (enumerate s l)) <-> s <= k < s + Z.of_nat (List.length l).
Proof.
  induction l as [|x l IH]; intros s k; simpl; [lia|].
  rewrite IH; lia.
Qed.

Lemma for_each_map {A B} (g : A -> B) (f : B -> M unit) (l : list A) (w : World) :
  for_each f (map g l) w = for_each (fun x => f (g x)) l w.
Proof.
  revert w; induction l as [|x l IH]; intros w; simpl; [reflexivity|].
  unfold bind; destruct (f (g x) w); [apply IH|reflexivity].
Qed.

(** The counter of the chunked loop is the quotient of the index. *)
Lemma next_team (ts i : Z) :
  0 < ts -> 0 <= i ->
  (if (i + 1) mod ts =? 0 then i / ts + 1 + 1 else i / ts + 1) = (i + 1) / ts + 1.
Proof.
  intros Hts Hi.
  pose proof (Z.div_mod i ts ltac:(lia)) as E.
  pose proof (Z.mod_pos_bound i ts Hts) as B.
  destruct (Z.eq_dec (i mod ts + 1) ts) as [Hfull|Hpart].
  - assert (Hm : (i + 1) mod ts = 0)
      by (symmetry; apply (Z.mod_unique (i + 1) ts (i / ts + 1) 0); lia).
    assert (Hd : (i + 1) / ts = i / ts + 1)
      by (symmetry; apply (Z.div_unique (i + 1) ts (i / ts + 1) 0); lia).
    rewrite Hm, Hd; reflexivity.
  - assert (Hm : (i + 1) mod ts = i mod ts + 1)
      by (symmetry; apply (Z.mod_unique (i + 1) ts (i / ts) (i mod ts + 1)); lia).
    assert (Hd : (i + 1) / ts = i / ts)
      by (symmetry; apply (Z.div_unique (i + 1) ts (i / ts) (i mod ts + 1)); lia).
    rewrite Hm, Hd.
    destruct (i mod ts + 1 =? 0) eqn:Z0; [apply Z.eqb_eq in Z0; lia|reflexivity].
Qed.

Lemma assign_chunks_loop (id ts : Z) (l : list Z) :
  0 < ts ->
  forall i w,
    0 <= i ->
    assign_chunks id ts (i / ts + 1) (enumerate i l) w
    = for_each (fun r => exec (SetTeam id (snd r) (fst r / ts + 1))) (enumerate i l) w.
Proof.
  intros Hts; induction l as [|u l IH]; intros i w Hi; simpl; [reflexivity|].
  rewrite !bind_exec, (next_team ts i Hts Hi).
  apply IH; lia.
Qed.
Lemma bind_shuffled {A} (env : Env) (l : list Z) (f : list Z -> M A) (w : World) :
  bind (shuffled env l) f w = f (random_shuffle env (w_journal w) l) w.
Proof. reflexivity. Qed.

Lemma cleared_fresh (id u : Z) (rows : list TeamRow) :
  existsb (team_key id u) (filter (fun r => negb (t_bingo_id r =? id)) rows) = false.
Proof.
  induction rows as [|r rows IH]; simpl; [reflexivity|].
  destruct (t_bingo_id r =? id) eqn:E; simpl; [exact IH|].
  unfold team_key at 1; rewrite E; simpl; exact IH.
Qed.

(** [create_teams] replaces the team rows of the event by one row per
    participant, in shuffle order, numbered by [team_of_index]. *)
Lemma create_teams_result (env : Env) (b : BingoRow) (w : World) :
  let S := random_shuffle env (w_journal w) (list_signups (b_id b) (w_db w)) in
  NoDup S ->
  exists j,
    create_teams env b w
    = Done tt
        (mkWorld
           (update_teams
              (fun rows =>
                 filter (fun r => negb (t_bingo_id r =? b_id b)) rows
                 ++ map (fun r => mkTeam (b_id b)
                                         (team_of_index (b_team_size b) (fst r))
                                         (snd r))
                        (enumerate 0 S))
              (w_db w))
           j).
Proof.
  intros S ND; unfold create_teams.
  rewrite bind_query, bind_shuffled; fold S; cbv zeta; rewrite bind_exec.
  set (w1 := mkWorld _ _).
  assert (Hloop : forall f,
             (forall k, f k = team_of_index (b_team_size b) k) ->
             exists j,
               for_each (fun r => exec (SetTeam (b_id b) (snd r) (f (fst r))))
                        (enumerate 0 S) w1
               = Done tt
                   (mkWorld
                      (update_teams
                         (fun rows =>
                            filter (fun r => negb (t_bingo_id r =? b_id b)) rows
                            ++ map (fun r => mkTeam (b_id b)
                                               (team_of_index (b_team_size b) (fst r))
                                               (snd r))
                                   (enumerate 0 S))
                         (w_db w))
                      j)).
  { intros f Hf; rewrite set_team_loop, set_team_fold.
    - eexists; f_equal; f_equal.
      unfold w1, update_teams; simpl; f_equal; f_equal.
      apply map_ext; intros r; rewrite Hf; reflexivity.
    - rewrite enumerate_snd; exact ND.
    - intros r _; apply cleared_fresh. }
  destruct (b_team_size b <=? 0) eqn:E0.
  - destruct (Hloop (fun _ => 1)) as (j & Hj);
      [intros k; unfold team_of_index; rewrite E0; reflexivity|].
    exists j; rewrite <- Hj.
    rewrite <- (for_each_map snd (fun uid => exec (SetTeam (b_id b) uid 1))),
      enumerate_snd; reflexivity.
  - destruct (b_team_size b =? 1) eqn:E1.
    + destruct (Hloop (fun k => k + 1)) as (j & Hj);
        [intros k; unfold team_of_index; rewrite E0, E1; reflexivity|].
      exists j; rewrite <- Hj.
      change 1 with (0 + 1) at 1; rewrite enumerate_shift, for_each_map.
      reflexivity.
    + destruct (Hloop (fun k => k / b_team_size b + 1)) as (j & Hj);
        [intros k; unfold team_of_index; rewrite E0, E1; reflexivity|].
      exists j; rewrite <- Hj.
      apply Z.leb_gt in E0.
      change 1 with (0 / b_team_size b + 1) at 1.
      apply assign_chunks_loop; lia.
Qed.

Lemma list_signups_nodup (id : Z) (db : DB) :
  signups_pk db -> NoDup (list_signups id db).
Proof.
  unfold signups_pk, list_signups.
  induction (signups db) as [|r l IH]; simpl; intros H; [constructor|].
  inversion H as [|? ? Hn Hd]; subst.
  destruct (su_bingo_id r =? id) eqn:E; simpl; [constructor|]; auto.
  intros Hin; apply Hn.
  apply in_map_iff in Hin; destruct Hin as (r' & Hu & Hr').
  apply filter_In in Hr'; destruct Hr' as (Hr' & Hb).
  apply in_map_iff; exists r'; split; [|exact Hr'].
  apply Z.eqb_eq in E, Hb; congruence.
Qed.

Lemma bingo_only_frame (d : Journal) (db : DB) :
  Forall bingo_only_action d ->
  signups (replay d db) = signups db /\ teams (replay d db) = teams db.
Proof.
  revert db; induction d as [|a d IH]; intros db F; simpl; [auto|].
  inversion F; subst.
  destruct a; try (apply IH; assumption).
  destruct st; simpl in *; try contradiction.
  - apply (IH (set_status bingo_id status db)); assumption.
  - apply (IH (set_leaderboard_message_id bingo_id message_id db)); assumption.
Qed.

Lemma after_teams_emits (env : Env) (g : Z) (gs : GuildSettings) (b : BingoRow)
      (now : Z) :
  emits bingo_only_action
        ((announce_teams env g gs b ;;
          (if String.eqb (b_show_board_when b) "signups_close"
           then try_send_board env g gs b else ret tt) ;;
          update_leaderboard env g gs b) ;;
         (if in_strs (b_status b) ["signup_open"; "signup_closed"]
             && (b_start_utc b <=? now)
          then start_bingo env g gs b else ret tt)).
Proof.
  unfold start_bingo, announce_teams, try_send_board, update_leaderboard.
  emits_solve.
Qed.

(** The scan of an event due for closing: the teams of the final database
    are those [create_teams] wrote. *)
Lemma close_writes_teams (env : Env) (b : BingoRow) (w : World) :
  close_due env w b ->
  NoDup (shuffled_signups env b w) ->
  teams (w_db (final (handle_bingo_state env b w)))
  = filter (fun r => negb (t_bingo_id r =? b_id b)) (teams (w_db w))
    ++ map (fun r => mkTeam (b_id b) (team_of_index (b_team_size b) (fst r)) (snd r))
           (enumerate 0 (shuffled_signups env b w)).
Proof.
  intros (Hk & Hgs & Hs & Hc) ND.
  unfold handle_bingo_state; rewrite Hk; unfold negb; rewrite bind_query.
  destruct (get_guild_settings (b_guild_id b) (w_db w)) as [gs|]; [|congruence].
  rewrite bind_utc_now; cbv zeta.
  rewrite Hs, String.eqb_refl.
  apply Z.leb_le in Hc; rewrite Hc; cbn [andb].
  unfold close_signups; rewrite !bind_bind, bind_exec, bind_bind.
  change (mkWorld (run_stmt (SetStatus (b_id b) "signup_closed") (w_db w))
                  (w_journal w ++ [Sql (SetStatus (b_id b) "signup_closed")]))
    with (closing_world b w).
  destruct (create_teams_result env b (closing_world b w) ND) as (j & E).
  unfold bind at 1; rewrite E.
  pose proof (after_teams_emits env (b_guild_id b) gs b (clock env (w_journal w)))
    as H.
  rewrite Hs in H.
  match goal with
  | |- context [final (?m ?w1)] =>
      destruct (emits_final bingo_only_action m w1 H) as (d & Ed & F)
  end.
  rewrite Ed; cbn [w_db].
  match goal with
  | |- teams (replay d ?x) = _ => destruct (bingo_only_frame d x F) as (_ & ->)
  end.
  reflexivity.
Qed.

(** ** Arithmetic of the chunks *)

Lemma quotient_range (ts k q : Z) :
  0 < ts -> (k / ts = q <-> q * ts <= k < (q + 1) * ts).
Proof.
  intros Hts.
  pose proof (Z.div_mod k ts ltac:(lia)) as E.
  pose proof (Z.mod_pos_bound k ts Hts) as B.
  split.
  - intros <-; nia.
  - intros H; symmetry; apply (Z.div_unique k ts q (k - q * ts)); lia.
Qed.

Lemma ceil_div_pred (n ts : Z) : 0 < ts -> ceil_div n ts = (n - 1) / ts + 1.
Proof.
  intros Hts; unfold ceil_div.
  replace (n + ts - 1) with (n - 1 + 1 * ts) by lia.
  apply Z.div_add; lia.
Qed.

(** The team numbers handed out to [n] participants are exactly
    [1 .. ceil (n / ts)]. *)
Lemma chunk_numbers (ts n t : Z) :
  0 < ts ->
  (exists k, 0 <= k < n /\ t = k / ts + 1) <-> 1 <= t <= ceil_div n ts.
Proof.
  intros Hts; rewrite (ceil_div_pred n ts Hts).
  pose proof (proj1 (quotient_range ts (n - 1) _ Hts) eq_refl) as Bn.
  split.
  - intros (k & Hk & ->).
    pose proof (proj1 (quotient_range ts k _ Hts) eq_refl) as Bk.
    assert (0 <= k / ts) by (apply Z.div_pos; lia).
    assert (k / ts <= (n - 1) / ts) by (apply Z.div_le_mono; lia).
    lia.
  - intros Ht; exists ((t - 1) * ts); split; [nia|].
    rewrite Z.div_mul by lia; lia.
Qed.

Lemma count_range {A} (a b : Z) (l : list A) :
  forall s,
    Z.of_nat (List.length (filter (fun r => (a <=? fst r) && (fst r <? b))
                                  (enumerate s l)))
    = Z.max 0 (Z.min b (s + Z.of_nat (List.length l)) - Z.max a s).
Proof.
  induction l as [|x l IH]; intros s; simpl enumerate; simpl filter.
  - simpl; lia.
  - destruct (a <=? s) eqn:Ea; destruct (s <? b) eqn:Eb; simpl andb; cbv iota;
      simpl List.length; rewrite ?Nat2Z.inj_succ, ?IH;
      rewrite ?Z.leb_le, ?Z.leb_gt, ?Z.ltb_lt, ?Z.ltb_ge in *; lia.
Qed.

Lemma chunk_size {A} (ts t : Z) (l : list A) :
  0 < ts ->
  Z.of_nat (List.length (filter (fun r => fst r / ts + 1 =? t) (enumerate 0 l)))
  = Z.max 0 (Z.min (t * ts) (Z.of_nat (List.length l)) - Z.max ((t - 1) * ts) 0).
Proof.
  intros Hts.
  pose proof (count_range ((t - 1) * ts) (t * ts) l 0) as C.
  rewrite Z.add_0_l in C; rewrite <- C; clear C.
  do 2 f_equal; apply filter_ext; intros r.
  pose proof (quotient_range ts (fst r) (t - 1) Hts) as Q.
  replace (t - 1 + 1) with t in Q by lia.
  destruct (fst r / ts + 1 =? t) eqn:E1;
    destruct ((t - 1) * ts <=? fst r) eqn:E2;
    destruct (fst r <? t * ts) eqn:E3; simpl; try reflexivity;
    rewrite ?Z.eqb_eq, ?Z.eqb_neq, ?Z.leb_le, ?Z.leb_gt, ?Z.ltb_lt, ?Z.ltb_ge in *;
    lia.
Qed.

Lemma filter_map_length {A B} (p : B -> bool) (f : A -> B) (l : list A) :
  List.length (filter p (map f l)) = List.length (filter (fun x => p (f x)) l).
Proof.
  induction l as [|x l IH]; simpl; [reflexivity|].
  destruct (p (f x)); simpl; rewrite IH; reflexivity.
Qed.

Lemma find_indexed (F : Z * Z -> TeamRow) (l : list Z) :
  (forall r, t_user_id (F r) = snd r) ->
  NoDup l ->
  forall s i,
    (i < List.length l)%nat ->
    find (fun r => t_user_id r =? nth i l 0) (map F (enumerate s l))
    = Some (F (s + Z.of_nat i, nth i l 0)).
Proof.
  intros HF ND; induction ND as [|u l Hn ND IH]; intros s i Hi; simpl in *; [lia|].
  rewrite HF; simpl.
  destruct i as [|i].
  - rewrite Z.eqb_refl, Z.add_0_r; reflexivity.
  - destruct (u =? nth i l 0) eqn:E.
    + apply Z.eqb_eq in E; exfalso; apply Hn; rewrite E; apply nth_In; lia.
    + rewrite IH by lia; do 3 f_equal; lia.
Qed.


(** ** The teams after the close *)

Lemma team_rows_fresh (id : Z) (others new : list TeamRow) :
  Forall (fun r => t_bingo_id r = id) new ->
  filter (fun r => t_bingo_id r =? id)
         (filter (fun r => negb (t_bingo_id r =? id)) others ++ new)
  = new.
Proof.
  intros F; rewrite filter_app.
  replace (filter (fun r => t_bingo_id r =? id)
                  (filter (fun r => negb (t_bingo_id r =? id)) others))
    with (@nil TeamRow).
  - simpl; induction F as [|r new Hr F IH]; simpl; [reflexivity|].
    rewrite Hr, Z.eqb_refl, IH; reflexivity.
  - induction others as [|r others IH]; simpl; [reflexivity|].
    destruct (t_bingo_id r =? id) eqn:E; simpl; [exact IH|].
    rewrite E; exact IH.
Qed.

Lemma get_team_rows (id u : Z) (db : DB) :
  get_team id u db
  = option_map t_team_number
               (find (fun r => t_user_id r =? u) (team_rows id db)).
Proof.
  unfold get_team, team_rows; f_equal.
  induction (teams db) as [|r l IH]; simpl; [reflexivity|].
  unfold team_key at 1.
  destruct (t_bingo_id r =? id); simpl; [|exact IH].
  destruct (t_user_id r =? u); [reflexivity|exact IH].
Qed.

(** What the close transition leaves in the teams table for its event. *)
Lemma close_team_rows (env : Env) (b : BingoRow) (w : World) :
  close_due env w b ->
  fair_shuffle env ->
  signups_pk (w_db w) ->
  let S := shuffled_signups env b w in
  let db' := w_db (final (handle_bingo_state env b w)) in
  Permutation (list_signups (b_id b) (w_db w)) S
  /\ NoDup S
  /\ team_rows (b_id b) db'
     = map (fun r => mkTeam (b_id b) (team_of_index (b_team_size b) (fst r)) (snd r))
           (enumerate 0 S)
  /\ map t_user_id (team_rows (b_id b) db') = S
  /\ (forall i, (i < List.length S)%nat ->
                get_team (b_id b) (nth i S 0) db'
                = Some (team_of_index (b_team_size b) (Z.of_nat i))).
Proof.
  intros Hdue Hfair Hpk S db'.
  assert (HP : Permutation (list_signups (b_id b) (w_db w)) S) by apply Hfair.
  assert (ND : NoDup S)
    by (eapply Permutation_NoDup; [exact HP|apply list_signups_nodup; exact Hpk]).
  assert (Hrows : team_rows (b_id b) db'
                  = map (fun r => mkTeam (b_id b)
                                         (team_of_index (b_team_size b) (fst r))
                                         (snd r))
                        (enumerate 0 S)).
  { unfold team_rows, db'; rewrite (close_writes_teams env b w Hdue ND).
    apply team_rows_fresh, Forall_forall; intros r Hr.
    apply in_map_iff in Hr; destruct Hr as (x & <- & _); reflexivity. }
  split; [exact HP|]; split; [exact ND|]; split; [exact Hrows|]; split.
  - rewrite Hrows, map_map; simpl; apply enumerate_snd.
  - intros i Hi; rewrite get_team_rows, Hrows.
    rewrite (find_indexed
               (fun r => mkTeam (b_id b) (team_of_index (b_team_size b) (fst r))
                                (snd r))
               S (fun _ => eq_refl) ND 0 i Hi); reflexivity.
Qed.

(** C4: chunks of [team_size].  When the scan closes the signups of an
    event whose team size is at least 2, with [N] participants in shuffled
    order [S]: the participant at 0-based position [i] is in team
    [i / team_size + 1]; the users of the team rows are the participants,
    each once; the team numbers in use are exactly [1 .. ceil (N / team_size)];
    every team before the last has [team_size] members and the last one has
    the remaining [N - (ceil (N / team_size) - 1) * team_size], between 1 and
    [team_size]. *)
Theorem fixed_size_teams (env : Env) (b : BingoRow) (w : World) :
  close_due env w b ->
  fair_shuffle env ->
  signups_pk (w_db w) ->
  2 <= b_team_size b ->
  let ts := b_team_size b in
  let S := shuffled_signups env b w in
  let N := Z.of_nat (List.length S) in
  let T := ceil_div N ts in
  let db' := w_db (final (handle_bingo_state env b w)) in
  let size t := Z.of_nat (List.length (team_members (b_id b) t db')) in
  N = Z.of_nat (List.length (list_signups (b_id b) (w_db w)))
  /\ (forall i, (i < List.length S)%nat ->
                get_team (b_id b) (nth i S 0) db' = Some (Z.of_nat i / ts + 1))
  /\ Permutation (map t_user_id (team_rows (b_id b) db'))
                 (list_signups (b_id b) (w_db w))
  /\ NoDup (map t_user_id (team_rows (b_id b) db'))
  /\ (forall t, In t (map t_team_number (team_rows (b_id b) db')) <-> 1 <= t <= T)
  /\ (forall t, 1 <= t < T -> size t = ts)
  /\ (0 < N -> size T = N - (T - 1) * ts /\ 1 <= size T <= ts).
Proof.
  intros Hdue Hfair Hpk Hts ts S N T db' size.
  change (2 <= ts) in Hts.
  destruct (close_team_rows env b w Hdue Hfair Hpk)
    as (HP & ND & Hrows & Husers & Hget).
  fold S in HP, ND, Hrows, Husers, Hget; fold db' in Hrows, Husers, Hget.
  assert (Hidx : forall k, team_of_index ts k = k / ts + 1).
  { intros k; unfold team_of_index.
    destruct (ts <=? 0) eqn:E0; [apply Z.leb_le in E0; lia|].
    destruct (ts =? 1) eqn:E1; [apply Z.eqb_eq in E1; lia|].
    reflexivity. }
  assert (Hsize : forall t,
             size t = Z.max 0 (Z.min (t * ts) N - Z.max ((t - 1) * ts) 0)).
  { intros t; unfold size, team_members; rewrite length_map, Hrows.
    rewrite filter_map_length; simpl.
    unfold N; rewrite <- (chunk_size ts t S) by (lia).
    do 2 f_equal; apply filter_ext; intros r; fold ts; rewrite Hidx; reflexivity. }
  assert (HT : T = (N - 1) / ts + 1) by (apply ceil_div_pred; lia).
  pose proof (proj1 (quotient_range ts (N - 1) _ ltac:(lia)) eq_refl)
    as Bn.
  split; [unfold N; rewrite (Permutation_length HP); reflexivity|].
  split; [intros i Hi; rewrite (Hget i Hi); f_equal; apply Hidx|].
  split; [rewrite Husers; symmetry; exact HP|].
  split; [rewrite Husers; exact ND|].
  split; [|split].
  - intros t; unfold T; rewrite <- (chunk_numbers ts N t) by (lia).
    rewrite Hrows, map_map; simpl; split.
    + intros Hin; apply in_map_iff in Hin; destruct Hin as (r & <- & Hr).
      exists (fst r); split; [|apply Hidx].
      apply (in_map fst) in Hr; apply enumerate_fst in Hr; unfold N; lia.
    + intros (k & Hk & ->).
      assert (Hin : In k (map fst (enumerate 0 S)))
        by (apply enumerate_fst; unfold N in Hk; lia).
      apply in_map_iff in Hin; destruct Hin as (r & <- & Hr).
      apply in_map_iff; exists r; split; [apply Hidx|exact Hr].
  - intros t Ht; rewrite Hsize.
    assert (t * ts <= (N - 1) / ts * ts)
      by (apply Z.mul_le_mono_nonneg_r; lia).
    assert (0 <= (t - 1) * ts) by (apply Z.mul_nonneg_nonneg; lia).
    lia.
  - intros HN; rewrite !Hsize, HT.
    assert (0 <= (N - 1) / ts) by (apply Z.div_pos; lia).
    assert (0 <= (N - 1) / ts * ts) by (apply Z.mul_nonneg_nonneg; lia).
    lia.
Qed.

Ltac distinct_rows :=
  repeat constructor; simpl;
  intros H; repeat (destruct H as [H|H]; [discriminate H|]); exact H.

Lemma demo_close_due : close_due demo_env demo_world demo_bingo.
Proof. repeat split; [discriminate|discriminate]. Qed.

Lemma demo_fair : fair_shuffle demo_env.
Proof. intros j l; simpl; apply Permutation_rev. Qed.

Lemma demo_signups_pk : signups_pk demo_db.
Proof. unfold signups_pk; simpl; distinct_rows. Qed.

Lemma fixed_size_teams_witness :
  let db' := w_db (final (handle_bingo_state demo_env demo_bingo demo_world)) in
  close_due demo_env demo_world demo_bingo
  /\ fair_shuffle demo_env
  /\ signups_pk (w_db demo_world)
  /\ 2 <= b_team_size demo_bingo
  /\ Z.of_nat (List.length (team_members 1 3 db')) = 5 - (3 - 1) * 2.
Proof.
  intros db'.
  split; [exact demo_close_due|]; split; [exact demo_fair|].
  split; [exact demo_signups_pk|]; split; [discriminate|].
  destruct (fixed_size_teams demo_env demo_bingo demo_world demo_close_due
                             demo_fair demo_signups_pk ltac:(discriminate))
    as (_ & _ & _ & _ & _ & _ & H).
  exact (proj1 (H eq_refl)).
Defined.

(** The scenario of the specification, with the shuffle of the demo guild
    (which reverses the list): five participants, team size 2, and the team
    each of them is read back with. *)
Example five_in_pairs :
  map (fun u => get_team 1 u (w_db (final (handle_bingo_state demo_env demo_bingo
                                                              demo_world))))
      [25; 24; 23; 22; 21]
  = [Some 1; Some 1; Some 2; Some 2; Some 3].
Proof. vm_compute; reflexivity. Qed.

Lemma enumerate_numbers {A} (l : list A) :
  forall s, map fst (enumerate (Z.of_nat s) l) = map Z.of_nat (seq s (List.length l)).
Proof.
  induction l as [|x l IH]; intros s; simpl; [reflexivity|].
  rewrite <- IH, Nat2Z.inj_succ, Z.add_1_r; reflexivity.
Qed.

(** C5: one team, or solo teams.  When the scan closes the signups of an
    event, the users of its team rows are the participants in shuffled
    order.  With team size 0 every row carries team number 1, so every
    participant is in team 1.  With team size 1 the rows carry the numbers
    [1 .. N] in that order, the participant at position [i] is alone in
    team [i + 1], and each of the [N] teams has one member. *)
Theorem whole_and_solo_teams (env : Env) (b : BingoRow) (w : World) :
  close_due env w b ->
  fair_shuffle env ->
  signups_pk (w_db w) ->
  let S := shuffled_signups env b w in
  let N := List.length S in
  let db' := w_db (final (handle_bingo_state env b w)) in
  let rows := team_rows (b_id b) db' in
  Permutation (list_signups (b_id b) (w_db w)) S
  /\ map t_user_id rows = S
  /\ (b_team_size b = 0 ->
      (forall r, In r rows -> t_team_number r = 1)
      /\ (forall u, In u (list_signups (b_id b) (w_db w)) ->
                    get_team (b_id b) u db' = Some 1))
  /\ (b_team_size b = 1 ->
      map t_team_number rows = map Z.of_nat (seq 1 N)
      /\ (forall i, (i < N)%nat ->
                    get_team (b_id b) (nth i S 0) db' = Some (Z.of_nat i + 1))
      /\ (forall t, 1 <= t <= Z.of_nat N ->
                    List.length (team_members (b_id b) t db') = 1%nat)).
Proof.
  intros Hdue Hfair Hpk S N db' rows.
  destruct (close_team_rows env b w Hdue Hfair Hpk)
    as (HP & ND & Hrows & Husers & Hget).
  fold S in HP, ND, Hrows, Husers, Hget; fold db' in Hrows, Husers, Hget.
  fold rows in Hrows, Husers.
  split; [exact HP|]; split; [exact Husers|]; split; intros Hts;
    rewrite Hts in *; unfold team_of_index in *; simpl in Hrows, Hget.
  - split.
    + intros r Hr; rewrite Hrows in Hr.
      apply in_map_iff in Hr; destruct Hr as (x & <- & _); reflexivity.
    + intros u Hu; apply (Permutation_in _ HP) in Hu.
      destruct (In_nth S u 0 Hu) as (i & Hi & <-); apply Hget; exact Hi.
  - split; [|split].
    + rewrite Hrows, map_map; simpl.
      pose proof (enumerate_numbers S 0) as En; change (Z.of_nat 0) with 0 in En.
      rewrite <- (map_map fst (fun k => k + 1)), En, map_map.
      unfold N; rewrite <- seq_shift, map_map.
      apply map_ext; intros k; lia.
    + exact Hget.
    + intros t Ht; unfold team_members; rewrite length_map; fold rows.
      rewrite Hrows, filter_map_length; simpl.
      apply Nat2Z.inj.
      rewrite <- (filter_ext (fun r => fst r / 1 + 1 =? t))
        by (intros r; rewrite Z.div_1_r; reflexivity).
      rewrite (chunk_size 1 t S) by lia; unfold N in Ht; lia.
Qed.

Lemma whole_and_solo_teams_witness :
  let b := mkBingo 1 1 "demo" "Custom" 1 "random" None 2000 None 500
                   "signups_close" "admin" 2 "signup_open" (Some 50) None
                   (Some "board.png") 7 0 in
  let db' := w_db (final (handle_bingo_state demo_env b demo_world)) in
  close_due demo_env demo_world b
  /\ fair_shuffle demo_env
  /\ signups_pk (w_db demo_world)
  /\ map t_team_number (team_rows 1 db') = [1; 2; 3; 4; 5]
  /\ map t_user_id (team_rows 1 db') = [25; 24; 23; 22; 21].
Proof.
  intros b db'.
  assert (Hdue : close_due demo_env demo_world b)
    by (repeat split; [discriminate|discriminate]).
  split; [exact Hdue|]; split; [exact demo_fair|]; split; [exact demo_signups_pk|].
  destruct (whole_and_solo_teams demo_env b demo_world Hdue demo_fair
                                 demo_signups_pk)
    as (_ & Hu & _ & H1).
  split; [exact (proj1 (H1 eq_refl))|exact Hu].
Defined.

(** ** The leaderboard *)

Section SortFacts.
Context {A : Type} (leb : A -> A -> bool).
Hypothesis leb_total : forall x y, leb x y = true \/ leb y x = true.
Hypothesis leb_trans : forall x y z, leb x y = true -> leb y z = true -> leb x z = true.

Lemma insert_sorted_hd (a x : A) (l : list A) :
  leb a x = true ->
  HdRel (fun u v => leb u v = true) a l ->
  HdRel (fun u v => leb u v = true) a (insert_sorted leb x l).
Proof.
  intros Hax H; destruct l as [|y l]; simpl; [constructor; exact Hax|].
  inversion H; subst.
  destruct (leb x y); constructor; assumption.
Qed.

Lemma insert_sorted_sorted (x : A) (l : list A) :
  Sorted (fun u v => leb u v = true) l ->
  Sorted (fun u v => leb u v = true) (insert_sorted leb x l).
Proof.
  induction 1 as [|y l Hs IH Hd]; simpl; [repeat constructor|].
  destruct (leb x y) eqn:E.
  - constructor; [constructor; assumption|constructor; exact E].
  - constructor; [exact IH|].
    apply insert_sorted_hd; [|exact Hd].
    destruct (leb_total x y) as [H|H]; [congruence|exact H].
Qed.

Lemma isort_sorted (l : list A) :
  StronglySorted (fun u v => leb u v = true) (isort leb l).
Proof.
  apply Sorted_StronglySorted; [intros x y z; apply leb_trans|].
  induction l as [|x l IH]; simpl; [constructor|].
  apply insert_sorted_sorted; exact IH.
Qed.
End SortFacts.














Example demo_leaderboard :
  leaderboard_counts 1 scored_db = [(2, 2); (1, 1); (3, 1)].
Proof. vm_compute; reflexivity. Qed.

(** * Further properties of the store *)

(** ** Guild settings *)

Lemma upsert_settings_find (gs : GuildSettings) (rows : list GuildSettings) :
  find (fun r => gs_guild_id r =? gs_guild_id gs) (upsert_settings gs rows) = Some gs.
Proof.
  induction rows as [|r rows IH]; simpl; [rewrite Z.eqb_refl; reflexivity|].
  destruct (gs_guild_id r =? gs_guild_id gs) eqn:E; simpl.
  - rewrite Z.eqb_refl; reflexivity.
  - rewrite E; exact IH.
Qed.

Lemma upsert_settings_other (gs : GuildSettings) (rows : list GuildSettings) (g : Z) :
  g <> gs_guild_id gs ->
  find (fun r => gs_guild_id r =? g) (upsert_settings gs rows)
  = find (fun r => gs_guild_id r =? g) rows.
Proof.
  intros Hg; induction rows as [|r rows IH]; simpl.
  - destruct (gs_guild_id gs =? g) eqn:E; [apply Z.eqb_eq in E; congruence|reflexivity].
  - destruct (gs_guild_id r =? gs_guild_id gs) eqn:E; simpl.
    + apply Z.eqb_eq in E; rewrite E.
      destruct (gs_guild_id gs =? g) eqn:E'; [apply Z.eqb_eq in E'; congruence|].
      reflexivity.
    + destruct (gs_guild_id r =? g); [reflexivity|exact IH].
Qed.

Lemma upsert_settings_keys (gs : GuildSettings) (rows : list GuildSettings) (g : Z) :
  In g (map gs_guild_id (upsert_settings gs rows))
  -> g = gs_guild_id gs \/ In g (map gs_guild_id rows).
Proof.
  induction rows as [|r rows IH]; simpl; [intuition auto|].
  destruct (gs_guild_id r =? gs_guild_id gs) eqn:E; simpl; intuition auto.
Qed.

Lemma upsert_settings_pk (gs : GuildSettings) (rows : list GuildSettings) :
  NoDup (map gs_guild_id rows) -> NoDup (map gs_guild_id (upsert_settings gs rows)).
Proof.
  induction rows as [|r rows IH]; simpl; intros H;
    [constructor; [simpl; tauto|constructor]|].
  inversion H as [|? ? Hn Hd]; subst.
  destruct (gs_guild_id r =? gs_guild_id gs) eqn:E; simpl.
  - apply Z.eqb_eq in E; rewrite <- E; constructor; assumption.
  - constructor; [|apply IH; exact Hd].
    intros Hin; apply upsert_settings_keys in Hin.
    apply Z.eqb_neq in E; destruct Hin as [Hin|Hin]; [congruence|contradiction].
Qed.

(** X1: saving the settings of a guild and reading them back.  After
    [upsert_guild_settings gs] the settings read for the guild of [gs] are
    [gs] itself, whether the guild had a row or not; the settings read for
    any other guild are what they were; and the table still holds at most
    one row per guild. *)
Theorem guild_settings_round_trip (gs : GuildSettings) (db : DB) :
  get_guild_settings (gs_guild_id gs) (upsert_guild_settings gs db) = Some gs
  /\ (forall g, g <> gs_guild_id gs ->
                get_guild_settings g (upsert_guild_settings gs db)
                = get_guild_settings g db)
  /\ (settings_pk db -> settings_pk (upsert_guild_settings gs db)).
Proof.
  unfold get_guild_settings, settings_pk; simpl; split; [|split].
  - apply upsert_settings_find.
  - intros g Hg; apply upsert_settings_other; exact Hg.
  - apply upsert_settings_pk.
Qed.

Lemma guild_settings_round_trip_witness :
  let gs := mkGuildSettings 1 20 21 22 23 in
  2 <> gs_guild_id gs
  /\ settings_pk demo_db
  /\ get_guild_settings 1 (upsert_guild_settings gs demo_db) = Some gs
  /\ get_guild_settings 2 (upsert_guild_settings gs demo_db)
     = get_guild_settings 2 demo_db
  /\ settings_pk (upsert_guild_settings gs demo_db).
Proof.
  intros gs.
  assert (Hne : 2 <> gs_guild_id gs) by discriminate.
  assert (Hpk : settings_pk demo_db) by (constructor; [simpl; tauto|constructor]).
  destruct (guild_settings_round_trip gs demo_db) as (H1 & H2 & H3).
  split; [exact Hne|]; split; [exact Hpk|]; split; [exact H1|].
  split; [exact (H2 2 Hne)|exact (H3 Hpk)].
Defined.

(** ** Signups *)

Lemma add_signup_pk (bid uid now : Z) (db : DB) :
  signups_pk db -> signups_pk (add_signup bid uid now db).
Proof.
  unfold signups_pk, add_signup; simpl; intros H.
  destruct (existsb (signup_key bid uid) (signups db)) eqn:E; [exact H|].
  rewrite map_app; simpl.
  apply NoDup_app; [exact H|repeat constructor; simpl; tauto|].
  intros k Hk [<- | []].
  apply in_map_iff in Hk; destruct Hk as (r & Hr & Hin).
  assert (existsb (signup_key bid uid) (signups db) = true); [|congruence].
  apply existsb_exists; exists r; split; [exact Hin|].
  apply signup_key_spec; inversion Hr; auto.
Qed.

Lemma remove_signup_pk (bid uid : Z) (db : DB) :
  signups_pk db -> signups_pk (remove_signup bid uid db).
Proof. unfold signups_pk, remove_signup; simpl; apply filter_keeps_keys. Qed.

(** X2: joining is idempotent.  For a stored event, so that the foreign
    key of the table admits the insert: after [add_signup] the user is
    listed for the event; a second insert for the same event and user
    changes nothing, so the first join time is kept; nobody else's listing
    in any event is affected; and the table still holds at most one row per
    event and user. *)
Theorem signup_insert_idempotent (bid uid t1 t2 : Z) (db : DB) :
  event_stored bid db ->
  In uid (list_signups bid (add_signup bid uid t1 db))
  /\ add_signup bid uid t2 (add_signup bid uid t1 db) = add_signup bid uid t1 db
  /\ (forall bid' uid', (bid', uid') <> (bid, uid) ->
        (In uid' (list_signups bid' (add_signup bid uid t1 db))
         <-> In uid' (list_signups bid' db)))
  /\ (signups_pk db -> signups_pk (add_signup bid uid t1 db)).
Proof.
  intros _; split; [apply add_signup_listed|]; split; [|split].
  - pose proof (add_signup_listed bid uid t1 db) as H.
    apply listed_iff in H; unfold add_signup at 1, update_signups.
    rewrite H; destruct (add_signup bid uid t1 db); reflexivity.
  - intros bid' uid' Hne; rewrite !listed_iff; unfold add_signup; simpl.
    destruct (existsb (signup_key bid uid) (signups db)); [tauto|].
    rewrite existsb_app; simpl; unfold signup_key at 2; simpl.
    destruct ((bid =? bid') && (uid =? uid')) eqn:E;
      [|rewrite !orb_false_r; tauto].
    apply andb_true_iff in E; destruct E as (E1 & E2); apply Z.eqb_eq in E1, E2.
    congruence.
  - apply add_signup_pk.
Qed.

Lemma signup_insert_idempotent_witness :
  event_stored 1 demo_db
  /\ (1, 22) <> (1, 30)
  /\ signups_pk demo_db
  /\ (In 22 (list_signups 1 (add_signup 1 30 7 demo_db))
      <-> In 22 (list_signups 1 demo_db))
  /\ signups_pk (add_signup 1 30 7 demo_db).
Proof.
  assert (Hev : event_stored 1 demo_db) by (left; reflexivity).
  assert (Hne : (1, 22) <> (1, 30)) by discriminate.
  destruct (signup_insert_idempotent 1 30 7 8 demo_db Hev) as (_ & _ & H3 & H4).
  split; [exact Hev|]; split; [exact Hne|]; split; [exact demo_signups_pk|].
  split; [exact (H3 1 22 Hne)|exact (H4 demo_signups_pk)].
Defined.

Lemma filter_nothing {A} (p : A -> bool) (l : list A) :
  existsb p l = false -> filter (fun x => negb (p x)) l = l.
Proof.
  induction l as [|x l IH]; simpl; [reflexivity|].
  intros H; apply orb_false_iff in H; destruct H as (-> & H); simpl.
  rewrite (IH H); reflexivity.
Qed.

(** X3: leaving.  After [remove_signup] the user is not listed for the
    event, so a leave undoes a join; removing a user who is not signed up
    leaves the database as it was; nobody else's listing is affected; and
    the primary key of the table is kept. *)
Theorem signup_removal (bid uid now : Z) (db : DB) :
  ~ In uid (list_signups bid (remove_signup bid uid (add_signup bid uid now db)))
  /\ (~ In uid (list_signups bid db) -> remove_signup bid uid db = db)
  /\ (forall bid' uid', (bid', uid') <> (bid, uid) ->
        (In uid' (list_signups bid' (remove_signup bid uid db))
         <-> In uid' (list_signups bid' db)))
  /\ (signups_pk db -> signups_pk (remove_signup bid uid db)).
Proof.
  split; [apply remove_signup_unlisted|]; split; [|split].
  - intros Hn; rewrite listed_iff in Hn.
    unfold remove_signup, update_signups.
    rewrite filter_nothing by (destruct (existsb _ _); [exfalso; auto|reflexivity]).
    destruct db; reflexivity.
  - intros bid' uid' Hne; rewrite !listed_iff; unfold remove_signup; simpl.
    rewrite !existsb_exists; split.
    + intros (r & Hr & Hk); apply filter_In in Hr; exists r; tauto.
    + intros (r & Hr & Hk); exists r; split; [|exact Hk].
      apply filter_In; split; [exact Hr|].
      destruct (signup_key bid uid r) eqn:E; [|reflexivity].
      apply signup_key_spec in E, Hk; exfalso; apply Hne.
      destruct E, Hk; congruence.
  - apply remove_signup_pk.
Qed.

Lemma signup_removal_witness :
  ~ In 30 (list_signups 1 demo_db)
  /\ (1, 22) <> (1, 21)
  /\ signups_pk demo_db
  /\ remove_signup 1 30 demo_db = demo_db
  /\ (In 22 (list_signups 1 (remove_signup 1 21 demo_db))
      <-> In 22 (list_signups 1 demo_db))
  /\ signups_pk (remove_signup 1 21 demo_db).
Proof.
  assert (Hn : ~ In 30 (list_signups 1 demo_db)).
  { simpl; intros H; repeat (destruct H as [H|H]; [discriminate H|]); exact H. }
  assert (Hne : (1, 22) <> (1, 21)) by discriminate.
  split; [exact Hn|]; split; [exact Hne|]; split; [exact demo_signups_pk|].
  split; [exact (proj1 (proj2 (signup_removal 1 30 0 demo_db)) Hn)|].
  destruct (signup_removal 1 21 0 demo_db) as (_ & _ & H3 & H4).
  split; [exact (H3 1 22 Hne)|exact (H4 demo_signups_pk)].
Defined.

(** ** Teams *)

Lemma team_key_spec (bid uid : Z) (r : TeamRow) :
  team_key bid uid r = true <-> t_bingo_id r = bid /\ t_user_id r = uid.
Proof. unfold team_key; rewrite andb_true_iff, !Z.eqb_eq; tauto. Qed.

Lemma upsert_team_find (bid uid tn : Z) (rows : list TeamRow) :
  find (team_key bid uid) (upsert_team bid uid tn rows) = Some (mkTeam bid tn uid).
Proof.
  induction rows as [|r rows IH]; simpl.
  - unfold team_key; simpl; rewrite !Z.eqb_refl; reflexivity.
  - destruct (team_key bid uid r) eqn:E; simpl.
    + unfold team_key; simpl; rewrite !Z.eqb_refl; reflexivity.
    + rewrite E; exact IH.
Qed.

Lemma upsert_team_other (bid uid tn bid' uid' : Z) (rows : list TeamRow) :
  (bid', uid') <> (bid, uid) ->
  find (team_key bid' uid') (upsert_team bid uid tn rows)
  = find (team_key bid' uid') rows.
Proof.
  intros Hne.
  assert (Hnew : team_key bid' uid' (mkTeam bid tn uid) = false).
  { destruct (team_key bid' uid' (mkTeam bid tn uid)) eqn:E; [|reflexivity].
    apply team_key_spec in E; simpl in E; destruct E; congruence. }
  induction rows as [|r rows IH]; simpl; [rewrite Hnew; reflexivity|].
  destruct (team_key bid uid r) eqn:E; simpl.
  - rewrite Hnew.
    destruct (team_key bid' uid' r) eqn:E'; [|reflexivity].
    apply team_key_spec in E, E'; destruct E, E'; congruence.
  - destruct (team_key bid' uid' r); [reflexivity|exact IH].
Qed.

Lemma upsert_team_keys (bid uid tn : Z) (rows : list TeamRow) (k : Z * Z) :
  In k (map (fun r => (t_bingo_id r, t_user_id r)) (upsert_team bid uid tn rows))
  -> k = (bid, uid) \/ In k (map (fun r => (t_bingo_id r, t_user_id r)) rows).
Proof.
  induction rows as [|r rows IH]; simpl; [intuition auto|].
  destruct (team_key bid uid r) eqn:E; simpl; intuition auto.
Qed.

Lemma upsert_team_pk (bid uid tn : Z) (rows : list TeamRow) :
  NoDup (map (fun r => (t_bingo_id r, t_user_id r)) rows) ->
  NoDup (map (fun r => (t_bingo_id r, t_user_id r)) (upsert_team bid uid tn rows)).
Proof.
  induction rows as [|r rows IH]; simpl; intros H;
    [constructor; [simpl; tauto|constructor]|].
  inversion H as [|? ? Hn Hd]; subst.
  destruct (team_key bid uid r) eqn:E; simpl.
  - apply team_key_spec in E; destruct E as (<- & <-); constructor; assumption.
  - constructor; [|apply IH; exact Hd].
    intros Hin; apply upsert_team_keys in Hin; destruct Hin as [Hin|Hin];
      [|contradiction].
    inversion Hin; subst.
    unfold team_key in E; rewrite !Z.eqb_refl in E; discriminate.
Qed.

(** X4: assigning a team and reading it back.  For a stored event, so that
    the foreign key of the table admits the write: after [set_team] the
    team read for that event and user is the number just written, whether
    or not the user had a team before (the later write wins); the team of
    every other event-and-user pair is what it was; and the table still
    holds at most one row per event and user. *)
Theorem team_upsert_lookup (bid uid tn : Z) (db : DB) :
  event_stored bid db ->
  get_team bid uid (set_team bid uid tn db) = Some tn
  /\ (forall bid' uid', (bid', uid') <> (bid, uid) ->
        get_team bid' uid' (set_team bid uid tn db) = get_team bid' uid' db)
  /\ (teams_pk db -> teams_pk (set_team bid uid tn db)).
Proof.
  intros _; unfold get_team, set_team, teams_pk; simpl; split; [|split].
  - rewrite upsert_team_find; reflexivity.
  - intros bid' uid' Hne; rewrite upsert_team_other by exact Hne; reflexivity.
  - apply upsert_team_pk.
Qed.

Lemma team_upsert_lookup_witness :
  event_stored 1 scored_db
  /\ (1, 22) <> (1, 21)
  /\ teams_pk scored_db
  /\ get_team 1 21 (set_team 1 21 3 scored_db) = Some 3
  /\ get_team 1 22 (set_team 1 21 3 scored_db) = get_team 1 22 scored_db
  /\ teams_pk (set_team 1 21 3 scored_db).
Proof.
  assert (Hne : (1, 22) <> (1, 21)) by discriminate.
  assert (Hpk : teams_pk scored_db) by (unfold teams_pk; simpl; distinct_rows).
  assert (Hev : event_stored 1 scored_db) by (left; reflexivity).
  destruct (team_upsert_lookup 1 21 3 scored_db Hev) as (H1 & H2 & H3).
  split; [exact Hev|]; split; [exact Hne|]; split; [exact Hpk|]; split; [exact H1|].
  split; [exact (H2 1 22 Hne)|exact (H3 Hpk)].
Defined.

Lemma find_cleared (bid uid bid' : Z) (rows : list TeamRow) :
  find (team_key bid' uid) (filter (fun r => negb (t_bingo_id r =? bid)) rows)
  = if bid' =? bid then None else find (team_key bid' uid) rows.
Proof.
  induction rows as [|r rows IH]; simpl; [destruct (bid' =? bid); reflexivity|].
  destruct (t_bingo_id r =? bid) eqn:E; simpl.
  - rewrite IH; destruct (bid' =? bid) eqn:E'; [reflexivity|].
    destruct (team_key bid' uid r) eqn:K; [|reflexivity].
    apply team_key_spec in K; apply Z.eqb_eq in E; apply Z.eqb_neq in E'.
    destruct K; congruence.
  - rewrite IH; destruct (bid' =? bid) eqn:E'; [|reflexivity].
    destruct (team_key bid' uid r) eqn:K; [|reflexivity].
    apply team_key_spec in K; apply Z.eqb_eq in E'; apply Z.eqb_neq in E.
    destruct K; congruence.
Qed.

(** X5: clearing the teams of an event.  After [clear_teams] no user has a
    team in that event and its team list is empty, while the team of every
    user in every other event is what it was, and the primary key of the
    table is kept. *)
Theorem teams_cleared (bid : Z) (db : DB) :
  (forall uid, get_team bid uid (clear_teams bid db) = None)
  /\ list_teams bid (clear_teams bid db) = []
  /\ (forall bid' uid, bid' <> bid ->
        get_team bid' uid (clear_teams bid db) = get_team bid' uid db)
  /\ (teams_pk db -> teams_pk (clear_teams bid db)).
Proof.
  unfold get_team, clear_teams, teams_pk, list_teams; simpl.
  split; [|split; [|split]].
  - intros uid; rewrite find_cleared, Z.eqb_refl; reflexivity.
  - replace (filter (fun r => t_bingo_id r =? bid)
                    (filter (fun r => negb (t_bingo_id r =? bid)) (teams db)))
      with (@nil TeamRow); [reflexivity|].
    induction (teams db) as [|r l IH]; simpl; [reflexivity|].
    destruct (t_bingo_id r =? bid) eqn:E; simpl; [exact IH|rewrite E; exact IH].
  - intros bid' uid Hne; rewrite find_cleared.
    apply Z.eqb_neq in Hne; rewrite Hne; reflexivity.
  - apply filter_keeps_keys.
Qed.

Lemma teams_cleared_witness :
  let db := set_team 2 21 4 scored_db in
  2 <> 1
  /\ teams_pk db
  /\ get_team 2 21 (clear_teams 1 db) = get_team 2 21 db
  /\ teams_pk (clear_teams 1 db).
Proof.
  intros db.
  assert (Hne : 2 <> 1) by discriminate.
  assert (Hpk : teams_pk db) by (unfold teams_pk; simpl; distinct_rows).
  destruct (teams_cleared 1 db) as (_ & _ & H3 & H4).
  split; [exact Hne|]; split; [exact Hpk|].
  split; [exact (H3 2 21 Hne)|exact (H4 Hpk)].
Defined.

Lemma StronglySorted_map {A B} (f : A -> B) (R : B -> B -> Prop) (l : list A) :
  StronglySorted (fun x y => R (f x) (f y)) l -> StronglySorted R (map f l).
Proof.
  induction 1 as [|x l Hs IH Hall]; simpl; constructor; [exact IH|].
  rewrite Forall_forall in Hall |- *; intros y Hy.
  apply in_map_iff in Hy; destruct Hy as (z & <- & Hz); auto.
Qed.

Lemma StronglySorted_weaken {A} (R R' : A -> A -> Prop) (l : list A) :
  (forall x y, R x y -> R' x y) -> StronglySorted R l -> StronglySorted R' l.
Proof.
  intros H; induction 1 as [|x l Hs IH Hall]; constructor; [exact IH|].
  eapply Forall_impl; [|exact Hall]; intros y; apply H.
Qed.

(** X6: the team list of an event.  [list_teams] returns one
    (team number, user) pair per team row of the event, nothing else, in
    ascending order of team number. *)
Theorem team_list_sorted (bid : Z) (db : DB) :
  Permutation (list_teams bid db)
              (map (fun r => (t_team_number r, t_user_id r)) (team_rows bid db))
  /\ StronglySorted (fun x y => fst x <= fst y) (list_teams bid db).
Proof.
  unfold list_teams, team_rows; split.
  - apply Permutation_map, isort_perm.
  - apply StronglySorted_map; simpl.
    eapply StronglySorted_weaken;
      [|apply (isort_sorted (fun x y => t_team_number x <=? t_team_number y))].
    + intros x y H; apply Z.leb_le; exact H.
    + intros x y; destruct (Z.leb_spec (t_team_number x) (t_team_number y));
        [left; reflexivity|right; apply Z.leb_le; lia].
    + intros x y z H1 H2; apply Z.leb_le in H1, H2; apply Z.leb_le; lia.
Qed.

(** ** Submissions *)

Lemma max_bound (l : list Z) (x : Z) : In x l -> x <= fold_right Z.max 0 l.
Proof.
  induction l as [|y l IH]; simpl; [contradiction|].
  intros [-> | H]; [lia|specialize (IH H); lia].
Qed.

Lemma next_submission_id_fresh (db : DB) (s : SubmissionRow) :
  In s (submissions db) -> s_id s < next_submission_id db.
Proof.
  intros H; unfold next_submission_id.
  pose proof (max_bound (map s_id (submissions db)) (s_id s) (in_map s_id _ _ H)).
  lia.
Qed.

Lemma find_app_first {A} (p : A -> bool) (l l' : list A) :
  find p (l ++ l') = match find p l with Some x => Some x | None => find p l' end.
Proof.
  induction l as [|x l IH]; simpl; [reflexivity|].
  destruct (p x); [reflexivity|exact IH].
Qed.

(** X7: storing a submission.  For a stored event, so that the foreign key
    of the table admits the insert: [create_submission] appends one row
    with an id greater than every id in the table, so ids stay unique;
    looking the message of the new row up returns the new row unless an
    older row already carries that message id, in which case the older row
    is returned; lookups of other messages are unchanged. *)
Theorem submission_insert_lookup (bid uid : Z) (desc kind : string)
        (now mid : Z) (path status : string) (req : Z) (db : DB) :
  event_stored bid db ->
  let db' := create_submission bid uid desc kind now mid path status req db in
  let row := mkSubmission (next_submission_id db) bid uid desc kind now mid path
                          status req in
  submissions db' = submissions db ++ [row]
  /\ (forall s, In s (submissions db) -> s_id s < s_id row)
  /\ (submissions_pk db -> submissions_pk db')
  /\ get_submission_by_message mid db'
     = match get_submission_by_message mid db with
       | Some s => Some s
       | None => Some row
       end
  /\ (forall m, m <> mid ->
                get_submission_by_message m db' = get_submission_by_message m db).
Proof.
  intros _ db' row; unfold db', create_submission, get_submission_by_message; simpl.
  split; [reflexivity|]; split; [intros s; apply next_submission_id_fresh|].
  split; [|split].
  - unfold submissions_pk; simpl; intros H; rewrite map_app; simpl.
    apply NoDup_app; [exact H|repeat constructor; simpl; tauto|].
    intros k Hk [<- | []].
    apply in_map_iff in Hk; destruct Hk as (s & E & Hs).
    apply next_submission_id_fresh in Hs; lia.
  - rewrite find_app_first; simpl; rewrite Z.eqb_refl; reflexivity.
  - intros m Hm; rewrite find_app_first; simpl.
    destruct (mid =? m) eqn:E; [apply Z.eqb_eq in E; congruence|].
    destruct (find (fun s => s_message_id s =? m) (submissions db)); reflexivity.
Qed.

Lemma submission_insert_lookup_witness :
  let db' := create_submission 1 23 "pet" "progress" 20 70 "c.png" "pending" 2
                               demo_db in
  event_stored 1 demo_db
  /\ submissions_pk demo_db
  /\ 60 <> 70
  /\ submissions_pk db'
  /\ get_submission_by_message 60 db' = get_submission_by_message 60 demo_db
  /\ (In (mkSubmission 2 1 22 "whip" "full_tile" 11 61 "b.png" "approved" 2)
         (submissions demo_db) -> 2 < 3).
Proof.
  intros db'.
  assert (Hpk : submissions_pk demo_db) by (unfold submissions_pk; simpl; distinct_rows).
  assert (Hne : 60 <> 70) by discriminate.
  assert (Hev : event_stored 1 demo_db) by (left; reflexivity).
  destruct (submission_insert_lookup 1 23 "pet" "progress" 20 70 "c.png" "pending"
                                     2 demo_db Hev) as (_ & H2 & H3 & _ & H5).
  split; [exact Hev|]; split; [exact Hpk|]; split; [exact Hne|].
  split; [exact (H3 Hpk)|].
  split; [exact (H5 60 Hne)|].
  exact (H2 (mkSubmission 2 1 22 "whip" "full_tile" 11 61 "b.png" "approved" 2)).
Defined.

(** ** Events *)

Lemma latest_spec (l : list BingoRow) :
  match latest l with
  | Some b => In b l /\ forall c, In c l -> b_id c <= b_id b
  | None => l = []
  end.
Proof.
  induction l as [|x l IH]; simpl; [reflexivity|].
  destruct (latest l) as [c|].
  - destruct IH as (Hin & Hmax).
    destruct (b_id c <? b_id x) eqn:E.
    + apply Z.ltb_lt in E; split; [left; reflexivity|].
      intros d [<- | Hd]; [lia|specialize (Hmax d Hd); lia].
    + apply Z.ltb_ge in E; split; [right; exact Hin|].
      intros d [<- | Hd]; [lia|apply Hmax; exact Hd].
  - subst l; split; [left; reflexivity|].
    intros d [<- | []]; lia.
Qed.

Lemma in_strs_spec (s : string) (l : list string) :
  in_strs s l = true <-> In s l.
Proof.
  unfold in_strs; rewrite existsb_exists; split.
  - intros (x & Hx & E); apply String.eqb_eq in E; subst x; exact Hx.
  - intros H; exists s; split; [exact H|apply String.eqb_refl].
Qed.

Lemma non_terminal_spec (s : string) :
  in_strs s ["setup"; "signup_open"; "signup_closed"; "running"] = true
  <-> non_terminal s.
Proof. rewrite in_strs_spec; unfold non_terminal; simpl; intuition auto. Qed.

Lemma scanned_spec (s : string) :
  in_strs s ["signup_open"; "signup_closed"; "running"] = true <-> scanned s.
Proof. rewrite in_strs_spec; unfold scanned; simpl; intuition auto. Qed.

(** X8: the active event of a guild.  [get_active_bingo] returns a stored
    event of that guild whose status is [setup], [signup_open],
    [signup_closed] or [running], and among those the one of greatest id;
    it returns nothing exactly when the guild has no such event.  An event
    stored as [ended] is never returned. *)
Theorem active_bingo_is_latest (g : Z) (db : DB) :
  match get_active_bingo g db with
  | Some b =>
      In b (bingos db) /\ b_guild_id b = g /\ non_terminal (b_status b)
      /\ forall c, In c (bingos db) -> b_guild_id c = g ->
                   non_terminal (b_status c) -> b_id c <= b_id b
  | None =>
      forall c, In c (bingos db) -> b_guild_id c = g -> ~ non_terminal (b_status c)
  end.
Proof.
  unfold get_active_bingo.
  pose proof (latest_spec
                (filter (fun b => (b_guild_id b =? g)
                                  && in_strs (b_status b)
                                       ["setup"; "signup_open"; "signup_closed";
                                        "running"])
                        (bingos db))) as H.
  destruct (latest _) as [b|].
  - destruct H as (Hin & Hmax).
    apply filter_In in Hin; destruct Hin as (Hin & Hc).
    apply andb_true_iff in Hc; destruct Hc as (Hg & Hs).
    apply Z.eqb_eq in Hg; apply non_terminal_spec in Hs.
    repeat split; try assumption.
    intros c Hc Hgc Hsc; apply Hmax, filter_In; split; [exact Hc|].
    apply andb_true_iff; split; [apply Z.eqb_eq; exact Hgc|].
    apply non_terminal_spec; exact Hsc.
  - intros c Hc Hgc Hsc.
    assert (Hf : In c (filter (fun b => (b_guild_id b =? g)
                                        && in_strs (b_status b)
                                             ["setup"; "signup_open";
                                              "signup_closed"; "running"])
                              (bingos db))).
    { apply filter_In; split; [exact Hc|].
      apply andb_true_iff; split; [apply Z.eqb_eq; exact Hgc|].
      apply non_terminal_spec; exact Hsc. }
    rewrite H in Hf; exact Hf.
Qed.

Lemma active_bingo_is_latest_witness :
  In demo_bingo (bingos demo_db)
  /\ b_guild_id demo_bingo = 1
  /\ non_terminal (b_status demo_bingo)
  /\ b_id demo_bingo <= b_id demo_bingo.
Proof.
  pose proof (active_bingo_is_latest 1 demo_db) as H.
  change (get_active_bingo 1 demo_db) with (Some demo_bingo) in H.
  destruct H as (H1 & H2 & H3 & H4).
  split; [exact H1|]; split; [exact H2|]; split; [exact H3|].
  exact (H4 demo_bingo H1 H2 H3).
Defined.

Lemma next_bingo_id_fresh (db : DB) (b : BingoRow) :
  In b (bingos db) -> b_id b < next_bingo_id db.
Proof.
  intros H; unfold next_bingo_id.
  pose proof (max_bound (map b_id (bingos db)) (b_id b) (in_map b_id _ _ H)).
  lia.
Qed.

Lemma latest_last (l : list BingoRow) (n : BingoRow) :
  (forall c, In c l -> b_id c < b_id n) -> latest (l ++ [n]) = Some n.
Proof.
  induction l as [|x l IH]; simpl; intros H; [reflexivity|].
  rewrite IH by (intros c Hc; apply H; right; exact Hc).
  assert (b_id x < b_id n) by (apply H; left; reflexivity).
  destruct (b_id n <? b_id x) eqn:E; [apply Z.ltb_lt in E; lia|reflexivity].
Qed.

(** X9: a created event is the active one.  [create_bingo] appends one row
    with a fresh id and status [signup_open], no signup post and no
    leaderboard post; ids stay unique; and [get_active_bingo] for its guild
    returns that row afterwards, whatever events the guild had before. *)
Theorem created_bingo_is_active
        (g : Z) (name mode : string) (ts : Z) (tm : string) (role : option Z)
        (start : Z) (stop : option Z) (close : Z) (show am : string) (req by_ : Z)
        (board : option string) (now : Z) (db : DB) :
  let db' := create_bingo g name mode ts tm role start stop close show am req by_
                          board now db in
  let row := mkBingo (next_bingo_id db) g name mode ts tm role start stop close
                     show am req "signup_open" None None board by_ now in
  bingos db' = bingos db ++ [row]
  /\ (forall b, In b (bingos db) -> b_id b < b_id row)
  /\ get_active_bingo g db' = Some row
  /\ (bingos_pk db -> bingos_pk db').
Proof.
  intros db' row; unfold db', create_bingo; simpl.
  split; [reflexivity|]; split; [intros b; apply next_bingo_id_fresh|]; split.
  - unfold get_active_bingo; simpl; rewrite filter_app; simpl.
    rewrite Z.eqb_refl; simpl.
    apply latest_last; intros c Hc; apply filter_In in Hc.
    apply next_bingo_id_fresh; tauto.
  - unfold bingos_pk; simpl; intros H; rewrite map_app; simpl.
    apply NoDup_app; [exact H|repeat constructor; simpl; tauto|].
    intros k Hk [<- | []].
    apply in_map_iff in Hk; destruct Hk as (b & E & Hb).
    apply next_bingo_id_fresh in Hb; lia.
Qed.

Lemma created_bingo_is_active_witness :
  let db' := create_bingo 1 "second" "Custom" 0 "random" None 9000 None 8000
                          "bingo_start" "none" 0 7 None 1000 demo_db in
  bingos_pk demo_db
  /\ bingos_pk db'
  /\ (In demo_bingo (bingos demo_db) -> b_id demo_bingo < 2).
Proof.
  intros db'.
  assert (Hpk : bingos_pk demo_db) by (constructor; [simpl; tauto|constructor]).
  destruct (created_bingo_is_active 1 "second" "Custom" 0 "random" None 9000 None
                                    8000 "bingo_start" "none" 0 7 None 1000
                                    demo_db) as (_ & H2 & _ & H4).
  split; [exact Hpk|]; split; [exact (H4 Hpk)|exact (H2 demo_bingo)].
Defined.

(** X10: the rows a tick scans.  [get_due_actions] returns exactly the
    stored events whose status is [signup_open], [signup_closed] or
    [running] (so neither [setup] nor [ended] events), each as often as it
    is stored, in descending order of id. *)
Theorem due_actions_are_scanned (db : DB) :
  (forall b, In b (get_due_actions db) <-> In b (bingos db) /\ scanned (b_status b))
  /\ Permutation (get_due_actions db)
                 (filter (fun b => in_strs (b_status b)
                                     ["signup_open"; "signup_closed"; "running"])
                         (bingos db))
  /\ StronglySorted (fun x y => b_id y <= b_id x) (get_due_actions db).
Proof.
  unfold get_due_actions; split; [|split].
  - intros b; rewrite <- scanned_spec; split; intros H.
    + apply (Permutation_in _ (isort_perm _ _)), filter_In in H; exact H.
    + apply (Permutation_in _ (Permutation_sym (isort_perm _ _))), filter_In.
      exact H.
  - apply isort_perm.
  - eapply StronglySorted_weaken;
      [|apply (isort_sorted (fun x y => b_id y <=? b_id x))].
    + intros x y H; apply Z.leb_le; exact H.
    + intros x y; destruct (Z.leb_spec (b_id y) (b_id x));
        [left; reflexivity|right; apply Z.leb_le; lia].
    + intros x y z H1 H2; apply Z.leb_le in H1, H2; apply Z.leb_le; lia.
Qed.

(** * Further properties of the handlers *)

(** ** Leaderboard refresh and board reveal *)

Lemma replay_guild_settings (d : Journal) (db : DB) :
  guild_settings (replay d db) = guild_settings db.
Proof.
  revert db; induction d as [|a d IH]; intros db; simpl; [reflexivity|].
  destruct a; rewrite IH; try reflexivity; destruct st; reflexivity.
Qed.

(** X11: a leaderboard refresh cannot fail and touches nothing but the
    stored leaderboard post.  [update_leaderboard] always returns; when the
    announcements channel is not a text channel it does nothing at all;
    otherwise either the database is unchanged (the post was edited, or a
    platform call failed and was logged), or the event had no leaderboard
    post, the message was sent, and the id of the sent message is stored on
    the event. *)
Theorem leaderboard_refresh_never_fails (env : Env) (g : Z) (gs : GuildSettings)
        (b : BingoRow) (w : World) :
  exists w',
    update_leaderboard env g gs b w = Done tt w'
    /\ (text_channel env g (gs_announcements_channel_id gs) = false -> w' = w)
    /\ (w_db w' = w_db w
        \/ exists m,
             truthy_id (b_leaderboard_message_id b) = false
             /\ deliver env (w_journal w)
                        (Send (gs_announcements_channel_id gs)
                              (TxtLeaderboard
                                 (b_name b)
                                 (leaderboard_lines
                                    (leaderboard_counts (b_id b) (w_db w)))))
                = Some m
             /\ w_db w' = set_leaderboard_message_id (b_id b) m (w_db w)).
Proof.
  unfold update_leaderboard.
  destruct (text_channel env g (gs_announcements_channel_id gs)); unfold negb;
    [|exists w; auto].
  rewrite bind_query; cbv zeta; unfold try_except.
  destruct (truthy_id (b_leaderboard_message_id b)).
  - unfold bind, perform.
    destruct (deliver env (w_journal w) _); [|eexists; split; [reflexivity|]; split;
                                               [discriminate|left; reflexivity]].
    simpl.
    destruct (deliver env _ (EditMessage _ _ _));
      eexists; (split; [reflexivity|]; split; [discriminate|left; reflexivity]).
  - unfold bind at 1, perform.
    destruct (deliver env (w_journal w) _) as [m|] eqn:E.
    + eexists; split; [reflexivity|]; split; [discriminate|].
      right; exists m; auto.
    + eexists; split; [reflexivity|]; split; [discriminate|left; reflexivity].
Qed.

Lemma leaderboard_refresh_never_fails_witness :
  let w := run demo_env [Tick] demo_world in
  let gs := mkGuildSettings 1 10 11 12 13 in
  exists w',
    update_leaderboard
      (mkEnv 999 (fun _ => 1000) (fun _ l => l) (fun _ => true) (fun _ _ => false)
             (fun _ _ => None) (fun _ _ => None) (fun _ _ => None) (fun s => s)
             (fun _ _ _ f => f))
      1 gs demo_bingo w = Done tt w'
    /\ w' = w.
Proof.
  intros w gs.
  destruct (leaderboard_refresh_never_fails
              (mkEnv 999 (fun _ => 1000) (fun _ l => l) (fun _ => true)
                     (fun _ _ => false) (fun _ _ => None) (fun _ _ => None)
                     (fun _ _ => None) (fun s => s) (fun _ _ _ f => f))
              1 gs demo_bingo w) as (w' & E & H & _).
  exists w'; split; [exact E|exact (H eq_refl)].
Defined.

(** X12: revealing the board cannot fail and never writes to the database.
    [try_send_board] always returns with the database unchanged; it does
    nothing when the event has no board image (no path or an empty one) or
    when the board channel is not a text channel; otherwise it makes exactly
    one attempt to send the image to the board channel: the journal grows
    by that one call when it lands, and by the failed call followed by the
    log line when it raises. *)
Theorem board_reveal_never_fails (env : Env) (g : Z) (gs : GuildSettings)
        (b : BingoRow) (w : World) :
  exists w',
    try_send_board env g gs b w = Done tt w'
    /\ w_db w' = w_db w
    /\ (truthy_str (b_board_image_path b) = false
        \/ text_channel env g (gs_board_channel_id gs) = false -> w' = w)
    /\ (forall path,
          b_board_image_path b = Some path ->
          path <> "" ->
          text_channel env g (gs_board_channel_id gs) = true ->
          let call := Send (gs_board_channel_id gs) (TxtBoard (b_name b) path) in
          w_journal w'
          = w_journal w ++ match deliver env (w_journal w) call with
                           | Some _ => [Out call]
                           | None => [Failed call; Logged LogBoardFailed]
                           end).
Proof.
  unfold try_send_board, truthy_str.
  destruct (b_board_image_path b) as [path|];
    [|exists w; repeat split; auto; discriminate].
  destruct (String.eqb path "") eqn:Ep.
  { apply String.eqb_eq in Ep; exists w; repeat split; auto.
    intros path' H; inversion H; subst; contradiction. }
  destruct (text_channel env g (gs_board_channel_id gs)); unfold negb;
    [|exists w; repeat split; auto; discriminate].
  unfold try_except, bind, perform.
  destruct (deliver env (w_journal w) _) eqn:Ed; eexists; (split; [reflexivity|]);
    (split; [reflexivity|]);
    (split; [intros [H|H]; discriminate|]);
    intros path' H _ _; inversion H; subst path'; cbv zeta; rewrite Ed; simpl.
  - reflexivity.
  - rewrite <- app_assoc; reflexivity.
Qed.

Lemma board_reveal_never_fails_witness :
  let b := with_status "running" demo_bingo in
  let silent := mkEnv 999 (fun _ => 1000) (fun _ l => l) (fun _ => true)
                      (fun _ _ => false) (fun _ _ => None) (fun _ _ => None)
                      (fun _ _ => None) (fun s => s) (fun _ _ _ f => f) in
  let call := Send 13 (TxtBoard "demo" "board.png") in
  text_channel silent 1 (gs_board_channel_id demo_gs) = false
  /\ (exists w', try_send_board silent 1 demo_gs b demo_world = Done tt w'
                 /\ w' = demo_world)
  /\ b_board_image_path b = Some "board.png"
  /\ "board.png" <> ""
  /\ text_channel demo_env 1 (gs_board_channel_id demo_gs) = true
  /\ (exists w', try_send_board demo_env 1 demo_gs b demo_world = Done tt w'
                 /\ w_journal w' = [Out call])
  /\ text_channel failing_env 1 (gs_board_channel_id demo_gs) = true
  /\ (exists w', try_send_board failing_env 1 demo_gs b demo_world = Done tt w'
                 /\ w_journal w' = [Failed call; Logged LogBoardFailed]).
Proof.
  intros b silent call.
  assert (Hp : "board.png" <> "") by discriminate.
  split; [reflexivity|]; split.
  { destruct (board_reveal_never_fails silent 1 demo_gs b demo_world)
      as (w' & E & _ & H & _).
    exists w'; split; [exact E|exact (H (or_intror eq_refl))]. }
  split; [reflexivity|]; split; [exact Hp|]; split; [reflexivity|]; split.
  { destruct (board_reveal_never_fails demo_env 1 demo_gs b demo_world)
      as (w' & E & _ & _ & H).
    exists w'; split; [exact E|exact (H "board.png" eq_refl Hp eq_refl)]. }
  split; [reflexivity|].
  destruct (board_reveal_never_fails failing_env 1 demo_gs b demo_world)
    as (w' & E & _ & _ & H).
  exists w'; split; [exact E|exact (H "board.png" eq_refl Hp eq_refl)].
Defined.

(** ** The scan of one event *)

(** X13: when the scan leaves an event alone.  [handle_bingo_state] returns
    with the database and the journal unchanged if the bot is not in the
    guild of the event, if the guild has no settings, if the event is read
    with a status other than [signup_open] and [signup_closed] (so for a
    running event), or if neither of its two deadlines has passed. *)
Theorem scan_leaves_alone (env : Env) (b : BingoRow) (w : World) :
  guild_known env (b_guild_id b) = false
  \/ get_guild_settings (b_guild_id b) (w_db w) = None
  \/ (b_status b <> "signup_open" /\ b_status b <> "signup_closed")
  \/ (clock env (w_journal w) < b_signup_close_utc b
      /\ clock env (w_journal w) < b_start_utc b) ->
  handle_bingo_state env b w = Done tt w.
Proof.
  intros H; unfold handle_bingo_state.
  destruct (guild_known env (b_guild_id b)); unfold negb; [|reflexivity].
  rewrite bind_query.
  destruct (get_guild_settings (b_guild_id b) (w_db w)) as [gs|]; [|reflexivity].
  rewrite bind_utc_now; cbv zeta.
  destruct H as [H|[H|[(H1 & H2)|(H1 & H2)]]]; try discriminate.
  - apply String.eqb_neq in H1, H2.
    unfold in_strs; simpl; rewrite H1, H2; reflexivity.
  - apply Z.leb_gt in H1, H2; rewrite H1, H2, !andb_false_r; reflexivity.
Qed.

Lemma scan_leaves_alone_witness :
  let b := with_status "running" demo_bingo in
  (b_status b <> "signup_open" /\ b_status b <> "signup_closed")
  /\ handle_bingo_state demo_env b demo_world = Done tt demo_world.
Proof.
  intros b.
  assert (H : b_status b <> "signup_open" /\ b_status b <> "signup_closed")
    by (split; discriminate).
  split; [exact H|].
  apply (scan_leaves_alone demo_env b demo_world); right; right; left; exact H.
Defined.

Lemma start_tail_no_sql (env : Env) (g : Z) (gs : GuildSettings) (b : BingoRow) :
  emits no_sql
        ((if text_channel env g (gs_announcements_channel_id gs)
          then perform env (Send (gs_announcements_channel_id gs)
                                 (TxtStarted (b_name b))) ;; ret tt
          else ret tt) ;;
         if String.eqb (b_show_board_when b) "bingo_start"
         then try_send_board env g gs b else ret tt).
Proof. unfold try_send_board; emits_solve. Qed.

(** What [start_bingo] leaves: the status write, then platform calls only. *)
Lemma start_bingo_result (env : Env) (g : Z) (gs : GuildSettings) (b : BingoRow)
      (w : World) :
  exists rest,
    final (start_bingo env g gs b w)
    = mkWorld (set_status (b_id b) "running" (w_db w))
              (w_journal w ++ Sql (SetStatus (b_id b) "running") :: rest)
    /\ Forall no_sql rest.
Proof.
  unfold start_bingo; rewrite bind_exec.
  match goal with
  | |- context [final (?m ?w1)] =>
      destruct (emits_final no_sql m w1 (start_tail_no_sql env g gs b))
        as (d & E & F)
  end.
  exists d; rewrite E; cbn [w_db w_journal run_stmt].
  rewrite (no_sql_replay d _ F), <- app_assoc; auto.
Qed.

Lemma set_status_stored (i : Z) (s : string) (db : DB) :
  stored_status i s (set_status i s db).
Proof.
  intros r Hr Hid; simpl in Hr.
  apply in_map_rows in Hr; destruct Hr as (x & Hx & ->).
  destruct (b_id x =? i) eqn:E; [reflexivity|].
  apply Z.eqb_neq in E; contradiction.
Qed.

(** X14: the start transition.  When the scan reads an event as
    [signup_closed] after its start time, in a reachable and configured
    guild, the first thing it does is to store the status [running]; what
    follows are platform calls only, so signups, teams, submissions and
    approvals are untouched and the final database is the one after that
    single write, in which every row of the event is [running]. *)
Theorem start_transition (env : Env) (b : BingoRow) (w : World) :
  start_due env w b ->
  b_status b = "signup_closed" ->
  exists rest,
    final (handle_bingo_state env b w)
    = mkWorld (set_status (b_id b) "running" (w_db w))
              (w_journal w ++ Sql (SetStatus (b_id b) "running") :: rest)
    /\ Forall no_sql rest
    /\ stored_status (b_id b) "running"
                     (w_db (final (handle_bingo_state env b w))).
Proof.
  intros (Hk & Hgs & _ & Hc) Hs.
  unfold handle_bingo_state; rewrite Hk; unfold negb; rewrite bind_query.
  destruct (get_guild_settings (b_guild_id b) (w_db w)) as [gs|]; [|congruence].
  rewrite bind_utc_now; cbv zeta.
  apply Z.leb_le in Hc; rewrite Hs, Hc; simpl andb; cbv iota.
  change (bind (ret tt) ?f w) with (f tt w); cbv beta.
  destruct (start_bingo_result env (b_guild_id b) gs b w) as (rest & E & F).
  exists rest; rewrite E; split; [reflexivity|]; split; [exact F|].
  apply set_status_stored.
Qed.

Lemma start_transition_witness :
  let b := mkBingo 1 1 "demo" "Custom" 2 "random" None 900 None 500
                   "signups_close" "admin" 2 "signup_closed" (Some 50) None
                   (Some "board.png") 7 0 in
  let w := mkWorld (update_bingos (fun _ => [b]) demo_db) [] in
  start_due demo_env w b
  /\ b_status b = "signup_closed"
  /\ stored_status 1 "running" (w_db (final (handle_bingo_state demo_env b w))).
Proof.
  intros b w.
  assert (Hdue : start_due demo_env w b)
    by (repeat split; [discriminate|right; reflexivity|discriminate]).
  split; [exact Hdue|]; split; [reflexivity|].
  destruct (start_transition demo_env b w Hdue eq_refl) as (rest & _ & _ & H).
  exact H.
Defined.

Lemma tail_keeps_status (b : BingoRow) (i : Z) (s : string) (d : Journal) (db : DB) :
  Forall (tail_action b) d -> stored_status i s db -> stored_status i s (replay d db).
Proof.
  revert d db; apply (replay_preserves (tail_action b) (stored_status i s)).
  intros st db Hq Hi; destruct st; simpl in *; try contradiction; try exact Hi.
  intros r Hr Hid; simpl in Hr.
  apply in_map_rows in Hr; destruct Hr as (x & Hx & ->).
  destruct (b_id x =? bingo_id); simpl in *; apply (Hi x Hx Hid).
Qed.

Lemma close_signups_result (env : Env) (g : Z) (gs : GuildSettings) (b : BingoRow)
      (w : World) :
  exists tail,
    final (close_signups env g gs b w)
    = mkWorld (replay tail (set_status (b_id b) "signup_closed" (w_db w)))
              (w_journal w ++ Sql (SetStatus (b_id b) "signup_closed") :: tail)
    /\ Forall (tail_action b) tail.
Proof.
  unfold close_signups; rewrite bind_exec.
  match goal with
  | |- context [final (?m ?w1)] =>
      destruct (emits_final (tail_action b) m w1 (close_tail_emits env g gs b))
        as (d & E & F)
  end.
  exists d; rewrite E; cbn [w_db w_journal run_stmt].
  rewrite <- app_assoc; auto.
Qed.

(** X15: both deadlines passed at once.  When the scan reads an event as
    [signup_open] after both its signup deadline and its start time, it
    closes and starts it in the same call: if the call returns, every row
    of the event is stored as [running]; if a platform call raises on the
    way, the event is stored as [signup_closed] or as [running], never
    left [signup_open]. *)
Theorem close_then_start (env : Env) (b : BingoRow) (w : World) :
  close_due env w b ->
  b_start_utc b <= clock env (w_journal w) ->
  match handle_bingo_state env b w with
  | Done _ w' => stored_status (b_id b) "running" (w_db w')
  | Raised w' => stored_status (b_id b) "signup_closed" (w_db w')
                 \/ stored_status (b_id b) "running" (w_db w')
  end.
Proof.
  intros (Hk & Hgs & Hs & Hc) Hst.
  unfold handle_bingo_state; rewrite Hk; unfold negb; rewrite bind_query.
  destruct (get_guild_settings (b_guild_id b) (w_db w)) as [gs|]; [|congruence].
  rewrite bind_utc_now; cbv zeta.
  apply Z.leb_le in Hc, Hst; rewrite Hs, Hc, Hst; simpl andb; cbv iota.
  destruct (close_signups_result env (b_guild_id b) gs b w) as (tail & E & F).
  assert (Hclosed : stored_status (b_id b) "signup_closed"
                                  (w_db (final (close_signups env (b_guild_id b)
                                                              gs b w)))).
  { rewrite E; cbn [w_db].
    apply (tail_keeps_status b); [exact F|apply set_status_stored]. }
  unfold bind at 1.
  destruct (close_signups env (b_guild_id b) gs b w) as [[] w1|w1];
    simpl in Hclosed; [|left; exact Hclosed].
  destruct (start_bingo_result env (b_guild_id b) gs b w1) as (rest & E1 & _).
  assert (Hrun : stored_status (b_id b) "running"
                               (w_db (final (start_bingo env (b_guild_id b)
                                                         gs b w1))))
    by (rewrite E1; apply set_status_stored).
  destruct (start_bingo env (b_guild_id b) gs b w1) as [[] w2|w2];
    simpl in Hrun; [exact Hrun|right; exact Hrun].
Qed.

Lemma close_then_start_witness :
  let b := mkBingo 1 1 "demo" "Custom" 2 "random" None 900 None 500
                   "signups_close" "admin" 2 "signup_open" (Some 50) None
                   (Some "board.png") 7 0 in
  let w := mkWorld (update_bingos (fun _ => [b]) demo_db) [] in
  close_due demo_env w b
  /\ b_start_utc b <= clock demo_env (w_journal w)
  /\ match handle_bingo_state demo_env b w with
     | Done _ w' => stored_status 1 "running" (w_db w')
     | Raised w' => stored_status 1 "signup_closed" (w_db w')
                    \/ stored_status 1 "running" (w_db w')
     end.
Proof.
  intros b w.
  assert (Hdue : close_due demo_env w b)
    by (repeat split; [discriminate|discriminate]).
  assert (Hst : b_start_utc b <= clock demo_env (w_journal w)) by discriminate.
  split; [exact Hdue|]; split; [exact Hst|].
  exact (close_then_start demo_env b w Hdue Hst).
Defined.

(** ** Failure isolation in the tick *)

Lemma tick_body_due (env : Env) (b : BingoRow) (w : World) :
  close_due env w b ->
  exists d,
    try_except (handle_bingo_state env b) (log LogTickError) w
    = Done tt (mkWorld (replay d (w_db w)) (w_journal w ++ d))
    /\ In (Sql (SetStatus (b_id b) "signup_closed")) d.
Proof.
  intros Hdue.
  destruct (handle_bingo_state_shape env b w) as (d & E & _ & H).
  destruct (H Hdue) as (rest & ->).
  unfold try_except.
  destruct (handle_bingo_state env b w) as [[] w1|w1]; simpl in E; subst w1.
  - exists (Sql (SetStatus (b_id b) "signup_closed") :: rest).
    split; [reflexivity|left; reflexivity].
  - exists ((Sql (SetStatus (b_id b) "signup_closed") :: rest)
            ++ [Logged LogTickError]).
    unfold log, record; cbn [w_db w_journal].
    rewrite replay_app, <- app_assoc; split; [reflexivity|left; reflexivity].
Qed.

Lemma tick_rows_reach (env : Env) (b : BingoRow) (l : list BingoRow) :
  guild_known env (b_guild_id b) = true ->
  b_status b = "signup_open" ->
  (forall j, b_signup_close_utc b <= clock env j) ->
  In b l ->
  forall w,
    get_guild_settings (b_guild_id b) (w_db w) <> None ->
    exists d,
      for_each (fun row => try_except (handle_bingo_state env row) (log LogTickError))
               l w
      = Done tt (mkWorld (replay d (w_db w)) (w_journal w ++ d))
      /\ In (Sql (SetStatus (b_id b) "signup_closed")) d.
Proof.
  intros Hk Hs Hc; induction l as [|x l IH]; intros Hin w Hgs; [contradiction|].
  simpl.
  destruct (tick_body_shape env x w) as (d1 & extra & E1 & _ & _).
  unfold bind at 1.
  destruct Hin as [-> | Hin].
  - destruct (tick_body_due env b w) as (d & E & Hd);
      [repeat split; auto|].
    rewrite E.
    assert (Hdone : exists d2,
               for_each (fun row => try_except (handle_bingo_state env row)
                                               (log LogTickError))
                        l (mkWorld (replay d (w_db w)) (w_journal w ++ d))
               = Done tt (mkWorld (replay d2 (replay d (w_db w)))
                                  ((w_journal w ++ d) ++ d2))).
    { clear; revert d; generalize w; induction l as [|y l IHl]; intros w0 d; simpl.
      - exists []; rewrite app_nil_r; reflexivity.
      - destruct (tick_body_shape env y (mkWorld (replay d (w_db w0))
                                                (w_journal w0 ++ d)))
          as (dy & ey & Ey & _ & _).
        unfold bind at 1; rewrite Ey; cbn [w_db w_journal].
        destruct (IHl w0 (d ++ dy ++ ey)) as (d3 & E3).
        rewrite !replay_app in *; rewrite <- !app_assoc in *.
        exists ((dy ++ ey) ++ d3).
        rewrite E3, !replay_app, <- !app_assoc; reflexivity. }
    destruct Hdone as (d2 & E2); rewrite E2.
    exists (d ++ d2); rewrite replay_app, app_assoc.
    split; [reflexivity|apply in_or_app; left; exact Hd].
  - rewrite E1.
    destruct (IH Hin (mkWorld (replay (d1 ++ extra) (w_db w))
                              (w_journal w ++ d1 ++ extra)))
      as (d2 & E2 & Hd2).
    + cbn [w_db]; unfold get_guild_settings in *.
      rewrite replay_guild_settings; exact Hgs.
    + rewrite E2; cbn [w_db w_journal].
      exists (d1 ++ extra ++ d2); split.
      * f_equal; f_equal; [rewrite !replay_app|rewrite <- !app_assoc]; reflexivity.
      * apply in_or_app; right; apply in_or_app; right; exact Hd2.
Qed.
Lemma due_actions_member (db : DB) (b : BingoRow) :
  In b (bingos db) -> scanned (b_status b) -> In b (get_due_actions db).
Proof.
  intros Hb Hs; unfold get_due_actions.
  apply (Permutation_in _ (Permutation_sym (isort_perm _ _))), filter_In.
  split; [exact Hb|apply scanned_spec; exact Hs].
Qed.

Lemma tick_rows_done (env : Env) (l : list BingoRow) :
  forall w, exists d,
    for_each (fun row => try_except (handle_bingo_state env row) (log LogTickError))
             l w
    = Done tt (mkWorld (replay d (w_db w)) (w_journal w ++ d)).
Proof.
  induction l as [|x l IH]; intros w; simpl.
  - exists []; rewrite app_nil_r; destruct w; reflexivity.
  - destruct (tick_body_shape env x w) as (d1 & extra & E1 & _ & _).
    unfold bind at 1; rewrite E1.
    destruct (IH (mkWorld (replay (d1 ++ extra) (w_db w))
                          (w_journal w ++ d1 ++ extra))) as (d2 & E2).
    rewrite E2; cbn [w_db w_journal].
    exists ((d1 ++ extra) ++ d2).
    f_equal; f_equal; [rewrite !replay_app|rewrite <- !app_assoc]; reflexivity.
Qed.

(** X16: a failure in one event does not stop the tick.  [bingo_tick] never
    raises, whatever the database holds and whatever the platform calls do,
    and every stored event that is [signup_open] past its signup deadline,
    in a reachable and configured guild, gets its status write
    [signup_closed] in that tick, whatever happens to the events scanned
    before it, including platform calls that raise. *)
Theorem tick_isolates_failures (env : Env) (w : World) :
  exists d,
    bingo_tick env w = Done tt (mkWorld (replay d (w_db w)) (w_journal w ++ d))
    /\ forall b,
         In b (bingos (w_db w)) ->
         guild_known env (b_guild_id b) = true ->
         get_guild_settings (b_guild_id b) (w_db w) <> None ->
         b_status b = "signup_open" ->
         (forall j, b_signup_close_utc b <= clock env j) ->
         In (Sql (SetStatus (b_id b) "signup_closed")) d.
Proof.
  unfold bingo_tick; rewrite bind_query.
  destruct (tick_rows_done env (get_due_actions (w_db w)) w) as (d & E).
  exists d; split; [exact E|].
  intros b Hb Hk Hgs Hs Hc.
  destruct (tick_rows_reach env b (get_due_actions (w_db w)) Hk Hs Hc
                            (due_actions_member _ _ Hb (or_introl Hs)) w Hgs)
    as (d' & E' & Hin).
  rewrite E in E'; inversion E' as [[Hdb Hj]].
  apply app_inv_head in Hj; rewrite Hj; exact Hin.
Qed.

Lemma tick_isolates_failures_witness :
  let w := mkWorld two_events_db [] in
  In demo_bingo (bingos (w_db w))
  /\ guild_known failing_env (b_guild_id demo_bingo) = true
  /\ get_guild_settings (b_guild_id demo_bingo) (w_db w) <> None
  /\ b_status demo_bingo = "signup_open"
  /\ (forall j, b_signup_close_utc demo_bingo <= clock failing_env j)
  /\ exists d,
       bingo_tick failing_env w
       = Done tt (mkWorld (replay d (w_db w)) (w_journal w ++ d))
       /\ In (Sql (SetStatus 1 "signup_closed")) d.
Proof.
  intros w.
  assert (H1 : In demo_bingo (bingos (w_db w))) by (left; reflexivity).
  assert (H3 : get_guild_settings (b_guild_id demo_bingo) (w_db w) <> None)
    by discriminate.
  assert (H5 : forall j, b_signup_close_utc demo_bingo <= clock failing_env j)
    by (intros j; discriminate).
  split; [exact H1|]; split; [reflexivity|]; split; [exact H3|].
  split; [reflexivity|]; split; [exact H5|].
  destruct (tick_isolates_failures failing_env w) as (d & E & H).
  exists d; split; [exact E|exact (H demo_bingo H1 eq_refl H3 eq_refl H5)].
Defined.

(** Every platform call raises: the later event fails at its announcement,
    the earlier one is closed all the same. *)
Example tick_with_failures :
  w_journal (run failing_env [Tick] (mkWorld two_events_db []))
  = [Sql (SetStatus 2 "signup_closed"); Sql (ClearTeams 2);
     Sql (SetTeam 2 41 1); Sql (SetTeam 2 42 1);
     Failed (Send 32 (TxtSignupsClosed "other" [LineTeam 1 [41; 42]]));
     Logged LogTickError;
     Sql (SetStatus 1 "signup_closed"); Sql (ClearTeams 1); Sql (SetTeam 1 21 1);
     Failed (Send 12 (TxtSignupsClosed "demo" [LineTeam 1 [21]]));
     Logged LogTickError].
Proof. vm_compute; reflexivity. Qed.

(** ** Reactions *)

(** X17: reactions the bot does not act on.  [on_raw_reaction_add] returns
    with the database and the journal unchanged for a reaction of the bot
    itself, a reaction outside a guild, a reaction in a guild the bot does
    not know, has no settings for or has no active event in, a reaction
    with an emoji that is none of the three it uses, a join or leave emoji
    on a message that is not the signup post, and an approval emoji on a
    message that is neither the signup post nor a stored submission. *)
Theorem reaction_not_acted_on (env : Env) (p : Payload) (w : World) :
  p_user_id p = bot_user_id env
  \/ p_guild_id p = None
  \/ p_guild_id p = Some 0
  \/ (p_emoji p <> SIGNUP_EMOJI /\ p_emoji p <> UNSIGN_EMOJI
      /\ p_emoji p <> APPROVE_EMOJI)
  \/ (exists gid,
         p_guild_id p = Some gid
         /\ (guild_known env gid = false
             \/ get_guild_settings gid (w_db w) = None
             \/ get_active_bingo gid (w_db w) = None
             \/ exists bingo,
                  get_active_bingo gid (w_db w) = Some bingo
                  /\ is_signup_post bingo (p_message_id p) = false
                  /\ (p_emoji p <> APPROVE_EMOJI
                      \/ get_submission_by_message (p_message_id p) (w_db w)
                         = None))) ->
  on_raw_reaction_add env p w = Done tt w.
Proof.
  intros H; unfold on_raw_reaction_add.
  destruct (p_user_id p =? bot_user_id env) eqn:Eb; [reflexivity|].
  apply Z.eqb_neq in Eb.
  destruct H as [H|H]; [contradiction|].
  destruct (p_guild_id p) as [gid|] eqn:Eg; [|reflexivity].
  destruct (gid =? 0) eqn:Ez; [reflexivity|]; apply Z.eqb_neq in Ez.
  destruct (guild_known env gid) eqn:Ek; unfold negb; [|reflexivity].
  rewrite bind_query.
  destruct (get_guild_settings gid (w_db w)) as [gs|] eqn:Egs; [|reflexivity].
  rewrite bind_query.
  destruct (get_active_bingo gid (w_db w)) as [bingo|] eqn:Ea; [|reflexivity].
  destruct H as [H|[H|[(H1 & H2 & H3)|(g' & Hg & H)]]]; try discriminate.
  - inversion H; congruence.
  - apply String.eqb_neq in H1, H2, H3; rewrite H1, H2, H3.
    destruct (is_signup_post bingo (p_message_id p)); reflexivity.
  - inversion Hg; subst g'.
    destruct H as [H|[H|[H|(b' & Hb' & Hsp & H)]]]; try congruence.
    rewrite Ea in Hb'; inversion Hb'; subst b'; rewrite Hsp.
    destruct H as [H|H].
    + apply String.eqb_neq in H; rewrite H; reflexivity.
    + destruct (String.eqb (p_emoji p) APPROVE_EMOJI); unfold negb; [|reflexivity].
      rewrite bind_query, H; reflexivity.
Qed.

Lemma reaction_not_acted_on_witness :
  let p := mkPayload 21 (Some 1) 60 SIGNUP_EMOJI in
  (exists gid,
      p_guild_id p = Some gid
      /\ (guild_known demo_env gid = false
          \/ get_guild_settings gid demo_db = None
          \/ get_active_bingo gid demo_db = None
          \/ exists bingo,
               get_active_bingo gid demo_db = Some bingo
               /\ is_signup_post bingo (p_message_id p) = false
               /\ (p_emoji p <> APPROVE_EMOJI
                   \/ get_submission_by_message (p_message_id p) demo_db = None)))
  /\ on_raw_reaction_add demo_env p demo_world = Done tt demo_world.
Proof.
  intros p.
  assert (H : exists gid,
             p_guild_id p = Some gid
             /\ (guild_known demo_env gid = false
                 \/ get_guild_settings gid demo_db = None
                 \/ get_active_bingo gid demo_db = None
                 \/ exists bingo,
                      get_active_bingo gid demo_db = Some bingo
                      /\ is_signup_post bingo (p_message_id p) = false
                      /\ (p_emoji p <> APPROVE_EMOJI
                          \/ get_submission_by_message (p_message_id p) demo_db
                             = None))).
  { exists 1; split; [reflexivity|]; right; right; right.
    exists demo_bingo; split; [reflexivity|]; split; [reflexivity|].
    left; discriminate. }
  split; [exact H|].
  apply (reaction_not_acted_on demo_env p demo_world).
  right; right; right; right; exact H.
Defined.

(** X18: removing a reaction can only undo a join.  [on_raw_reaction_remove]
    either changes nothing, or the removed reaction is the join emoji on the
    signup post of the active event and the one statement issued deletes
    the signup of the reacting user.  In particular approvals, submissions,
    teams and events are never changed: taking an approval reaction back
    does not take the approval back. *)
Theorem reaction_removal_only_unsigns (env : Env) (p : Payload) (w : World) :
  (on_raw_reaction_remove env p w = Done tt w
   \/ exists gid bingo,
        signup_post_reaction env (w_db w) p gid bingo
        /\ p_emoji p = SIGNUP_EMOJI
        /\ on_raw_reaction_remove env p w
           = Done tt (mkWorld (remove_signup (b_id bingo) (p_user_id p) (w_db w))
                              (w_journal w
                               ++ [Sql (RemoveSignup (b_id bingo) (p_user_id p))])))
  /\ approvals (w_db (final (on_raw_reaction_remove env p w))) = approvals (w_db w)
  /\ submissions (w_db (final (on_raw_reaction_remove env p w)))
     = submissions (w_db w)
  /\ teams (w_db (final (on_raw_reaction_remove env p w))) = teams (w_db w)
  /\ bingos (w_db (final (on_raw_reaction_remove env p w))) = bingos (w_db w).
Proof.
  assert (H : on_raw_reaction_remove env p w = Done tt w
              \/ exists gid bingo,
                   signup_post_reaction env (w_db w) p gid bingo
                   /\ p_emoji p = SIGNUP_EMOJI
                   /\ on_raw_reaction_remove env p w
                      = Done tt (mkWorld
                                   (remove_signup (b_id bingo) (p_user_id p) (w_db w))
                                   (w_journal w
                                    ++ [Sql (RemoveSignup (b_id bingo)
                                                          (p_user_id p))]))).
  { unfold on_raw_reaction_remove.
    destruct (p_user_id p =? bot_user_id env) eqn:Eb; [left; reflexivity|].
    destruct (p_guild_id p) as [gid|] eqn:Eg; [|left; reflexivity].
    destruct (gid =? 0) eqn:Ez; [left; reflexivity|].
    destruct (guild_known env gid) eqn:Ek; unfold negb; [|left; reflexivity].
    rewrite bind_query.
    destruct (get_active_bingo gid (w_db w)) as [bingo|] eqn:Ea; [|left; reflexivity].
    destruct (truthy_id (b_signup_message_id bingo)); [|left; reflexivity].
    destruct (is_signup_post bingo (p_message_id p)) eqn:Es; [|left; reflexivity].
    destruct (String.eqb (p_emoji p) SIGNUP_EMOJI) eqn:Ee; [|left; reflexivity].
    right; exists gid, bingo.
    apply Z.eqb_neq in Eb, Ez; apply String.eqb_eq in Ee.
    repeat split; auto. }
  split; [exact H|].
  destruct H as [-> | (gid & bingo & _ & _ & ->)]; simpl; auto.
Qed.

Lemma reaction_removal_only_unsigns_witness :
  let p := approve_by 7 61 in
  on_raw_reaction_remove demo_env p demo_world = Done tt demo_world
  /\ approvals (w_db (final (on_raw_reaction_remove demo_env p demo_world)))
     = approvals demo_db.
Proof.
  intros p; split; [reflexivity|].
  exact (proj1 (proj2 (reaction_removal_only_unsigns demo_env p demo_world))).
Defined.

(** X19: without an approval policy nobody can approve.  When the approval
    mode of the active event is neither [admin] nor [nonteammate], so in
    particular for [none], an approval reaction on a pending submission is
    dropped even if it comes from an administrator. *)
Theorem no_policy_no_approval (env : Env) (w : World) (p : Payload) (gid : Z)
        (gs : GuildSettings) (bingo : BingoRow) (sub : SubmissionRow) :
  approval_signal env (w_db w) p gid gs bingo sub ->
  b_approvals_mode bingo <> "admin" ->
  b_approvals_mode bingo <> "nonteammate" ->
  on_raw_reaction_add env p w = Done tt w.
Proof.
  intros (Hbot & Hg & Hz & Hk & Hgs & Hb & Hsp & He & Hsub) H1 H2.
  unfold on_raw_reaction_add.
  apply Z.eqb_neq in Hbot, Hz; rewrite Hbot, Hg, Hz, Hk; unfold negb.
  rewrite bind_query, Hgs, bind_query, Hb, Hsp, He, String.eqb_refl.
  rewrite bind_query, Hsub.
  destruct (String.eqb (s_status sub) "pending"); [|reflexivity].
  cbv zeta; unfold approver_allowed.
  apply String.eqb_neq in H1, H2; rewrite H1, H2; reflexivity.
Qed.

Lemma no_policy_no_approval_witness :
  let bingo := mkBingo 1 1 "demo" "Custom" 2 "random" None 2000 None 500
                       "signups_close" "none" 0 "running" (Some 50) None None 7 0 in
  let sub := mkSubmission 1 1 21 "dragon" "full_tile" 10 60 "a.png" "pending" 1 in
  let db := update_bingos (fun _ => [bingo]) drifted_db in
  let p := approve_by 7 60 in
  approval_signal demo_env db p 1 demo_gs bingo sub
  /\ b_approvals_mode bingo <> "admin"
  /\ b_approvals_mode bingo <> "nonteammate"
  /\ on_raw_reaction_add demo_env p (mkWorld db []) = Done tt (mkWorld db []).
Proof.
  intros bingo sub db p.
  assert (Hsig : approval_signal demo_env db p 1 demo_gs bingo sub)
    by (repeat split; try reflexivity; discriminate).
  assert (H1 : b_approvals_mode bingo <> "admin") by discriminate.
  assert (H2 : b_approvals_mode bingo <> "nonteammate") by discriminate.
  split; [exact Hsig|]; split; [exact H1|]; split; [exact H2|].
  exact (no_policy_no_approval demo_env (mkWorld db []) p 1 demo_gs bingo sub
                               Hsig H1 H2).
Defined.

(** ** Submissions that are turned away *)

Lemma one_attempt_final (env : Env) (e : Effect) (w : World) :
  one_attempt e w (final ((perform env e ;; ret tt) w)).
Proof.
  unfold bind, perform, one_attempt.
  destruct (deliver env (w_journal w) e); simpl; auto.
Qed.

(** X20: a submission that is turned away.  [handle_submission] makes one
    attempt to send a notice to the channel it was called from, and stores
    and sends nothing else, when the guild has no active event, when it has
    no settings, when the command comes from a text channel other than the
    submissions channel, and when no file is attached, in this order of
    precedence. *)
Theorem submission_turned_away (env : Env) (g author : Z) (ch : Channel)
        (desc : string) (atts : list string) (reply : option string) (w : World) :
  let w' := final (handle_submission env g author ch desc atts reply w) in
  (get_active_bingo g (w_db w) = None ->
   one_attempt (Send (ch_id ch) TxtNoActiveBingo) w w')
  /\ (get_active_bingo g (w_db w) <> None ->
      get_guild_settings g (w_db w) = None ->
      one_attempt (Send (ch_id ch) TxtNotConfigured) w w')
  /\ (forall gs,
         get_active_bingo g (w_db w) <> None ->
         get_guild_settings g (w_db w) = Some gs ->
         (ch_is_text ch = true /\ ch_id ch <> gs_submissions_channel_id gs ->
          one_attempt (Send (ch_id ch) (TxtSubmitIn (gs_submissions_channel_id gs)))
                      w w')
         /\ (ch_is_text ch = false \/ ch_id ch = gs_submissions_channel_id gs ->
             atts = [] ->
             one_attempt (Send (ch_id ch) TxtAttachImage) w w')).
Proof.
  intros w'; subst w'; unfold handle_submission; rewrite bind_query.
  destruct (get_active_bingo g (w_db w)) as [bingo|].
  - split; [discriminate|].
    rewrite bind_query.
    destruct (get_guild_settings g (w_db w)) as [gs|].
    + split; [discriminate|].
      intros gs' _ Hgs; inversion Hgs; subst gs'; split.
      * intros (Ht & Hne); apply Z.eqb_neq in Hne; rewrite Ht, Hne; simpl.
        apply one_attempt_final.
      * intros Hch ->.
        replace (ch_is_text ch && negb (ch_id ch =? gs_submissions_channel_id gs))
          with false.
        -- apply one_attempt_final.
        -- destruct Hch as [-> | ->]; [reflexivity|].
           rewrite Z.eqb_refl; simpl; rewrite andb_false_r; reflexivity.
    + split; [intros _ _; apply one_attempt_final|].
      intros gs _ H; discriminate.
  - split; [intros _; apply one_attempt_final|].
    split; [intros H; congruence|intros gs H; congruence].
Qed.

Lemma submission_turned_away_witness :
  let w' := final (handle_submission demo_env 1 21 (mkChannel 10 true) "dragon"
                                     ["a.png"] (Some "full") demo_world) in
  get_active_bingo 1 demo_db <> None
  /\ get_guild_settings 1 demo_db = Some demo_gs
  /\ (ch_is_text (mkChannel 10 true) = true
      /\ ch_id (mkChannel 10 true) <> gs_submissions_channel_id demo_gs)
  /\ one_attempt (Send 10 (TxtSubmitIn 11)) demo_world w'.
Proof.
  intros w'.
  assert (H1 : get_active_bingo 1 demo_db <> None) by discriminate.
  assert (H3 : ch_is_text (mkChannel 10 true) = true
               /\ ch_id (mkChannel 10 true) <> gs_submissions_channel_id demo_gs)
    by (split; [reflexivity|discriminate]).
  split; [exact H1|]; split; [reflexivity|]; split; [exact H3|].
  destruct (submission_turned_away demo_env 1 21 (mkChannel 10 true) "dragon"
                                   ["a.png"] (Some "full") demo_world)
    as (_ & _ & H).
  exact (proj1 (H demo_gs H1 eq_refl) H3).
Defined.

Lemma update_leaderboard_submission (env : Env) (g : Z) (gs : GuildSettings)
      (b : BingoRow) (author : Z) (desc : string) (reply : option string) :
  emits (submission_action env author desc reply) (update_leaderboard env g gs b).
Proof. unfold update_leaderboard; emits_solve. Qed.

(** X21: what a submission is stored with.  Every row [handle_submission]
    stores carries the invoking user and the description it was given; its
    kind is [full_tile] exactly when the answer to the follow-up question,
    trimmed and lower-cased, is one of [full], [full_tile], [tile] and
    [fulltile], and [progress] for any other answer and when the wait for
    the answer times out; its status is [approved] or [pending].  The
    handler writes nothing to the database besides such a row and the id of
    the leaderboard post. *)
Theorem submission_stored_fields (env : Env) (g author : Z) (ch : Channel)
        (desc : string) (atts : list string) (reply : option string) :
  emits (submission_action env author desc reply)
        (handle_submission env g author ch desc atts reply).
Proof.
  unfold handle_submission, db_create_submission.
  repeat first [apply update_leaderboard_submission | emits_step]; simpl; auto.
  repeat split; auto.
  destruct (String.eqb (b_approvals_mode b) "none"); auto.
Qed.

Example submission_kinds :
  reply_kind demo_env (Some "tile") = "full_tile"
  /\ reply_kind demo_env (Some "done") = "progress"
  /\ reply_kind demo_env None = "progress".
Proof. repeat split. Qed.

(** ** The team announcement *)

Lemma bucket_append_keys (tn uid : Z) (bucket : list (Z * list Z)) (k : Z) :
  In k (map fst (bucket_append tn uid bucket)) <-> k = tn \/ In k (map fst bucket).
Proof.
  induction bucket as [|[k' us] bucket IH]; simpl; [intuition auto|].
  destruct (k' =? tn) eqn:E; simpl.
  - apply Z.eqb_eq in E; subst k'; intuition auto.
  - rewrite IH; intuition auto.
Qed.

Lemma bucket_append_nodup (tn uid : Z) (bucket : list (Z * list Z)) :
  NoDup (map fst bucket) -> NoDup (map fst (bucket_append tn uid bucket)).
Proof.
  induction bucket as [|[k us] bucket IH]; simpl; intros H;
    [constructor; [simpl; tauto|constructor]|].
  inversion H as [|? ? Hn Hd]; subst.
  destruct (k =? tn) eqn:E; simpl; [constructor; assumption|].
  constructor; [|apply IH; exact Hd].
  rewrite bucket_append_keys; apply Z.eqb_neq in E; intuition auto.
Qed.

Lemma bucket_append_get (tn uid k : Z) (bucket : list (Z * list Z)) :
  bucket_get k (bucket_append tn uid bucket)
  = if k =? tn then bucket_get k bucket ++ [uid] else bucket_get k bucket.
Proof.
  unfold bucket_get.
  induction bucket as [|[k' us] bucket IH]; simpl.
  - rewrite (Z.eqb_sym tn k); destruct (k =? tn); reflexivity.
  - destruct (k' =? tn) eqn:E; simpl.
    + apply Z.eqb_eq in E; subst k'.
      rewrite (Z.eqb_sym tn k); destruct (k =? tn); reflexivity.
    + destruct (k' =? k) eqn:E'; [|exact IH].
      apply Z.eqb_eq in E'; subst k'; rewrite E; reflexivity.
Qed.

Lemma listed_members_app (tn : Z) (l : list (Z * Z)) (r : Z * Z) :
  listed_members tn (l ++ [r])
  = if tn =? fst r then listed_members tn l ++ [snd r] else listed_members tn l.
Proof.
  unfold listed_members; rewrite filter_app, map_app; simpl.
  rewrite (Z.eqb_sym (fst r) tn); destruct (tn =? fst r); simpl;
    [reflexivity|apply app_nil_r].
Qed.

(** The dictionary built by the loop over [list_teams]. *)
Lemma bucket_fold (l : list (Z * Z)) :
  forall acc pre,
    NoDup (map fst acc) ->
    (forall k, In k (map fst acc) <-> In k (map fst pre)) ->
    (forall k, bucket_get k acc = listed_members k pre) ->
    let bucket := fold_left (fun b r => bucket_append (fst r) (snd r) b) l acc in
    NoDup (map fst bucket)
    /\ (forall k, In k (map fst bucket) <-> In k (map fst (pre ++ l)))
    /\ (forall k, bucket_get k bucket = listed_members k (pre ++ l)).
Proof.
  induction l as [|r l IH]; intros acc pre ND Hk Hg; simpl.
  - rewrite app_nil_r; auto.
  - replace (pre ++ r :: l) with ((pre ++ [r]) ++ l)
      by (rewrite <- app_assoc; reflexivity).
    apply IH.
    + apply bucket_append_nodup; exact ND.
    + intros k; rewrite bucket_append_keys, map_app, in_app_iff, Hk; simpl.
      intuition auto.
    + intros k; rewrite bucket_append_get, listed_members_app, Hg; reflexivity.
Qed.

Lemma sorted_distinct (l : list Z) :
  StronglySorted (fun x y => Z.leb x y = true) l -> NoDup l ->
  StronglySorted Z.lt l.
Proof.
  induction 1 as [|x l Hs IH Hall]; intros ND; [constructor|].
  inversion ND as [|? ? Hn Hd]; subst.
  constructor; [apply IH; exact Hd|].
  rewrite Forall_forall in Hall |- *; intros y Hy.
  pose proof (Hall y Hy) as H; apply Z.leb_le in H.
  assert (x <> y) by (intros ->; contradiction).
  lia.
Qed.

(** X22: the lines of the team announcement.  For the pairs returned by
    [list_teams], the announcement has one line per team number that
    occurs, in strictly ascending order of team number, and the line of a
    team lists its members in the order in which [list_teams] returned
    them. *)
Theorem announcement_lines (teams : list (Z * Z)) :
  StronglySorted Z.lt (map line_team (team_lines teams))
  /\ (forall tn, In tn (map line_team (team_lines teams)) <-> In tn (map fst teams))
  /\ (forall l, In l (team_lines teams) ->
                l = LineTeam (line_team l) (listed_members (line_team l) teams)).
Proof.
  unfold team_lines.
  destruct (bucket_fold teams [] [] (NoDup_nil _)
                        (fun k => conj (fun H => H) (fun H => H))
                        (fun k => eq_refl)) as (ND & Hk & Hg).
  simpl in ND, Hk, Hg.
  set (bucket := fold_left (fun b r => bucket_append (fst r) (snd r) b) teams [])
    in *.
  assert (Hperm : Permutation (isort Z.leb (map fst bucket)) (map fst bucket))
    by apply isort_perm.
  rewrite map_map; simpl; rewrite map_id.
  split; [|split].
  - apply sorted_distinct.
    + apply isort_sorted.
      * intros x y; destruct (Z.leb_spec x y);
          [left; reflexivity|right; apply Z.leb_le; lia].
      * intros x y z H1 H2; apply Z.leb_le in H1, H2; apply Z.leb_le; lia.
    + exact (Permutation_NoDup (Permutation_sym Hperm) ND).
  - intros tn; rewrite <- Hk; split; intros H.
    + exact (Permutation_in _ Hperm H).
    + exact (Permutation_in _ (Permutation_sym Hperm) H).
  - intros l Hl; apply in_map_iff in Hl; destruct Hl as (tn & <- & _); simpl.
    rewrite Hg; reflexivity.
Qed.

Lemma announcement_lines_witness :
  let teams := [(1, 25); (1, 24); (2, 23)] in
  In (LineTeam 1 [25; 24]) (team_lines teams)
  /\ LineTeam 1 [25; 24]
     = LineTeam (line_team (LineTeam 1 [25; 24]))
                (listed_members (line_team (LineTeam 1 [25; 24])) teams).
Proof.
  intros teams.
  assert (H : In (LineTeam 1 [25; 24]) (team_lines teams)) by (left; reflexivity).
  split; [exact H|].
  exact (proj2 (proj2 (announcement_lines teams)) _ H).
Defined.


(** * Further properties of whole runs *)

(** ** Keys and references *)

Lemma status_keeps_ids (sid : Z) (st : string) (rows : list SubmissionRow) :
  map s_id (map (fun s => if s_id s =? sid then with_s_status st s else s) rows)
  = map s_id rows.
Proof.
  rewrite map_map; apply map_ext; intros s.
  destruct (s_id s =? sid); reflexivity.
Qed.

Lemma run_stmt_keys (st : Stmt) (db : DB) :
  keys_ok db -> keys_ok (run_stmt st db).
Proof.
  intros (H1 & H2 & H3 & H4 & H5 & H6).
  split; [|split; [|split; [|split; [|split]]]].
  - destruct st; exact H1.
  - apply (replay_bingos_pk [Sql st]); exact H2.
  - destruct st; try exact H3; [apply add_signup_pk|apply remove_signup_pk]; exact H3.
  - destruct st; try exact H4.
    + apply (filter_keeps_keys (fun r => (t_bingo_id r, t_user_id r))); exact H4.
    + apply upsert_team_pk; exact H4.
  - destruct st; try exact H5.
    + unfold submissions_pk; simpl; rewrite map_app; simpl.
      apply NoDup_app; [exact H5|repeat constructor; simpl; tauto|].
      intros k Hk [<- | []].
      apply in_map_iff in Hk; destruct Hk as (s & E & Hs).
      pose proof (next_submission_id_fresh db s Hs); lia.
    + unfold submissions_pk; simpl; rewrite status_keeps_ids; exact H5.
  - destruct st; try exact H6; apply add_approval_pk; exact H6.
Qed.

Lemma replay_keys (d : Journal) (db : DB) :
  keys_ok db -> keys_ok (replay d db).
Proof.
  revert db; induction d as [|a d IH]; intros db H; simpl; [exact H|].
  destruct a; try (apply IH; exact H).
  apply IH, run_stmt_keys; exact H.
Qed.

Lemma run_stmt_submission_ids (st : Stmt) (db : DB) :
  incl (map s_id (submissions db)) (map s_id (submissions (run_stmt st db))).
Proof.
  destruct st; simpl; try apply incl_refl.
  - rewrite map_app; apply incl_appl, incl_refl.
  - rewrite status_keeps_ids; apply incl_refl.
Qed.

Lemma upsert_team_in (bid uid tn : Z) (rows : list TeamRow) (r : TeamRow) :
  In r (upsert_team bid uid tn rows) -> r = mkTeam bid tn uid \/ In r rows.
Proof.
  induction rows as [|x rows IH]; simpl; [intros [<- | []]; auto|].
  destruct (team_key bid uid x); simpl; intros [<- | H]; auto.
  destruct (IH H); auto.
Qed.

(** A statement that inserts only rows pointing to known events and
    submissions keeps the references of every table resolved. *)
Lemma run_stmt_references (bids sids : list Z) (st : Stmt) (db : DB) :
  inserts_into bids sids (Sql st) ->
  references_ok db /\ incl bids (map b_id (bingos db))
                   /\ incl sids (map s_id (submissions db)) ->
  references_ok (run_stmt st db)
  /\ incl bids (map b_id (bingos (run_stmt st db)))
  /\ incl sids (map s_id (submissions (run_stmt st db))).
Proof.
  intros Hst ((R1 & R2 & R3 & R4) & Hb & Hs).
  split; [|split].
  - unfold references_ok; rewrite run_stmt_ids.
    split; [|split; [|split]].
    + destruct st; try exact R1; simpl in Hst |- *; intros r Hr.
      * destruct (existsb _ _); [auto|].
        apply in_app_iff in Hr; destruct Hr as [Hr|[<- | []]]; [auto|].
        apply Hb; exact Hst.
      * apply filter_In in Hr; apply R1; tauto.
    + destruct st; try exact R2; simpl in Hst |- *; intros r Hr.
      * apply filter_In in Hr; apply R2; tauto.
      * apply upsert_team_in in Hr; destruct Hr as [-> | Hr]; [|auto].
        apply Hb; exact Hst.
    + destruct st; try exact R3; simpl in Hst |- *; intros r Hr.
      * apply in_app_iff in Hr; destruct Hr as [Hr|[<- | []]]; [auto|].
        apply Hb; exact Hst.
      * apply in_map_iff in Hr; destruct Hr as (s & <- & Hs').
        destruct (s_id s =? submission_id); simpl; apply R3; exact Hs'.
    + intros r Hr; apply (run_stmt_submission_ids st db).
      destruct st; try (apply R4; exact Hr); simpl in Hst, Hr.
      destruct (existsb _ _); [auto|].
      apply in_app_iff in Hr; destruct Hr as [Hr|[<- | []]]; [auto|].
      apply Hs; exact Hst.
  - rewrite run_stmt_ids; exact Hb.
  - eapply incl_tran; [exact Hs|apply run_stmt_submission_ids].
Qed.

Lemma replay_references (bids sids : list Z) (d : Journal) (db : DB) :
  Forall (inserts_into bids sids) d ->
  references_ok db /\ incl bids (map b_id (bingos db))
                   /\ incl sids (map s_id (submissions db)) ->
  references_ok (replay d db)
  /\ incl bids (map b_id (bingos (replay d db)))
  /\ incl sids (map s_id (submissions (replay d db))).
Proof.
  apply (replay_preserves
           (inserts_into bids sids)
           (fun x => references_ok x /\ incl bids (map b_id (bingos x))
                     /\ incl sids (map s_id (submissions x)))).
  intros st x; apply run_stmt_references.
Qed.

Lemma inserts_into_incl (bids bids' sids sids' : list Z) (a : Action) :
  incl bids bids' -> incl sids sids' ->
  inserts_into bids sids a -> inserts_into bids' sids' a.
Proof.
  intros Hb Hs; destruct a as [st| | |]; simpl; auto.
  destruct st; simpl; auto.
Qed.

Lemma scan_action_inserts (b : BingoRow) (a : Action) :
  scan_action b a -> inserts_into [b_id b] [] a.
Proof.
  destruct a as [st| | |]; simpl; auto.
  destruct st; simpl; auto; unfold scan_action; simpl;
    intros [H|(_ & [H|H])]; try contradiction; try discriminate H; auto.
Qed.

Lemma active_in_bingos (g : Z) (db : DB) (b : BingoRow) :
  get_active_bingo g db = Some b -> In b (bingos db).
Proof.
  unfold get_active_bingo; intros H.
  match type of H with latest ?l = _ => pose proof (latest_spec l) as L end.
  rewrite H in L; destruct L as (L & _); apply filter_In in L; tauto.
Qed.

Lemma one_event_known (b : BingoRow) (db : DB) :
  In b (bingos db) -> incl [b_id b] (map b_id (bingos db)).
Proof. intros H i [<- | []]; apply in_map; exact H. Qed.

Lemma bingo_tick_inserts (env : Env) (w : World) :
  exists delta,
    final (bingo_tick env w) = mkWorld (replay delta (w_db w)) (w_journal w ++ delta)
    /\ Forall (inserts_into (map b_id (bingos (w_db w)))
                            (map s_id (submissions (w_db w)))) delta.
Proof.
  unfold bingo_tick; rewrite bind_query.
  apply emits_final, emits_for_each; intros b Hb.
  apply emits_try_except; [|apply emits_log; exact I].
  eapply emits_mono; [|apply handle_bingo_state_emits].
  intros a Ha.
  apply (inserts_into_incl [b_id b] _ [] _);
    [apply one_event_known, due_in_bingos; exact Hb|apply incl_nil_l|].
  apply scan_action_inserts; exact Ha.
Qed.

Lemma reaction_add_inserts (env : Env) (p : Payload) (w : World) :
  exists delta,
    final (on_raw_reaction_add env p w)
    = mkWorld (replay delta (w_db w)) (w_journal w ++ delta)
    /\ Forall (inserts_into (map b_id (bingos (w_db w)))
                            (map s_id (submissions (w_db w)))) delta.
Proof.
  unfold on_raw_reaction_add.
  destruct (p_user_id p =? bot_user_id env); [apply emits_final, emits_ret|].
  destruct (p_guild_id p) as [gid|]; [|apply emits_final, emits_ret].
  destruct (gid =? 0); [apply emits_final, emits_ret|].
  destruct (negb (guild_known env gid)); [apply emits_final, emits_ret|].
  rewrite bind_query.
  destruct (get_guild_settings gid (w_db w)) as [gs|];
    [|apply emits_final, emits_ret].
  rewrite bind_query.
  destruct (get_active_bingo gid (w_db w)) as [bingo|] eqn:Ea;
    [|apply emits_final, emits_ret].
  apply active_in_bingos in Ea.
  destruct (is_signup_post bingo (p_message_id p)).
  - apply emits_final, (emits_mono (inserts_into [b_id bingo] [])).
    + intros a; apply inserts_into_incl;
        [apply one_event_known; exact Ea|apply incl_nil_l].
    + unfold db_add_signup; emits_solve.
  - destruct (negb (String.eqb (p_emoji p) APPROVE_EMOJI));
      [apply emits_final, emits_ret|].
    rewrite bind_query.
    destruct (get_submission_by_message (p_message_id p) (w_db w)) as [sub|] eqn:Es;
      [|apply emits_final, emits_ret].
    apply find_some in Es; destruct Es as (Es & _).
    apply emits_final, (emits_mono (inserts_into [] [s_id sub])).
    + intros a; apply inserts_into_incl; [apply incl_nil_l|].
      intros i [<- | []]; apply in_map; exact Es.
    + unfold db_add_approval, update_leaderboard; emits_solve.
Qed.

Lemma handle_submission_inserts (env : Env) (g author : Z) (ch : Channel)
      (desc : string) (atts : list string) (reply : option string) (w : World) :
  exists delta,
    final (handle_submission env g author ch desc atts reply w)
    = mkWorld (replay delta (w_db w)) (w_journal w ++ delta)
    /\ Forall (inserts_into (map b_id (bingos (w_db w)))
                            (map s_id (submissions (w_db w)))) delta.
Proof.
  unfold handle_submission; rewrite bind_query.
  destruct (get_active_bingo g (w_db w)) as [bingo|] eqn:Ea.
  - apply active_in_bingos in Ea.
    apply emits_final, (emits_mono (inserts_into [b_id bingo] [])).
    + intros a; apply inserts_into_incl;
        [apply one_event_known; exact Ea|apply incl_nil_l].
    + unfold db_create_submission, update_leaderboard; emits_solve.
  - apply emits_final; emits_solve.
Qed.

Lemma step_inserts (env : Env) (ev : Event) (w : World) :
  exists delta,
    step env ev w = mkWorld (replay delta (w_db w)) (w_journal w ++ delta)
    /\ Forall (inserts_into (map b_id (bingos (w_db w)))
                            (map s_id (submissions (w_db w)))) delta.
Proof.
  destruct ev; simpl.
  - apply bingo_tick_inserts.
  - apply reaction_add_inserts.
  - apply emits_final, (emits_mono (inserts_into [] [])).
    + intros a; apply inserts_into_incl; apply incl_nil_l.
    + unfold on_raw_reaction_remove; emits_solve.
  - apply handle_submission_inserts.
Qed.

Lemma step_consistent (env : Env) (ev : Event) (w : World) :
  keys_ok (w_db w) -> references_ok (w_db w) ->
  keys_ok (w_db (step env ev w)) /\ references_ok (w_db (step env ev w)).
Proof.
  intros K R; destruct (step_inserts env ev w) as (d & E & F).
  rewrite E; simpl; split; [apply replay_keys; exact K|].
  apply (replay_references _ _ d (w_db w) F).
  split; [exact R|split; apply incl_refl].
Qed.

(** X23: the store stays consistent.  Whatever ticks, reactions and
    submission commands the bot handles, in any order and whatever the
    platform calls do, if the six tables start with distinct primary keys
    and with every signup, team row and submission pointing to a stored
    event and every approval to a stored submission, they are so again
    afterwards: no handler inserts a duplicate key or a dangling
    reference. *)
Theorem run_keeps_store_consistent (env : Env) (evs : list Event) (w : World) :
  keys_ok (w_db w) -> references_ok (w_db w) ->
  keys_ok (w_db (run env evs w)) /\ references_ok (w_db (run env evs w)).
Proof.
  revert w; induction evs as [|ev evs IH]; intros w K R; simpl; [auto|].
  destruct (step_consistent env ev w K R) as (K' & R').
  apply IH; assumption.
Qed.

Lemma demo_keys : keys_ok demo_db.
Proof.
  unfold keys_ok, settings_pk, bingos_pk, signups_pk, teams_pk, submissions_pk,
    approvals_pk; simpl.
  repeat split; distinct_rows.
Qed.

Lemma demo_references : references_ok demo_db.
Proof.
  unfold references_ok; simpl.
  repeat split; intros r H;
    repeat (destruct H as [<- | H]; [simpl; auto|]); contradiction.
Qed.

Lemma run_keeps_store_consistent_witness :
  let evs := [Tick; ReactionAdd (approve_by 7 60);
              Submit 1 21 (mkChannel 11 true) "kraken" ["k.png"] (Some "full")] in
  keys_ok (w_db demo_world) /\ references_ok (w_db demo_world)
  /\ keys_ok (w_db (run demo_env evs demo_world))
  /\ references_ok (w_db (run demo_env evs demo_world)).
Proof.
  intros evs.
  split; [exact demo_keys|]; split; [exact demo_references|].
  exact (run_keeps_store_consistent demo_env evs demo_world
                                    demo_keys demo_references).
Defined.


(** ** What a run leaves in place *)

Lemma Forall2_same {A} (R : A -> A -> Prop) (l : list A) :
  (forall x, R x x) -> Forall2 R l l.
Proof. intros H; induction l; constructor; auto. Qed.

Lemma Forall2_mapped {A} (R : A -> A -> Prop) (f : A -> A) (l : list A) :
  (forall x, R x (f x)) -> Forall2 R l (map f l).
Proof. intros H; induction l; simpl; constructor; auto. Qed.

Lemma Forall2_chain {A} (R : A -> A -> Prop) :
  (forall x y z, R x y -> R y z -> R x z) ->
  forall l1 l2 l3, Forall2 R l1 l2 -> Forall2 R l2 l3 -> Forall2 R l1 l3.
Proof.
  intros T l1 l2 l3 H; revert l3.
  induction H as [|x y l1 l2 Hxy H IH]; intros l3 H'; inversion H'; subst;
    constructor; eauto.
Qed.

Lemma event_kept_refl (b : BingoRow) : event_kept b b.
Proof. split; auto. Qed.

Lemma event_kept_trans (x y z : BingoRow) :
  event_kept x y -> event_kept y z -> event_kept x z.
Proof.
  intros (C1 & S1) (C2 & S2); split; [congruence|].
  destruct S2 as [S2|S2]; [rewrite S2; exact S1|auto].
Qed.

Lemma submission_kept_refl (s : SubmissionRow) : submission_kept s s.
Proof. split; auto. Qed.

Lemma submission_kept_trans (x y z : SubmissionRow) :
  submission_kept x y -> submission_kept y z -> submission_kept x z.
Proof.
  intros (C1 & S1) (C2 & S2); split; [congruence|].
  destruct S2 as [S2|S2]; [rewrite S2; exact S1|auto].
Qed.

Lemma grown_refl (db : DB) : grown_from db db.
Proof.
  split; [reflexivity|]; split; [apply Forall2_same, event_kept_refl|].
  split; [exists (submissions db), []|exists []]; rewrite app_nil_r; auto.
  split; [reflexivity|apply Forall2_same, submission_kept_refl].
Qed.

Lemma grown_trans (x y z : DB) :
  grown_from x y -> grown_from y z -> grown_from x z.
Proof.
  intros (G1 & B1 & (o1 & m1 & E1 & F1) & (a1 & A1))
         (G2 & B2 & (o2 & m2 & E2 & F2) & (a2 & A2)).
  split; [congruence|].
  split; [exact (Forall2_chain _ event_kept_trans _ _ _ B1 B2)|].
  split.
  - rewrite E1 in F2.
    apply Forall2_app_inv_l in F2; destruct F2 as (p & q & Fp & Fq & ->).
    exists p, (q ++ m2); rewrite E2, app_assoc; split; [reflexivity|].
    exact (Forall2_chain _ submission_kept_trans _ _ _ F1 Fp).
  - exists (a1 ++ a2); rewrite A2, A1, app_assoc; reflexivity.
Qed.

Lemma grown_same (db db' : DB) :
  guild_settings db' = guild_settings db -> bingos db' = bingos db ->
  submissions db' = submissions db -> approvals db' = approvals db ->
  grown_from db db'.
Proof.
  intros G B S A; destruct (grown_refl db) as (_ & B0 & S0 & A0).
  unfold grown_from; rewrite G, B, S, A; auto.
Qed.

(** One statement of a handler, read as a change of the tables. *)
Lemma run_stmt_grows (st : Stmt) (db : DB) :
  handler_action (Sql st) -> grown_from db (run_stmt st db).
Proof.
  intros H; destruct st; simpl in H; try (apply grown_same; reflexivity).
  - split; [reflexivity|]; split; [|split].
    + apply Forall2_mapped; intros b.
      destruct (b_id b =? bingo_id); [|apply event_kept_refl].
      split; [reflexivity|right; exact H].
    + exists (submissions db), []; rewrite app_nil_r.
      split; [reflexivity|apply Forall2_same, submission_kept_refl].
    + exists []; rewrite app_nil_r; reflexivity.
  - split; [reflexivity|]; split; [|split].
    + apply Forall2_mapped; intros b.
      destruct (b_id b =? bingo_id); [|apply event_kept_refl].
      split; [reflexivity|left; reflexivity].
    + exists (submissions db), []; rewrite app_nil_r.
      split; [reflexivity|apply Forall2_same, submission_kept_refl].
    + exists []; rewrite app_nil_r; reflexivity.
  - split; [reflexivity|]; split; [apply Forall2_same, event_kept_refl|].
    split; [|exists []; rewrite app_nil_r; reflexivity].
    eexists _, _; split; [reflexivity|apply Forall2_same, submission_kept_refl].
  - split; [reflexivity|]; split; [apply Forall2_same, event_kept_refl|].
    split.
    + exists (submissions db), []; rewrite app_nil_r.
      split; [reflexivity|apply Forall2_same, submission_kept_refl].
    + simpl; destruct (existsb _ _); [exists []; rewrite app_nil_r|eexists];
        reflexivity.
  - split; [reflexivity|]; split; [apply Forall2_same, event_kept_refl|].
    split; [|exists []; rewrite app_nil_r; reflexivity].
    eexists _, []; rewrite app_nil_r; split; [reflexivity|].
    apply Forall2_mapped; intros s.
    destruct (s_id s =? submission_id); [|apply submission_kept_refl].
    split; [reflexivity|right; exact H].
Qed.

Lemma replay_grows (d : Journal) (db : DB) :
  Forall handler_action d -> grown_from db (replay d db).
Proof.
  revert db; induction d as [|a d IH]; intros db F; simpl; [apply grown_refl|].
  inversion F; subst.
  destruct a; try (apply IH; assumption).
  apply (grown_trans _ (run_stmt st db));
    [apply run_stmt_grows; assumption|apply IH; assumption].
Qed.

Lemma run_grows (env : Env) (evs : list Event) (w : World) :
  grown_from (w_db w) (w_db (run env evs w)).
Proof.
  destruct (run_emits env evs w) as (d & E & F).
  rewrite E; simpl; apply replay_grows; exact F.
Qed.

(** X24: what a run leaves in place.  Whatever ticks, reactions and
    submission commands the bot handles, it never touches the guild
    settings; it neither adds, removes nor reorders events and changes
    nothing of an event but its status, to [signup_closed] or [running], and
    its leaderboard post; it never removes a submission or an approval, and
    of a stored submission it changes nothing (its required approvals
    included) but the status, to [approved]. *)
Theorem run_only_grows (env : Env) (evs : list Event) (w : World) :
  let db := w_db w in
  let db' := w_db (run env evs w) in
  guild_settings db' = guild_settings db
  /\ Forall2 event_kept (bingos db) (bingos db')
  /\ (exists old more,
         submissions db' = old ++ more
         /\ Forall2 submission_kept (submissions db) old)
  /\ (exists more, approvals db' = approvals db ++ more).
Proof. exact (run_grows env evs w). Qed.


(** ** The quorum over whole runs *)

Lemma quorum_frame (db db' : DB) :
  submissions db' = submissions db -> approvals db' = approvals db ->
  quorum_respected db -> quorum_respected db'.
Proof.
  unfold quorum_respected, count_approvals; intros S A Q s Hs.
  rewrite A; rewrite S in Hs; apply Q; exact Hs.
Qed.

Lemma leaves_frame (d : Journal) (db : DB) :
  Forall leaves_submissions d ->
  submissions (replay d db) = submissions db
  /\ approvals (replay d db) = approvals db.
Proof.
  revert db; induction d as [|a d IH]; intros db F; simpl; [auto|].
  inversion F; subst.
  destruct a; try (apply IH; assumption).
  destruct st; simpl in *; try contradiction;
    match goal with |- context [replay d ?x] => apply (IH x); assumption end.
Qed.

Lemma leaves_quorum {A} (m : M A) (w : World) :
  emits leaves_submissions m ->
  quorum_respected (w_db w) -> quorum_respected (w_db (final (m w))).
Proof.
  intros Hm Q; destruct (emits_final _ m w Hm) as (d & E & F).
  rewrite E; simpl; destruct (leaves_frame d (w_db w) F) as (S & Ap).
  exact (quorum_frame _ _ S Ap Q).
Qed.

Lemma scan_action_leaves (b : BingoRow) (a : Action) :
  scan_action b a -> leaves_submissions a.
Proof.
  destruct a as [st| | |]; simpl; auto.
  destruct st; simpl; auto; unfold scan_action; simpl;
    intros [H|(_ & [H|H])]; try contradiction; discriminate H.
Qed.

Lemma bingo_tick_leaves (env : Env) : emits leaves_submissions (bingo_tick env).
Proof.
  unfold bingo_tick; emits_auto; simpl; auto.
  eapply emits_mono; [apply scan_action_leaves|apply handle_bingo_state_emits].
Qed.

(** A reaction either leaves the submissions alone or is the approval of a
    pending submission by an admitted approver. *)
Lemma reaction_add_cases (env : Env) (p : Payload) (w : World) :
  (exists delta,
      final (on_raw_reaction_add env p w)
      = mkWorld (replay delta (w_db w)) (w_journal w ++ delta)
      /\ Forall leaves_submissions delta)
  \/ (exists gid gs bingo sub,
         approval_signal env (w_db w) p gid gs bingo sub
         /\ s_status sub = "pending"
         /\ approver_allowed (b_approvals_mode bingo)
                             (lookup_member env gid (p_user_id p)) = true).
Proof.
  unfold on_raw_reaction_add.
  destruct (p_user_id p =? bot_user_id env) eqn:Eb;
    [left; apply emits_final, emits_ret|].
  destruct (p_guild_id p) as [gid|] eqn:Eg; [|left; apply emits_final, emits_ret].
  destruct (gid =? 0) eqn:Ez; [left; apply emits_final, emits_ret|].
  destruct (guild_known env gid) eqn:Ek; unfold negb;
    [|left; apply emits_final, emits_ret].
  rewrite bind_query.
  destruct (get_guild_settings gid (w_db w)) as [gs|] eqn:Egs;
    [|left; apply emits_final, emits_ret].
  rewrite bind_query.
  destruct (get_active_bingo gid (w_db w)) as [bingo|] eqn:Ea;
    [|left; apply emits_final, emits_ret].
  destruct (is_signup_post bingo (p_message_id p)) eqn:Esp.
  - left; apply emits_final; unfold db_add_signup; emits_solve.
  - destruct (String.eqb (p_emoji p) APPROVE_EMOJI) eqn:Ee;
      [|left; apply emits_final, emits_ret].
    rewrite bind_query.
    destruct (get_submission_by_message (p_message_id p) (w_db w)) as [sub|] eqn:Es;
      [|left; apply emits_final, emits_ret].
    destruct (String.eqb (s_status sub) "pending") eqn:Est;
      [|left; apply emits_final, emits_ret].
    cbv zeta.
    destruct (approver_allowed (b_approvals_mode bingo)
                               (lookup_member env gid (p_user_id p))) eqn:Eal;
      [|left; apply emits_final, emits_ret].
    right; exists gid, gs, bingo, sub.
    apply Z.eqb_neq in Eb, Ez; apply String.eqb_eq in Ee, Est.
    unfold approval_signal; auto 12.
Qed.

Lemma add_approval_other (sid uid now i : Z) (db : DB) :
  i <> sid ->
  count_approvals i (add_approval sid uid now db) = count_approvals i db.
Proof.
  intros H; unfold count_approvals, add_approval; simpl.
  destruct (existsb (approval_key sid uid) (approvals db)); [reflexivity|].
  rewrite filter_app; simpl.
  apply Z.eqb_neq in H; rewrite Z.eqb_sym, H, app_nil_r; reflexivity.
Qed.

Lemma approval_keeps_quorum (env : Env) (w : World) (p : Payload) (gid : Z)
      (gs : GuildSettings) (bingo : BingoRow) (sub : SubmissionRow) :
  approval_signal env (w_db w) p gid gs bingo sub ->
  s_status sub = "pending" ->
  approver_allowed (b_approvals_mode bingo)
                   (lookup_member env gid (p_user_id p)) = true ->
  submissions_pk (w_db w) ->
  quorum_respected (w_db w) ->
  quorum_respected (w_db (final (on_raw_reaction_add env p w))).
Proof.
  intros Hsig Hst Hal Hpk Q.
  pose proof (approval_step env w p gid gs bingo sub Hsig Hst Hal) as H.
  cbv zeta in H; destruct H as (delta & E & F & _).
  rewrite E; simpl.
  destruct (refresh_replay_frame
              delta
              (if s_approvals_required sub
                  <=? count_approvals (s_id sub)
                        (add_approval (s_id sub) (p_user_id p)
                                      (clock env (w_journal w)) (w_db w))
               then set_submission_status (s_id sub) "approved"
                      (add_approval (s_id sub) (p_user_id p)
                                    (clock env (w_journal w)) (w_db w))
               else add_approval (s_id sub) (p_user_id p)
                                 (clock env (w_journal w)) (w_db w)) F)
    as (_ & _ & _ & S & A).
  apply (quorum_frame _ _ S A); clear S A E F delta.
  assert (Hin : In sub (submissions (w_db w))).
  { destruct Hsig as (_ & _ & _ & _ & _ & _ & _ & _ & Hsub).
    apply find_some in Hsub; tauto. }
  assert (Hsame : forall s, In s (submissions (w_db w)) -> s_id s = s_id sub ->
                            s = sub).
  { intros s Hs; apply (NoDup_map_inj s_id _ _ _ Hpk Hs Hin). }
  destruct (s_approvals_required sub
            <=? count_approvals (s_id sub)
                  (add_approval (s_id sub) (p_user_id p)
                                (clock env (w_journal w)) (w_db w))) eqn:Er.
  - intros s' Hs'; simpl in Hs'.
    apply in_map_iff in Hs'; destruct Hs' as (s & <- & Hs).
    change (count_approvals ?i (set_submission_status _ _ ?x))
      with (count_approvals i x).
    destruct (s_id s =? s_id sub) eqn:Ei.
    + apply Z.eqb_eq in Ei; rewrite (Hsame s Hs Ei); simpl.
      split; [intros _; apply Z.leb_le; exact Er|discriminate].
    + apply Z.eqb_neq in Ei; rewrite add_approval_other; [|exact Ei].
      apply Q; exact Hs.
  - intros s Hs; change (In s (submissions (w_db w))) in Hs.
    destruct (Z.eq_dec (s_id s) (s_id sub)) as [Ei|Ei].
    + rewrite (Hsame s Hs Ei), Hst.
      split; [discriminate|intros _; apply Z.leb_gt; exact Er].
    + rewrite add_approval_other; [|exact Ei].
      apply Q; exact Hs.
Qed.

(** No approval points to the id the next submission will get. *)
Lemma count_fresh (db : DB) :
  references_ok db -> count_approvals (next_submission_id db) db = 0.
Proof.
  intros (_ & _ & _ & R); unfold count_approvals.
  replace (filter (fun r => a_submission_id r =? next_submission_id db)
                  (approvals db)) with (@nil ApprovalRow); [reflexivity|].
  symmetry; induction (approvals db) as [|a l IH]; simpl; [reflexivity|].
  destruct (a_submission_id a =? next_submission_id db) eqn:E.
  - apply Z.eqb_eq in E.
    specialize (R a (or_introl eq_refl)).
    apply in_map_iff in R; destruct R as (s & Hs & Hin).
    pose proof (next_submission_id_fresh db s Hin); lia.
  - apply IH; intros r Hr; apply R; right; exact Hr.
Qed.

Lemma create_keeps_quorum (bid uid : Z) (desc kind : string) (now msg : Z)
      (path status : string) (required : Z) (db : DB) :
  references_ok db ->
  (status = "approved" -> required <= 0) ->
  (status = "pending" -> 0 < required) ->
  quorum_respected db ->
  quorum_respected (create_submission bid uid desc kind now msg path status
                                      required db).
Proof.
  intros R Ha Hp Q s Hs; simpl in Hs.
  change (count_approvals ?i (create_submission _ _ _ _ _ _ _ _ _ ?x))
    with (count_approvals i x).
  apply in_app_iff in Hs; destruct Hs as [Hs|[<- | []]]; [apply Q; exact Hs|].
  simpl; rewrite (count_fresh db R); split; intros H; [apply Ha|apply Hp]; exact H.
Qed.

Lemma submission_keeps_quorum (env : Env) (g author : Z) (ch : Channel)
      (desc : string) (atts : list string) (reply : option string) (w : World) :
  references_ok (w_db w) -> events_valid (w_db w) ->
  quorum_respected (w_db w) ->
  quorum_respected
    (w_db (final (handle_submission env g author ch desc atts reply w))).
Proof.
  intros R V Q.
  destruct (handle_submission_creates env g author ch desc atts reply w)
    as [(d & E & _)|(bingo & gs & Hb & _ & C)]; [rewrite E; exact Q|].
  destruct C as (pre & kind & now & msg & path & _ & C).
  cbv zeta in C; destruct C as (E & _); rewrite E; clear E.
  pose proof (V bingo (active_in_bingos g _ _ Hb)) as Hv; unfold event_valid in Hv.
  assert (Hc : quorum_respected
                 (create_submission
                    (b_id bingo) author desc kind now msg path
                    (if String.eqb (b_approvals_mode bingo) "none"
                     then "approved" else "pending")
                    (b_approvals_required bingo) (w_db w))).
  { apply create_keeps_quorum; [exact R| | |exact Q];
      destruct (String.eqb (b_approvals_mode bingo) "none");
      try discriminate; intros _; lia. }
  destruct (String.eqb (b_approvals_mode bingo) "none"); simpl; [|exact Hc].
  match goal with
  | |- context [final (update_leaderboard env g gs bingo ?w1)] =>
      destruct (emits_final refresh_action _ w1
                            (update_leaderboard_refresh env g gs bingo))
        as (d & E & F)
  end.
  rewrite E; simpl.
  match goal with
  | |- quorum_respected (replay d ?x) =>
      destruct (refresh_replay_frame d x F) as (_ & _ & _ & S & Ap)
  end.
  exact (quorum_frame _ _ S Ap Hc).
Qed.

Lemma step_keeps_quorum (env : Env) (ev : Event) (w : World) :
  keys_ok (w_db w) -> references_ok (w_db w) -> events_valid (w_db w) ->
  quorum_respected (w_db w) -> quorum_respected (w_db (step env ev w)).
Proof.
  intros K R V Q; destruct ev; simpl.
  - apply leaves_quorum; [apply bingo_tick_leaves|exact Q].
  - destruct (reaction_add_cases env payload w)
      as [(d & E & F)|(gid & gs & bingo & sub & Hsig & Hst & Hal)].
    + rewrite E; simpl; destruct (leaves_frame d (w_db w) F) as (S & A).
      exact (quorum_frame _ _ S A Q).
    + apply (approval_keeps_quorum env w payload gid gs bingo sub); auto.
      destruct K as (_ & _ & _ & _ & K & _); exact K.
  - apply leaves_quorum; [|exact Q].
    unfold on_raw_reaction_remove; emits_solve.
  - apply submission_keeps_quorum; assumption.
Qed.

Lemma Forall2_from {A} (R : A -> A -> Prop) (l l' : list A) (y : A) :
  Forall2 R l l' -> In y l' -> exists x, In x l /\ R x y.
Proof.
  induction 1 as [|x y' l l' Hxy H IH]; simpl; [contradiction|].
  intros [<- | Hy]; [exists x; auto|].
  destruct (IH Hy) as (x' & Hx' & Hr); exists x'; auto.
Qed.

Lemma grown_valid (db db' : DB) :
  grown_from db db' -> events_valid db -> events_valid db'.
Proof.
  intros (_ & B & _) V b' Hb'.
  destruct (Forall2_from _ _ _ _ B Hb') as (b & Hb & (C & _)).
  specialize (V b Hb); unfold event_valid in *.
  apply (f_equal b_approvals_mode) in C as Cm.
  apply (f_equal b_approvals_required) in C as Cr.
  simpl in Cm, Cr; rewrite Cm, Cr; exact V.
Qed.

(** X25: the quorum over whole runs.  Start from a consistent store whose
    events ask for no approval exactly when their mode is [none] and in
    which every approved submission has at least the approvals it requires
    and every pending one fewer.  Then the same holds after any sequence of
    ticks, reactions and submission commands: the bot never leaves a
    submission approved short of its quorum, nor pending with its quorum
    met. *)
Theorem quorum_kept_over_runs (env : Env) (evs : list Event) (w : World) :
  keys_ok (w_db w) -> references_ok (w_db w) -> events_valid (w_db w) ->
  quorum_respected (w_db w) ->
  quorum_respected (w_db (run env evs w)).
Proof.
  revert w; induction evs as [|ev evs IH]; intros w K R V Q; simpl; [exact Q|].
  destruct (step_consistent env ev w K R) as (K' & R').
  apply IH; [exact K'|exact R'| |apply step_keeps_quorum; assumption].
  exact (grown_valid _ _ (run_grows env [ev] w) V).
Qed.

Lemma demo_valid : events_valid demo_db.
Proof. intros b [<- | []]; unfold event_valid; simpl; lia. Qed.

Lemma demo_quorum : quorum_respected demo_db.
Proof.
  intros s [<- | [<- | []]]; simpl; split; intros H;
    try discriminate H; vm_compute; congruence.
Qed.

Lemma quorum_kept_over_runs_witness :
  let evs := [ReactionAdd (approve_by 7 60); Tick;
              Submit 1 21 (mkChannel 11 true) "kraken" ["k.png"] (Some "full");
              ReactionAdd (approve_by 8 60)] in
  keys_ok (w_db demo_world) /\ references_ok (w_db demo_world)
  /\ events_valid (w_db demo_world) /\ quorum_respected (w_db demo_world)
  /\ quorum_respected (w_db (run demo_env evs demo_world)).
Proof.
  intros evs.
  split; [exact demo_keys|]; split; [exact demo_references|].
  split; [exact demo_valid|]; split; [exact demo_quorum|].
  exact (quorum_kept_over_runs demo_env evs demo_world demo_keys demo_references
                               demo_valid demo_quorum).
Defined.

(** The run of the witness: the second approval settles submission 1, and
    the submission made in between waits for its own two approvals. *)
Example quorum_run :
  map (fun s => (s_id s, s_status s, count_approvals (s_id s)
                   (w_db (run demo_env
                              [ReactionAdd (approve_by 7 60); Tick;
                               Submit 1 21 (mkChannel 11 true) "kraken" ["k.png"]
                                      (Some "full");
                               ReactionAdd (approve_by 8 60)] demo_world))))
      (submissions
         (w_db (run demo_env
                    [ReactionAdd (approve_by 7 60); Tick;
                     Submit 1 21 (mkChannel 11 true) "kraken" ["k.png"] (Some "full");
                     ReactionAdd (approve_by 8 60)] demo_world)))
  = [(1, "approved", 2); (2, "approved", 2); (3, "pending", 0)].
Proof. vm_compute; reflexivity. Qed.
